(** * matlab_wrapper: the MATLAB engine session (matlab_session.py)

    A shallow embedding of [MatlabSession] (Python 2, ctypes, numpy) and
    of the parts of the MATLAB engine and matrix libraries it calls, with
    the properties of its marshalling and error protocol. *)

From Stdlib Require Import ZArith List String Ascii Lia Bool Arith.
From Stdlib Require Import Init.Byte.
From stdpp Require Import base gmap strings list fin_maps pretty.

Local Open Scope Z_scope.

(** ** Python objects and exceptions *)

(** The Python exceptions the module raises itself or can receive from
    [str.format], ctypes and numpy. *)
Inductive exn : Type :=
| RuntimeError (msg : string)
| NotImplementedError (msg : string)
| AttributeError (msg : string)
| ValueError (msg : string)
| IndexError (msg : string)
| KeyError (msg : string)
| TypeError (msg : string)
| UnboundLocalError (msg : string).

(** What a ctypes foreign call hands back, by the [restype] in force:
    the default [c_int] gives a Python int, [c_char_p] gives [None] for
    NULL and a byte string otherwise, [POINTER(mxArray)] always gives a
    pointer instance (also for NULL). *)
Inductive pyobj : Type :=
| PyNone
| PyInt (z : Z)
| PyStr (s : string)
| PyPointer (addr : Z).

(** [x is None] *)
Definition is_None (x : pyobj) : bool :=
  match x with PyNone => true | _ => false end.

Definition nl : string := String "010"%char EmptyString.
Definition tab : string := String "009"%char EmptyString.

(** ** [str.format] with positional arguments *)

Module Format.

Inductive pstate : Type :=
| Text
| Open
| InField (name : string)
| Close.

Inductive numbering : Type :=
| Unset
| Auto (next : nat)
| Manual.

Definition is_digit (c : ascii) : bool :=
  let n := nat_of_ascii c in (48 <=? n)%nat && (n <=? 57)%nat.

Fixpoint all_digits (s : string) : bool :=
  match s with
  | EmptyString => true
  | String c s' => is_digit c && all_digits s'
  end.

Fixpoint index_of_digits (acc : nat) (s : string) : nat :=
  match s with
  | EmptyString => acc
  | String c s' => index_of_digits (10 * acc + (nat_of_ascii c - 48))%nat s'
  end.

(** The argument a replacement field selects, and the numbering mode
    after it. *)
Definition resolve (name : string) (mode : numbering) (args : list string)
  : exn + (string * numbering) :=
  match name with
  | EmptyString =>
      match mode with
      | Manual =>
          inl (ValueError
            "cannot switch from manual field specification to automatic field numbering")
      | Unset =>
          match nth_error args 0 with
          | Some a => inr (a, Auto 1)
          | None => inl (IndexError "tuple index out of range")
          end
      | Auto n =>
          match nth_error args n with
          | Some a => inr (a, Auto (S n))
          | None => inl (IndexError "tuple index out of range")
          end
      end
  | _ =>
      if all_digits name then
        match mode with
        | Auto _ =>
            inl (ValueError
              "cannot switch from automatic field numbering to manual field specification")
        | _ =>
            match nth_error args (index_of_digits 0 name) with
            | Some a => inr (a, Manual)
            | None => inl (IndexError "tuple index out of range")
            end
        end
      else inl (KeyError name)
  end.

Definition prepend (c : ascii) (r : exn + string) : exn + string :=
  match r with
  | inr s => inr (String c s)
  | inl e => inl e
  end.

(** One left-to-right pass over the format string.  Only the format
    string is scanned: an argument is appended as it is. *)
Fixpoint scan (st : pstate) (mode : numbering) (args : list string)
         (fmt : string) : exn + string :=
  match fmt with
  | EmptyString =>
      match st with
      | Text => inr EmptyString
      | Open => inl (ValueError "Single '{' encountered in format string")
      | InField _ => inl (ValueError "unmatched '{' in format")
      | Close => inl (ValueError "Single '}' encountered in format string")
      end
  | String c rest =>
      match st with
      | Text =>
          if Ascii.eqb c "{" then scan Open mode args rest
          else if Ascii.eqb c "}" then scan Close mode args rest
          else prepend c (scan Text mode args rest)
      | Open =>
          if Ascii.eqb c "{" then prepend "{" (scan Text mode args rest)
          else if Ascii.eqb c "}" then
            match resolve EmptyString mode args with
            | inl e => inl e
            | inr (a, mode') =>
                match scan Text mode' args rest with
                | inr s => inr (a +:+ s)
                | inl e => inl e
                end
            end
          else scan (InField (String c EmptyString)) mode args rest
      | InField name =>
          if Ascii.eqb c "}" then
            match resolve name mode args with
            | inl e => inl e
            | inr (a, mode') =>
                match scan Text mode' args rest with
                | inr s => inr (a +:+ s)
                | inl e => inl e
                end
            end
          else scan (InField (name +:+ String c EmptyString)) mode args rest
      | Close =>
          if Ascii.eqb c "}" then prepend "}" (scan Text mode args rest)
          else inl (ValueError "Single '}' encountered in format string")
      end
  end.

(** [fmt.format( *args )] *)
Definition format (fmt : string) (args : list string) : exn + string :=
  scan Text Unset args fmt.

End Format.

(** ** The error-capture template *)

Fixpoint unlines (ls : list string) : string :=
  match ls with
  | [] => EmptyString
  | [l] => l
  | l :: rest => l +:+ nl +:+ unlines rest
  end.

Definition wrap_script : string :=
  unlines
    [ EmptyString;
      "ERRORSTR = '';";
      "try";
      "    {0}";
      "catch err";
      "    ERRORSTR = sprintf('%s: %s\n', err.identifier, err.message);";
      "    for i = 1:length(err.stack)";
      "        ERRORSTR = sprintf('%sError: in fuction %s in file %s line %i\n', ERRORSTR, err.stack(i,1).name, err.stack(i,1).file, err.stack(i,1).line);";
      "    end";
      "end";
      "if exist('ERRORSTR','var') == 0";
      "    ERRORSTR='';";
      "end";
      EmptyString ].

(** The template text before and after the placeholder. *)
Definition wrap_prefix : string :=
  unlines [ EmptyString; "ERRORSTR = '';"; "try"; "    " ].

Definition wrap_suffix : string :=
  unlines
    [ EmptyString;
      "catch err";
      "    ERRORSTR = sprintf('%s: %s\n', err.identifier, err.message);";
      "    for i = 1:length(err.stack)";
      "        ERRORSTR = sprintf('%sError: in fuction %s in file %s line %i\n', ERRORSTR, err.stack(i,1).name, err.stack(i,1).file, err.stack(i,1).line);";
      "    end";
      "end";
      "if exist('ERRORSTR','var') == 0";
      "    ERRORSTR='';";
      "end";
      EmptyString ].

(** ** numpy arrays *)

Inductive dtype : Type :=
| bool_
| int8 | int16 | int32 | int64
| uint8 | uint16 | uint32 | uint64
| float16 | float32 | float64
| complex64 | complex128
| object_
| string_ (n : nat)
| unicode_ (n : nat)
| datetime64
| timedelta64
| void (n : nat).

#[global] Instance dtype_eq_dec : EqDecision dtype.
Proof. solve_decision. Defined.

(** [dtype.kind] *)
Definition kind (d : dtype) : string :=
  match d with
  | bool_ => "b"
  | int8 | int16 | int32 | int64 => "i"
  | uint8 | uint16 | uint32 | uint64 => "u"
  | float16 | float32 | float64 => "f"
  | complex64 | complex128 => "c"
  | object_ => "O"
  | string_ _ => "S"
  | unicode_ _ => "U"
  | datetime64 => "M"
  | timedelta64 => "m"
  | void _ => "V"
  end.

(** [dtype.itemsize], in bytes *)
Definition itemsize (d : dtype) : nat :=
  match d with
  | bool_ | int8 | uint8 => 1
  | int16 | uint16 | float16 => 2
  | int32 | uint32 | float32 => 4
  | int64 | uint64 | float64 | complex64 | object_ | datetime64
  | timedelta64 => 8
  | complex128 => 16
  | string_ n => n
  | unicode_ n => 4 * n
  | void n => n
  end%nat.

(** [str(dtype)], for the dtypes that have a plain name *)
Definition dtype_str (d : dtype) : string :=
  match d with
  | bool_ => "bool"
  | int8 => "int8" | int16 => "int16" | int32 => "int32" | int64 => "int64"
  | uint8 => "uint8" | uint16 => "uint16" | uint32 => "uint32"
  | uint64 => "uint64"
  | float16 => "float16" | float32 => "float32" | float64 => "float64"
  | complex64 => "complex64" | complex128 => "complex128"
  | object_ => "object"
  | string_ n => "|S" +:+ pretty n
  | unicode_ n => "<U" +:+ pretty n
  | datetime64 => "datetime64"
  | timedelta64 => "timedelta64"
  | void n => "|V" +:+ pretty n
  end.

(** [np.dtype(name)] for the names the engine reports as class names and
    the literal ['bool'] *)
Definition np_dtype (name : string) : option dtype :=
  if String.eqb name "double" then Some float64
  else if String.eqb name "single" then Some float32
  else if String.eqb name "int8" then Some int8
  else if String.eqb name "int16" then Some int16
  else if String.eqb name "int32" then Some int32
  else if String.eqb name "int64" then Some int64
  else if String.eqb name "uint8" then Some uint8
  else if String.eqb name "uint16" then Some uint16
  else if String.eqb name "uint32" then Some uint32
  else if String.eqb name "uint64" then Some uint64
  else if String.eqb name "bool" then Some bool_
  else None.

(** The dtype of [a.real] and [a.imag] *)
Definition component (d : dtype) : dtype :=
  match d with
  | complex64 => float32
  | complex128 => float64
  | _ => d
  end.

(** The dtype of [a + b * 1j] for real arrays [a], [b] of dtype [d]
    (numpy's promotion of an array with a Python complex scalar): the
    single-precision complex for the floats of at most 32 bits, the
    double-precision complex for [float64], for [bool] and for every
    integer dtype. *)
Definition promote_complex (d : dtype) : dtype :=
  match d with
  | float16 | float32 | complex64 => complex64
  | _ => complex128
  end.

(** An array: its dtype, its shape, and its items listed in C order (last
    index fastest), each item as the [itemsize] bytes numpy stores.  A
    complex item is its real component followed by its imaginary one. *)
Record ndarray : Type := mk_ndarray {
  nd_dtype : dtype;
  nd_shape : list nat;
  nd_items : list (list byte)
}.

Definition prod (shape : list nat) : nat := fold_right Nat.mul 1%nat shape.

Definition nd_ndim (a : ndarray) : nat := length (nd_shape a).

(** Every multi-index of a shape, first index fastest (Fortran order) and
    last index fastest (C order). *)
Fixpoint indices_F (shape : list nat) : list (list nat) :=
  match shape with
  | [] => [[]]
  | d :: ds => flat_map (fun rest => map (fun i => i :: rest) (seq 0 d))
                        (indices_F ds)
  end.

Fixpoint indices_C (shape : list nat) : list (list nat) :=
  match shape with
  | [] => [[]]
  | d :: ds => flat_map (fun i => map (cons i) (indices_C ds)) (seq 0 d)
  end.

(** The position of a multi-index in column-major and in row-major
    storage. *)
Fixpoint offset_F (shape idx : list nat) : nat :=
  match shape, idx with
  | d :: ds, i :: rest => (i + d * offset_F ds rest)%nat
  | _, _ => 0%nat
  end.

Fixpoint offset_C (shape idx : list nat) : nat :=
  match shape, idx with
  | d :: ds, i :: rest => (i * prod ds + offset_C ds rest)%nat
  | _, _ => 0%nat
  end.

(** [a[idx]] *)
Definition item_at (a : ndarray) (idx : list nat) : list byte :=
  nth (offset_C (nd_shape a) idx) (nd_items a) [].

(** The items in Fortran order. *)
Definition items_F (a : ndarray) : list (list byte) :=
  map (item_at a) (indices_F (nd_shape a)).

(** [a.tostring('F')] *)
Definition tostring_F (a : ndarray) : list byte := concat (items_F a).

(** [a.real], [a.imag] *)
Definition real (a : ndarray) : ndarray :=
  if String.eqb (kind (nd_dtype a)) "c" then
    {| nd_dtype := component (nd_dtype a);
       nd_shape := nd_shape a;
       nd_items := map (take (itemsize (nd_dtype a) / 2)) (nd_items a) |}
  else a.

Definition imag (a : ndarray) : ndarray :=
  if String.eqb (kind (nd_dtype a)) "c" then
    {| nd_dtype := component (nd_dtype a);
       nd_shape := nd_shape a;
       nd_items := map (drop (itemsize (nd_dtype a) / 2)) (nd_items a) |}
  else
    {| nd_dtype := nd_dtype a;
       nd_shape := nd_shape a;
       nd_items := map (fun it => repeat x00 (length it)) (nd_items a) |}.

(** [np.array(value, ndmin=2)] on an array: ones are prepended to the
    shape until there are two dimensions. *)
Definition ndmin2 (a : ndarray) : ndarray :=
  {| nd_dtype := nd_dtype a;
     nd_shape := repeat 1%nat (2 - length (nd_shape a)) ++ nd_shape a;
     nd_items := nd_items a |}.

(** [a.squeeze()] *)
Definition squeeze_shape (shape : list nat) : list nat :=
  List.filter (fun d => negb (d =? 1)%nat) shape.

Definition squeeze (a : ndarray) : ndarray :=
  {| nd_dtype := nd_dtype a;
     nd_shape := squeeze_shape (nd_shape a);
     nd_items := nd_items a |}.

(** [n] consecutive chunks of [sz] bytes *)
Fixpoint chunks (sz n : nat) (buf : list byte) : list (list byte) :=
  match n with
  | O => []
  | S n' => take sz buf :: chunks sz n' (drop sz buf)
  end.

(** [np.ndarray(buffer=buf, shape=shape, dtype=d, order='F')]: the
    buffer holds the items in Fortran order; numpy refuses a buffer
    that is too small. *)
Definition ndarray_F (buf : list byte) (shape : list nat) (d : dtype)
  : exn + ndarray :=
  if (length buf <? prod shape * itemsize d)%nat then
    inl (TypeError "buffer is too small for requested array")
  else
    let stored := chunks (itemsize d) (prod shape) buf in
    inr {| nd_dtype := d;
           nd_shape := shape;
           nd_items := map (fun idx => nth (offset_F shape idx) stored [])
                           (indices_C shape) |}.

(** The values [put] accepts. *)
Inductive pyvalue : Type :=
| Str (s : string)
| Dict (keys : list string)
| ArrayLike (a : ndarray).

(** ** MATLAB arrays *)

Inductive mxClassID : Type :=
| mxUNKNOWN_CLASS
| mxCELL_CLASS
| mxSTRUCT_CLASS
| mxLOGICAL_CLASS
| mxCHAR_CLASS
| mxVOID_CLASS
| mxDOUBLE_CLASS
| mxSINGLE_CLASS
| mxINT8_CLASS
| mxUINT8_CLASS
| mxINT16_CLASS
| mxUINT16_CLASS
| mxINT32_CLASS
| mxUINT32_CLASS
| mxINT64_CLASS
| mxUINT64_CLASS
| mxFUNCTION_CLASS.

#[global] Instance mxClassID_eq_dec : EqDecision mxClassID.
Proof. solve_decision. Defined.

Definition class_code (c : mxClassID) : Z :=
  match c with
  | mxUNKNOWN_CLASS => 0
  | mxCELL_CLASS => 1
  | mxSTRUCT_CLASS => 2
  | mxLOGICAL_CLASS => 3
  | mxCHAR_CLASS => 4
  | mxVOID_CLASS => 5
  | mxDOUBLE_CLASS => 6
  | mxSINGLE_CLASS => 7
  | mxINT8_CLASS => 8
  | mxUINT8_CLASS => 9
  | mxINT16_CLASS => 10
  | mxUINT16_CLASS => 11
  | mxINT32_CLASS => 12
  | mxUINT32_CLASS => 13
  | mxINT64_CLASS => 14
  | mxUINT64_CLASS => 15
  | mxFUNCTION_CLASS => 16
  end.

Definition all_classes : list mxClassID :=
  [ mxUNKNOWN_CLASS; mxCELL_CLASS; mxSTRUCT_CLASS; mxLOGICAL_CLASS;
    mxCHAR_CLASS; mxVOID_CLASS; mxDOUBLE_CLASS; mxSINGLE_CLASS;
    mxINT8_CLASS; mxUINT8_CLASS; mxINT16_CLASS; mxUINT16_CLASS;
    mxINT32_CLASS; mxUINT32_CLASS; mxINT64_CLASS; mxUINT64_CLASS;
    mxFUNCTION_CLASS ].

Definition class_of_code (k : Z) : option mxClassID :=
  find (fun c => class_code c =? k) all_classes.

(** What [mxGetClassName] reports. *)
Definition name_of_class (c : mxClassID) : string :=
  match c with
  | mxUNKNOWN_CLASS => "unknown"
  | mxCELL_CLASS => "cell"
  | mxSTRUCT_CLASS => "struct"
  | mxLOGICAL_CLASS => "logical"
  | mxCHAR_CLASS => "char"
  | mxVOID_CLASS => "void"
  | mxDOUBLE_CLASS => "double"
  | mxSINGLE_CLASS => "single"
  | mxINT8_CLASS => "int8"
  | mxUINT8_CLASS => "uint8"
  | mxINT16_CLASS => "int16"
  | mxUINT16_CLASS => "uint16"
  | mxINT32_CLASS => "int32"
  | mxUINT32_CLASS => "uint32"
  | mxINT64_CLASS => "int64"
  | mxUINT64_CLASS => "uint64"
  | mxFUNCTION_CLASS => "function_handle"
  end.

(** What [mxGetElementSize] reports, in bytes. *)
Definition class_elem_size (c : mxClassID) : nat :=
  match c with
  | mxLOGICAL_CLASS | mxINT8_CLASS | mxUINT8_CLASS => 1
  | mxCHAR_CLASS | mxINT16_CLASS | mxUINT16_CLASS => 2
  | mxSINGLE_CLASS | mxINT32_CLASS | mxUINT32_CLASS => 4
  | mxDOUBLE_CLASS | mxINT64_CLASS | mxUINT64_CLASS
  | mxCELL_CLASS | mxFUNCTION_CLASS => 8
  | mxUNKNOWN_CLASS | mxSTRUCT_CLASS | mxVOID_CLASS => 0
  end%nat.

(** What [mxIsNumeric] reports. *)
Definition class_is_numeric (c : mxClassID) : bool :=
  match c with
  | mxDOUBLE_CLASS | mxSINGLE_CLASS
  | mxINT8_CLASS | mxUINT8_CLASS | mxINT16_CLASS | mxUINT16_CLASS
  | mxINT32_CLASS | mxUINT32_CLASS | mxINT64_CLASS | mxUINT64_CLASS => true
  | _ => false
  end.

(** The classes [mxCreateNumericArray] builds an array of. *)
Definition class_has_data (c : mxClassID) : bool :=
  class_is_numeric c
  || bool_decide (c = mxLOGICAL_CLASS) || bool_decide (c = mxCHAR_CLASS).

(** An engine array: class, dimensions, complex flag, and the real and
    imaginary data buffers in column-major order (the imaginary one is
    empty unless the array is complex). *)
Record mxArray : Type := mk_mxArray {
  mx_class : mxClassID;
  mx_dims : list nat;
  mx_complex : bool;
  mx_pr : list byte;
  mx_pi : list byte
}.

(** A pointer into an array's data, as [mxGetData] and [mxGetImagData]
    return it. *)
Inductive dataptr : Type :=
| NullData
| RealData (pm : Z)
| ImagData (pm : Z).

(** ** The process state *)

Record world : Type := mk_world {
  (** address of the running engine, if one was started *)
  engine : option Z;
  (** the engine workspace *)
  workspace : gmap string mxArray;
  (** the arrays the host process holds a handle to, by address *)
  heap : gmap Z mxArray;
  (** the next address an allocation returns *)
  next_addr : Z;
  (** the handles passed to [mxDestroyArray], latest first *)
  destroyed : list Z;
  (** the buffers made by [create_string_buffer] that stay alive *)
  buffers : gmap Z (list byte);
  (** the buffer and length registered by [engOutputBuffer] *)
  output_target : option (Z * Z);
  (** the scripts handed to [engEvalString], latest first *)
  evaluated : list string
}.

Definition set_engine (e : option Z) (w : world) : world :=
  mk_world e (workspace w) (heap w) (next_addr w) (destroyed w)
           (buffers w) (output_target w) (evaluated w).

Definition set_workspace (ws : gmap string mxArray) (w : world) : world :=
  mk_world (engine w) ws (heap w) (next_addr w) (destroyed w)
           (buffers w) (output_target w) (evaluated w).

Definition set_heap (h : gmap Z mxArray) (w : world) : world :=
  mk_world (engine w) (workspace w) h (next_addr w) (destroyed w)
           (buffers w) (output_target w) (evaluated w).

Definition set_next_addr (n : Z) (w : world) : world :=
  mk_world (engine w) (workspace w) (heap w) n (destroyed w)
           (buffers w) (output_target w) (evaluated w).

Definition set_destroyed (d : list Z) (w : world) : world :=
  mk_world (engine w) (workspace w) (heap w) (next_addr w) d
           (buffers w) (output_target w) (evaluated w).

Definition set_buffers (b : gmap Z (list byte)) (w : world) : world :=
  mk_world (engine w) (workspace w) (heap w) (next_addr w) (destroyed w)
           b (output_target w) (evaluated w).

Definition set_output_target (t : option (Z * Z)) (w : world) : world :=
  mk_world (engine w) (workspace w) (heap w) (next_addr w) (destroyed w)
           (buffers w) t (evaluated w).

Definition set_evaluated (l : list string) (w : world) : world :=
  mk_world (engine w) (workspace w) (heap w) (next_addr w) (destroyed w)
           (buffers w) (output_target w) l.

(** ** Computations: Python exceptions and native faults over the state *)

(** What goes wrong below Python: a native library reads through a NULL
    or dangling pointer, copies past a buffer, or frees twice. *)
Inductive fault : Type :=
| BadPointer
| OutOfBounds
| DoubleFree.

Inductive outcome (A : Type) : Type :=
| Ret (a : A)
| Raise (e : exn)
| Crash (f : fault).

Arguments Ret {A} a.
Arguments Raise {A} e.
Arguments Crash {A} f.

Definition M (A : Type) : Type := world -> outcome A * world.

Definition ret {A} (a : A) : M A := fun w => (Ret a, w).

Definition raise {A} (e : exn) : M A := fun w => (Raise e, w).

Definition bind {A B} (m : M A) (k : A -> M B) : M B :=
  fun w =>
    match m w with
    | (Ret a, w') => k a w'
    | (Raise e, w') => (Raise e, w')
    | (Crash f, w') => (Crash f, w')
    end.

Notation "x <- m ;; k" := (bind m (fun x => k))
  (at level 100, m at next level, right associativity).
Notation "m ;;; k" := (bind m (fun _ => k))
  (at level 100, right associativity).

(** A pure step that may raise. *)
Definition lift {A} (r : exn + A) : M A :=
  match r with
  | inr a => ret a
  | inl e => raise e
  end.

(** ** ctypes conversions *)

(** A [c_int] return value or argument: 32 bits, signed. *)
Definition c_int (z : Z) : Z := (z + 2 ^ 31) mod 2 ^ 32 - 2 ^ 31.

(** The C string a [c_char_p] argument is read as: up to the first NUL. *)
Fixpoint c_str (s : string) : string :=
  match s with
  | EmptyString => EmptyString
  | String c rest =>
      if Ascii.eqb c zero then EmptyString else String c (c_str rest)
  end.

(** How a Python object is passed to a foreign function without
    [argtypes]: an int as a C int, a pointer instance as its address,
    [None] as NULL. *)
Definition c_arg (x : pyobj) : Z :=
  match x with
  | PyInt z => c_int z
  | PyPointer a => a
  | PyNone | PyStr _ => 0
  end.

(** [ctypes.create_string_buffer(n)] as a local value *)
Definition create_string_buffer (n : nat) : list byte := repeat x00 n.

(** [buf.value]: the bytes before the first NUL *)
Fixpoint buffer_value (buf : list byte) : string :=
  match buf with
  | [] => EmptyString
  | b :: rest =>
      if Byte.eqb b x00 then EmptyString
      else String (ascii_of_byte b) (buffer_value rest)
  end.

(** [bytes] written at the start of [buf] *)
Definition overwrite (buf bytes : list byte) : list byte :=
  bytes ++ drop (length bytes) buf.

(** [str(x)] and [x != y] on the objects met here *)
Definition py_str (x : pyobj) : string :=
  match x with
  | PyNone => "None"
  | PyStr s => s
  | PyInt z => pretty z
  | PyPointer _ => "<ctypes pointer>"
  end.

#[global] Instance pyobj_eq_dec : EqDecision pyobj.
Proof. solve_decision. Defined.

Definition py_ne (x y : pyobj) : bool := negb (bool_decide (x = y)).

(** [os.path.join] (POSIX) *)
Definition ends_with_slash (p : string) : bool :=
  match rev (list_ascii_of_string p) with
  | c :: _ => Ascii.eqb c "/"
  | [] => false
  end.

Definition starts_with_slash (p : string) : bool :=
  match p with
  | String c _ => Ascii.eqb c "/"
  | EmptyString => false
  end.

Definition join2 (path b : string) : string :=
  if starts_with_slash b then b
  else if String.eqb path EmptyString || ends_with_slash path then path +:+ b
  else path +:+ "/" +:+ b.

Definition join (a : string) (p : list string) : string :=
  fold_left join2 p a.

(** ** The engine and matrix libraries *)

(** The session object. *)
Record MatlabSession : Type := mk_session {
  _ep : pyobj;
  _output_buffer : option Z
}.

Definition alloc (a : mxArray) : M Z :=
  fun w =>
    let p := next_addr w in
    (Ret p, set_next_addr (p + 1) (set_heap (<[p := a]> (heap w)) w)).

(** Read a field of the array behind a handle; NULL and dangling handles
    fault. *)
Definition with_array {A} (pm : Z) (f : mxArray -> A) : M A :=
  fun w =>
    if pm =? 0 then (Crash BadPointer, w)
    else match heap w !! pm with
         | Some a => (Ret (f a), w)
         | None => (Crash BadPointer, w)
         end.

Definition mxGetNumberOfDimensions (pm : Z) : M nat :=
  with_array pm (fun a => length (mx_dims a)).

Definition mxGetDimensions (pm : Z) : M (list nat) :=
  with_array pm mx_dims.

Definition mxGetNumberOfElements (pm : Z) : M nat :=
  with_array pm (fun a => prod (mx_dims a)).

Definition mxGetElementSize (pm : Z) : M nat :=
  with_array pm (fun a => class_elem_size (mx_class a)).

Definition mxGetClassName (pm : Z) : M string :=
  with_array pm (fun a => name_of_class (mx_class a)).

Definition mxIsNumeric (pm : Z) : M bool :=
  with_array pm (fun a => class_is_numeric (mx_class a)).

Definition mxIsComplex (pm : Z) : M bool :=
  with_array pm mx_complex.

Definition mxGetData (pm : Z) : M dataptr :=
  with_array pm (fun _ => RealData pm).

Definition mxGetImagData (pm : Z) : M dataptr :=
  with_array pm (fun a => if mx_complex a then ImagData pm else NullData).

(** The bytes behind a data pointer. *)
Definition deref (p : dataptr) (w : world) : option (list byte) :=
  match p with
  | NullData => None
  | RealData pm => mx_pr <$> heap w !! pm
  | ImagData pm => mx_pi <$> heap w !! pm
  end.

(** [ctypes.memmove(buf, src, n)] into a local buffer *)
Definition memmove_from (buf : list byte) (src : dataptr) (n : nat)
  : M (list byte) :=
  fun w =>
    match deref src w with
    | Some bytes =>
        if (n <=? length bytes)%nat && (n <=? length buf)%nat
        then (Ret (overwrite buf (take n bytes)), w)
        else (Crash OutOfBounds, w)
    | None =>
        if (n =? 0)%nat then (Ret buf, w) else (Crash BadPointer, w)
    end.

Definition store (p : dataptr) (bytes : list byte) (w : world) : world :=
  match p with
  | NullData => w
  | RealData pm =>
      set_heap (alter (fun a => mk_mxArray (mx_class a) (mx_dims a)
                                  (mx_complex a) bytes (mx_pi a))
                      pm (heap w)) w
  | ImagData pm =>
      set_heap (alter (fun a => mk_mxArray (mx_class a) (mx_dims a)
                                  (mx_complex a) (mx_pr a) bytes)
                      pm (heap w)) w
  end.

(** [ctypes.memmove(dst, src, n)] into an array's data *)
Definition memmove_to (dst : dataptr) (src : list byte) (n : nat) : M unit :=
  fun w =>
    match deref dst w with
    | Some bytes =>
        if (n <=? length bytes)%nat && (n <=? length src)%nat
        then (Ret tt, store dst (overwrite bytes (take n src)) w)
        else (Crash OutOfBounds, w)
    | None =>
        if (n =? 0)%nat then (Ret tt, w) else (Crash BadPointer, w)
    end.

(** [mxCreateNumericArray(ndim, dims, classid, complexflag)]: a
    zero-filled array, or NULL when the class has no numeric storage. *)
Definition mxCreateNumericArray (ndim : nat) (dims : list nat) (classid : Z)
           (complexflag : Z) : M Z :=
  match class_of_code classid with
  | Some c =>
      if class_has_data c then
        let shape := take ndim dims in
        let n := (prod shape * class_elem_size c)%nat in
        let cplx := negb (complexflag =? 0) in
        alloc {| mx_class := c;
                 mx_dims := shape;
                 mx_complex := cplx;
                 mx_pr := repeat x00 n;
                 mx_pi := if cplx then repeat x00 n else [] |}
      else ret 0
  | None => ret 0
  end.

(** Characters are stored as 16-bit units; the text functions give the
    low byte of each. *)
Definition char_units (s : string) : list byte :=
  flat_map (fun c => [byte_of_ascii c; x00]) (list_ascii_of_string s).

Definition mx_chars (a : mxArray) : list byte :=
  map (fun u => nth 0 u x00) (chunks 2 (prod (mx_dims a)) (mx_pr a)).

(** The char array [mxCreateString] builds: one row, or 0-by-0 for the
    empty string. *)
Definition char_array (s : string) : mxArray :=
  let n := String.length s in
  {| mx_class := mxCHAR_CLASS;
     mx_dims := if (n =? 0)%nat then [0; 0]%nat else [1; n]%nat;
     mx_complex := false;
     mx_pr := char_units s;
     mx_pi := [] |}.

Definition mxCreateString (s : string) : M Z := alloc (char_array s).

(** [mxGetString(pm, buf, buflen)]: at most [buflen - 1] characters and
    a terminating NUL are written to [buf]. *)
Definition mxGetString (pm : Z) (buf : list byte) (buflen : nat)
  : M (list byte) :=
  fun w =>
    if pm =? 0 then (Crash BadPointer, w)
    else match heap w !! pm with
         | Some a =>
             if bool_decide (mx_class a = mxCHAR_CLASS) then
               let text := take (buflen - 1) (mx_chars a) ++ [x00] in
               if (length text <=? length buf)%nat
               then (Ret (overwrite buf text), w)
               else (Crash OutOfBounds, w)
             else (Ret buf, w)
         | None => (Crash BadPointer, w)
         end.

(** [mxArrayToString(pm)] with [restype = c_char_p]: NULL, hence
    [None], unless the array is a char array. *)
Definition array_text (a : mxArray) : pyobj :=
  if bool_decide (mx_class a = mxCHAR_CLASS)
  then PyStr (buffer_value (mx_chars a ++ [x00]))
  else PyNone.

Definition mxArrayToString (pm : Z) : M pyobj :=
  with_array pm array_text.

(** [mxDestroyArray(pm)]: frees the array; NULL is ignored. *)
Definition mxDestroyArray (pm : Z) : M unit :=
  fun w =>
    if pm =? 0 then (Ret tt, w)
    else match heap w !! pm with
         | Some _ =>
             (Ret tt,
              set_destroyed (pm :: destroyed w)
                            (set_heap (delete pm (heap w)) w))
         | None => (Crash DoubleFree, w)
         end.

Section Session.

(** The world outside the module. *)

(** [launch command]: the address of the engine the command starts, 0
    when it cannot be started. *)
Variable launch : string -> Z.

(** The MATLAB interpreter: the workspace after a script and the text it
    prints. *)
Variable matlab_run :
  string -> gmap string mxArray -> gmap string mxArray * list byte.

(** [matlab_wrapper.typeconv.np_to_mat]: the class code of a dtype. *)
Variable np_to_mat : dtype -> exn + Z.

(** numpy's item [x + y * 1j] for items [x], [y] of a real dtype. *)
Variable np_add_mul_1j : dtype -> list byte -> list byte -> list byte.

(** [platform.system()] and the root found from [PATH]. *)
Variable system : string.
Variable discovered_root : option string.

(** [engOpen(command)] *)
Definition engOpen (command : string) : M Z :=
  fun w =>
    let e := launch command in
    if e =? 0 then (Ret 0, w) else (Ret e, set_engine (Some e) w).

(** [engClose(ep)] *)
Definition engClose (ep : Z) : M Z :=
  fun w =>
    if bool_decide (engine w = Some ep)
    then (Ret 0, set_engine None w)
    else (Ret 1, w).

(** The captured output lands in the registered buffer, cut to the
    registered length and NUL-terminated. *)
Definition write_output (out : list byte) (w : world) : world :=
  match output_target w with
  | Some (addr, n) =>
      set_buffers
        (alter (fun old =>
                  take (length old) (take (Z.to_nat n) out
                                     ++ repeat x00 (length old)))
               addr (buffers w)) w
  | None => w
  end.

(** [engEvalString(ep, script)] *)
Definition engEvalString (ep : Z) (script : string) : M Z :=
  fun w =>
    if bool_decide (engine w = Some ep) then
      let '(ws, out) := matlab_run script (workspace w) in
      (Ret 0,
       write_output out
         (set_evaluated (script :: evaluated w) (set_workspace ws w)))
    else (Ret 1, w).

(** [engGetVariable(ep, name)]: a copy of the variable, NULL when there
    is none. *)
Definition engGetVariable (ep : Z) (name : string) : M Z :=
  fun w =>
    if bool_decide (engine w = Some ep) then
      match workspace w !! name with
      | Some a => alloc a w
      | None => (Ret 0, w)
      end
    else (Ret 0, w).

(** [engPutVariable(ep, name, pm)]: the workspace gets a copy. *)
Definition engPutVariable (ep : Z) (name : string) (pm : Z) : M Z :=
  fun w =>
    if bool_decide (engine w = Some ep) then
      match heap w !! pm with
      | Some a => (Ret 0, set_workspace (<[name := a]> (workspace w)) w)
      | None => (Ret 1, w)
      end
    else (Ret 1, w).

(** [engOutputBuffer(ep, buffer, n)] *)
Definition engOutputBuffer (ep : Z) (buffer : Z) (n : Z) : M Z :=
  fun w =>
    if bool_decide (engine w = Some ep)
    then (Ret 0, set_output_target (Some (buffer, n)) w)
    else (Ret 1, w).

(** [ctypes.create_string_buffer(size)] kept in an attribute *)
Definition new_string_buffer (size : Z) : M Z :=
  fun w =>
    if size <? 0 then (Raise (ValueError "Array length must be >= 0"), w)
    else
      let p := next_addr w in
      (Ret p,
       set_next_addr (p + 1)
         (set_buffers (<[p := repeat x00 (Z.to_nat size)]> (buffers w)) w)).

(** ** The session: [MatlabSession] *)

Definition __init__ (options : string) (matlab_root : option string)
           (buffer_size : Z) : M MatlabSession :=
  (* Find MATLAB's root path *)
  let matlab_root :=
    match matlab_root with
    | None => discovered_root
    | Some r => Some r
    end in
  match matlab_root with
  | None => raise (RuntimeError "MATLAB location is unknown (set matlab_root)")
  | Some matlab_root =>
      (* Load libraries and start engine; loading [libeng] and [libmx]
         is taken to succeed *)
      st <- (if String.eqb system "Linux" || String.eqb system "Darwin" then
               let executable := join matlab_root ["bin"; "matlab"] in
               command <- lift (Format.format "{} {}" [executable; options]) ;;
               ep <- engOpen (c_str command) ;;
               ret (PyInt (c_int ep), command)
             else
               msg <- lift (Format.format "System {} not supported" [system]) ;;
               raise (NotImplementedError msg)) ;;
      let '(ep, command) := st in
      (if is_None ep then
         msg <- lift (Format.format
                        ("Could not start matlab using command:" +:+ nl +:+ tab
                         +:+ "{}") [command]) ;;
         raise (RuntimeError msg)
       else ret tt) ;;;
      (* Setup the output buffer *)
      if negb (buffer_size =? 0) then
        buf <- new_string_buffer buffer_size ;;
        engOutputBuffer (c_arg ep) buf (c_int (buffer_size - 1)) ;;;
        ret {| _ep := ep; _output_buffer := Some buf |}
      else
        ret {| _ep := ep; _output_buffer := None |}
  end.

Definition __del__ (self : MatlabSession) : M unit :=
  engClose (c_arg (_ep self)) ;;;
  ret tt.

(** The [output_buffer] property: [self._output_buffer.value] *)
Definition output_buffer (self : MatlabSession) : M string :=
  match _output_buffer self with
  | None => raise (AttributeError "'NoneType' object has no attribute 'value'")
  | Some addr =>
      fun w =>
        match buffers w !! addr with
        | Some buf => (Ret (buffer_value buf), w)
        | None => (Crash BadPointer, w)
        end
  end.

Definition eval (self : MatlabSession) (expression : string) : M unit :=
  expression_wrapped <- lift (Format.format wrap_script [expression]) ;;
  (* Evaluate the expression *)
  engEvalString (c_arg (_ep self)) (c_str expression_wrapped) ;;;
  (* Check for exceptions in MATLAB *)
  mxresult <- engGetVariable (c_arg (_ep self)) (c_str "ERRORSTR") ;;
  error_string <- mxArrayToString mxresult ;;
  if py_ne error_string (PyStr EmptyString) then
    msg <- lift (Format.format ("Error from MATLAB" +:+ nl +:+ "{0}")
                               [py_str error_string]) ;;
    raise (RuntimeError msg)
  else ret tt.

(** [np.ndarray(buffer=buf, shape=shape, dtype=name, order='F')] *)
Definition np_ndarray (buf : list byte) (shape : list nat) (name : string)
  : M ndarray :=
  match np_dtype name with
  | Some d => lift (ndarray_F buf shape d)
  | None => raise (TypeError "data type not understood")
  end.

(** [pyarray + pyarray_imag * 1j] *)
Definition add_mul_1j (pyarray pyarray_imag : ndarray) : ndarray :=
  {| nd_dtype := promote_complex (nd_dtype pyarray);
     nd_shape := nd_shape pyarray;
     nd_items := zip_with (np_add_mul_1j (nd_dtype pyarray))
                          (nd_items pyarray) (nd_items pyarray_imag) |}.

Definition get (self : MatlabSession) (name : string) : M pyvalue :=
  pm <- engGetVariable (c_arg (_ep self)) (c_str name) ;;
  ndims <- mxGetNumberOfDimensions pm ;;
  dims <- mxGetDimensions pm ;;
  numelems <- mxGetNumberOfElements pm ;;
  elem_size <- mxGetElementSize pm ;;
  class_name <- mxGetClassName pm ;;
  is_numeric <- mxIsNumeric pm ;;
  is_complex <- mxIsComplex pm ;;
  data <- mxGetData pm ;;
  imag_data <- mxGetImagData pm ;;
  out <- (if is_numeric : bool then
            let datasize := (numelems * elem_size)%nat in
            real_buffer <- memmove_from (create_string_buffer datasize)
                                        data datasize ;;
            pyarray <- np_ndarray real_buffer (take ndims dims) class_name ;;
            pyarray <- (if is_complex : bool then
                          imag_buffer <- memmove_from
                                           (create_string_buffer datasize)
                                           imag_data datasize ;;
                          pyarray_imag <- np_ndarray imag_buffer
                                            (take ndims dims) class_name ;;
                          ret (add_mul_1j pyarray pyarray_imag)
                        else ret pyarray) ;;
            ret (ArrayLike (squeeze pyarray))
          else if String.eqb class_name "char" then
            let datasize := (numelems + 1)%nat in
            pystring <- mxGetString pm (create_string_buffer (datasize + 1))
                                    datasize ;;
            ret (Str (buffer_value pystring))
          else if String.eqb class_name "logical" then
            let datasize := (numelems * elem_size)%nat in
            buf <- memmove_from (create_string_buffer datasize)
                                data datasize ;;
            pyarray <- np_ndarray buf (take ndims dims) "bool" ;;
            ret (ArrayLike (squeeze pyarray))
          else
            msg <- lift (Format.format "{}-arrays are not implemented"
                                       [class_name]) ;;
            raise (NotImplementedError msg)) ;;
  mxDestroyArray pm ;;;
  ret out.

(** [value.dtype.kind in ['i','u','f','c','b']] *)
Definition numeric_kind (d : dtype) : bool :=
  existsb (String.eqb (kind d)) ["i"; "u"; "f"; "c"; "b"].

Definition put (self : MatlabSession) (name : string) (value : pyvalue)
  : M unit :=
  st <- (match value with
         | Str s =>
             pm <- mxCreateString (c_str s) ;;
             ret (value, Some pm)
         | Dict _ => raise (NotImplementedError "dicts are not supported.")
         | ArrayLike a => ret (ArrayLike (ndmin2 a), None)
         end) ;;
  let '(value, pm) := st in
  pm <- (match value with
         | ArrayLike value =>
             if numeric_kind (nd_dtype value) then
               let dim := nd_shape value in
               let complex_flag := String.eqb (kind (nd_dtype value)) "c" in
               classid <- lift (np_to_mat (nd_dtype value)) ;;
               pm <- mxCreateNumericArray (nd_ndim value) dim classid
                       (if complex_flag then 1 else 0) ;;
               mat_data <- mxGetData pm ;;
               let np_data := tostring_F (real value) in
               memmove_to mat_data np_data (length np_data) ;;;
               (if complex_flag then
                  mat_data <- mxGetImagData pm ;;
                  let np_data := tostring_F (imag value) in
                  memmove_to mat_data np_data (length np_data)
                else ret tt) ;;;
               ret (Some pm)
             else
               msg <- lift (Format.format "Type {} not supported."
                                          [dtype_str (nd_dtype value)]) ;;
               raise (NotImplementedError msg)
         | _ => ret pm
         end) ;;
  match pm with
  | Some pm =>
      engPutVariable (c_arg (_ep self)) (c_str name) pm ;;;
      mxDestroyArray pm
  | None =>
      raise (UnboundLocalError
               "local variable 'pm' referenced before assignment")
  end.

End Session.

(** ** Predicates of the statements *)

(** The session's handle is the address of the running engine. *)
Definition connected (self : MatlabSession) (w : world) : Prop :=
  engine w = Some (c_arg (_ep self)).

(** The script [eval] builds around an expression. *)
Definition wrapped (expression : string) : string :=
  wrap_prefix +:+ expression +:+ wrap_suffix.

(** A value [put] has no encoding for: a dict, or an array-like whose
    element kind is none of i, u, f, c, b. *)
Definition unsupported (value : pyvalue) : Prop :=
  match value with
  | Str _ => False
  | Dict _ => True
  | ArrayLike a => kind (nd_dtype a) ∉ ["i"; "u"; "f"; "c"; "b"]
  end.

Fixpoint has_brace (s : string) : bool :=
  match s with
  | EmptyString => false
  | String c rest => Ascii.eqb c "{" || Ascii.eqb c "}" || has_brace rest
  end.

(** The dtypes of the type map. *)
Definition supported_dtype (d : dtype) : Prop :=
  d ∈ [int8; int16; int32; int64; uint8; uint16; uint32; uint64;
       float32; float64].

(** The index an item has once the unit dimensions are squeezed out. *)
Fixpoint squeeze_index (shape idx : list nat) : list nat :=
  match shape, idx with
  | d :: ds, i :: rest =>
      if (d =? 1)%nat then squeeze_index ds rest
      else i :: squeeze_index ds rest
  | _, _ => []
  end.

(** [idx] is an index of an array of this shape. *)
Definition valid_index (shape idx : list nat) : Prop := Forall2 lt idx shape.

(** The array holds one item of its dtype's size per position. *)
Definition wf_ndarray (a : ndarray) : Prop :=
  length (nd_items a) = prod (nd_shape a)
  /\ Forall (fun it => length it = itemsize (nd_dtype a)) (nd_items a).

(** [np_to_mat] sends the dtype to the code of class [c], a class with
    storage whose element size is the size of the dtype's real items. *)
Definition typemap_selects (np_to_mat : dtype -> exn + Z) (d : dtype)
           (c : mxClassID) : Prop :=
  np_to_mat d = inr (class_code c)
  /\ class_has_data c = true
  /\ class_elem_size c = itemsize (component d).

(** The data buffers of an engine array have the size its dimensions and
    class call for. *)
Definition wf_mxArray (m : mxArray) : Prop :=
  length (mx_pr m) = (prod (mx_dims m) * class_elem_size (mx_class m))%nat
  /\ (mx_complex m = true ->
      length (mx_pi m)
      = (prod (mx_dims m) * class_elem_size (mx_class m))%nat).

(** The array [put] builds for class [c] from the coerced array [v]. *)
Definition encoded (c : mxClassID) (v : ndarray) : mxArray :=
  {| mx_class := c;
     mx_dims := nd_shape v;
     mx_complex := String.eqb (kind (nd_dtype v)) "c";
     mx_pr := tostring_F (real v);
     mx_pi := if String.eqb (kind (nd_dtype v)) "c"
              then tostring_F (imag v) else [] |}.

(** ** Stand-ins for the world outside, used to run the model *)

(** Modelled from the spec: the TypeMap of [matlab_wrapper.typeconv]
    ([np_to_mat], not among the sources), "a total mapping from
    {int8/16/32/64, uint8/16/32/64, float32, float64} to an engine numeric
    class code"; any other dtype is rejected. *)
Definition np_to_mat_typemap (d : dtype) : exn + Z :=
  match d with
  | float64 => inr (class_code mxDOUBLE_CLASS)
  | float32 => inr (class_code mxSINGLE_CLASS)
  | int8 => inr (class_code mxINT8_CLASS)
  | uint8 => inr (class_code mxUINT8_CLASS)
  | int16 => inr (class_code mxINT16_CLASS)
  | uint16 => inr (class_code mxUINT16_CLASS)
  | int32 => inr (class_code mxINT32_CLASS)
  | uint32 => inr (class_code mxUINT32_CLASS)
  | int64 => inr (class_code mxINT64_CLASS)
  | uint64 => inr (class_code mxUINT64_CLASS)
  | _ => inl (NotImplementedError ("Type " +:+ dtype_str d +:+ " not supported."))
  end.

(** An interpreter whose every script leaves [text] in [ERRORSTR] and
    prints [out]. *)
Definition run_leaving (text : string) (out : list byte)
  : string -> gmap string mxArray -> gmap string mxArray * list byte :=
  fun _ ws => (<["ERRORSTR" := char_array text]> ws, out).

(** Complex items as numpy lays them out: real part, then imaginary. *)
Definition pair_components (d : dtype) (re im : list byte) : list byte :=
  re ++ im.

(** A process with an engine running at [addr] and nothing else. *)
Definition world_with_engine (addr : Z) : world :=
  {| engine := Some addr;
     workspace := ∅;
     heap := ∅;
     next_addr := 4096;
     destroyed := [];
     buffers := ∅;
     output_target := None;
     evaluated := [] |}.

Definition session_at (addr : Z) : MatlabSession :=
  {| _ep := PyInt addr; _output_buffer := None |}.

(** A process in which no engine was started. *)
Definition fresh_world : world :=
  {| engine := None;
     workspace := ∅;
     heap := ∅;
     next_addr := 4096;
     destroyed := [];
     buffers := ∅;
     output_target := None;
     evaluated := [] |}.

(** The same process with one more workspace variable. *)
Definition with_variable (name : string) (a : mxArray) (w : world) : world :=
  set_workspace (<[name := a]> (workspace w)) w.

(** A 1-by-1 cell array, as the engine hands it out. *)
Definition cell_1x1 : mxArray :=
  {| mx_class := mxCELL_CLASS;
     mx_dims := [1; 1]%nat;
     mx_complex := false;
     mx_pr := repeat x00 8;
     mx_pi := [] |}.

(** A 2-by-3 [int8] array with items 1 to 6, and a 1-by-5 one. *)
Definition sample_2x3 : ndarray :=
  {| nd_dtype := int8;
     nd_shape := [2; 3]%nat;
     nd_items := [[x01]; [x02]; [x03]; [x04]; [x05]; [x06]] |}.

Definition sample_1x5 : ndarray :=
  {| nd_dtype := int8;
     nd_shape := [1; 5]%nat;
     nd_items := [[x01]; [x02]; [x03]; [x04]; [x05]] |}.

(** A 1-by-2 complex [int16] engine array: 1 + 3i, 2 + 4i. *)
Definition sample_complex : mxArray :=
  {| mx_class := mxINT16_CLASS;
     mx_dims := [1; 2]%nat;
     mx_complex := true;
     mx_pr := [x01; x00; x02; x00];
     mx_pi := [x03; x00; x04; x00] |}.

(** A type map that also has classes for the complex dtypes and for
    [bool], the other kinds [put] lets through. *)
Definition np_to_mat_wide (d : dtype) : exn + Z :=
  match d with
  | complex128 => inr (class_code mxDOUBLE_CLASS)
  | complex64 => inr (class_code mxSINGLE_CLASS)
  | bool_ => inr (class_code mxLOGICAL_CLASS)
  | _ => np_to_mat_typemap d
  end.

(** A [complex128] vector of two items. *)
Definition sample_z : ndarray :=
  {| nd_dtype := complex128;
     nd_shape := [2%nat];
     nd_items := [repeat x01 8 ++ repeat x02 8;
                  repeat x03 8 ++ repeat x04 8] |}.

(** ** Observations of the state *)

(** What the engine holds and was told: its address, the workspace, the
    registered output buffer with the ctypes buffers, and the scripts it
    was sent. *)
Definition engine_side (w : world)
  : option Z * gmap string mxArray * gmap Z (list byte) * option (Z * Z)
    * list string :=
  (engine w, workspace w, buffers w, output_target w, evaluated w).

(** The computation leaves an observation as it found it, however it
    ends. *)
Definition preserves {A B} (obs : world -> B) (m : M A) : Prop :=
  forall w, obs (m w).2 = obs w.

(** No handle at or above the next address is allocated yet. *)
Definition fresh (w : world) : Prop :=
  forall p, next_addr w <= p -> heap w !! p = None.

(** ** Finding MATLAB's root on [PATH] *)

(** [s.split(sep)] for a one-character separator *)
Fixpoint split_on (sep : ascii) (s : string) : list string :=
  match s with
  | EmptyString => [EmptyString]
  | String c rest =>
      if Ascii.eqb c sep then EmptyString :: split_on sep rest
      else match split_on sep rest with
           | first :: others => String c first :: others
           | [] => [String c EmptyString]
           end
  end.

Definition is_slash (c : ascii) : bool := Ascii.eqb c "/".

Fixpoint drop_while (f : ascii -> bool) (l : list ascii) : list ascii :=
  match l with
  | [] => []
  | c :: rest => if f c then drop_while f rest else l
  end.

(** [os.path.dirname] (POSIX), on the characters of the path: the part
    up to the last slash, without its trailing slashes unless it is made
    of slashes only. *)
Definition dirname_chars (p : list ascii) : list ascii :=
  let head_rev := drop_while (fun c => negb (is_slash c)) (rev p) in
  if forallb is_slash head_rev then rev head_rev
  else rev (drop_while is_slash head_rev).

Definition dirname (p : string) : string :=
  string_of_list_ascii (dirname_chars (list_ascii_of_string p)).

Section Discovery.

(** The file system: [os.path.realpath] and [os.path.isfile]. *)
Variable realpath : string -> string.
Variable isfile : string -> bool.

(** The file looked for in a directory of [PATH]. *)
Definition candidate_in (path_dir : string) : string :=
  realpath (join path_dir ["matlab"]).

(** The loop over [path_dirs]: the first directory with a [matlab] file
    gives the root, two levels above the file. *)
Fixpoint find_root (path_dirs : list string) : option string :=
  match path_dirs with
  | [] => None
  | path_dir :: rest =>
      let candidate := candidate_in path_dir in
      if isfile candidate then Some (dirname (dirname candidate))
      else find_root rest
  end.

(** [os.environ.get("PATH").split(os.pathsep)] and the loop; without a
    [PATH] variable the [split] is called on [None]. *)
Definition discover (PATH : option string) : exn + option string :=
  match PATH with
  | None => inl (AttributeError "'NoneType' object has no attribute 'split'")
  | Some p => inr (find_root (split_on ":" p))
  end.

End Discovery.

(** * Properties *)

(** ** Column-major and row-major enumeration *)

Lemma nth_flat_map_uniform {A B} (f : A -> list B) (d : nat) (da : A)
      (db : B) (l : list A) :
  (forall x, length (f x) = d) ->
  forall k i, (i < d)%nat -> (k < length l)%nat ->
  nth (i + d * k) (flat_map f l) db = nth i (f (nth k l da)) db.
Proof.
  intros Hlen. induction l as [|x l IH]; intros k i Hi Hk; simpl in *.
  - lia.
  - destruct k as [|k].
    + rewrite Nat.mul_0_r, Nat.add_0_r. apply app_nth1. rewrite Hlen. lia.
    + replace (i + d * S k)%nat with (length (f x) + (i + d * k))%nat
        by (rewrite Hlen; lia).
      rewrite app_nth2_plus. apply IH; lia.
Qed.

Lemma length_flat_map_uniform {A B} (f : A -> list B) (d : nat) (l : list A) :
  (forall x, length (f x) = d) ->
  length (flat_map f l) = (d * length l)%nat.
Proof.
  intros Hlen. induction l as [|x l IH]; simpl.
  - lia.
  - rewrite length_app, Hlen, IH. lia.
Qed.

Lemma length_indices_F (shape : list nat) :
  length (indices_F shape) = prod shape.
Proof.
  induction shape as [|d ds IH]; simpl; [reflexivity|].
  rewrite (length_flat_map_uniform _ d).
  - rewrite IH. reflexivity.
  - intros rest. rewrite length_map, length_seq. reflexivity.
Qed.

Lemma length_indices_C (shape : list nat) :
  length (indices_C shape) = prod shape.
Proof.
  induction shape as [|d ds IH]; simpl; [reflexivity|].
  rewrite (length_flat_map_uniform _ (prod ds)).
  - rewrite length_seq. lia.
  - intros i. rewrite length_map. exact IH.
Qed.

Lemma offset_F_lt (shape idx : list nat) :
  valid_index shape idx -> (offset_F shape idx < prod shape)%nat.
Proof.
  unfold valid_index. intros H. induction H as [|i d rest ds Hi _ IH]; simpl.
  - lia.
  - nia.
Qed.

Lemma offset_C_lt (shape idx : list nat) :
  valid_index shape idx -> (offset_C shape idx < prod shape)%nat.
Proof.
  unfold valid_index. intros H. induction H as [|i d rest ds Hi _ IH]; simpl.
  - lia.
  - nia.
Qed.

(** The index stored at position [offset_F shape idx] of the Fortran
    enumeration is [idx]. *)
Lemma nth_indices_F (shape idx : list nat) :
  valid_index shape idx ->
  nth (offset_F shape idx) (indices_F shape) [] = idx.
Proof.
  unfold valid_index. intros H. induction H as [|i d rest ds Hi Hv IH]; simpl.
  - reflexivity.
  - rewrite (nth_flat_map_uniform _ d []).
    + rewrite IH.
      rewrite (nth_indep _ [] (0%nat :: rest))
        by (rewrite length_map, length_seq; exact Hi).
      rewrite (map_nth (fun j => j :: rest) (seq 0 d) 0%nat i).
      rewrite seq_nth by exact Hi. reflexivity.
    + intros x. rewrite length_map, length_seq. reflexivity.
    + exact Hi.
    + rewrite length_indices_F. apply offset_F_lt. exact Hv.
Qed.

Lemma indices_F_valid (shape : list nat) :
  Forall (valid_index shape) (indices_F shape).
Proof.
  induction shape as [|d ds IH]; simpl.
  - repeat constructor.
  - apply List.Forall_forall. intros idx Hin.
    apply in_flat_map in Hin. destruct Hin as [rest [Hrest Hin]].
    apply in_map_iff in Hin. destruct Hin as [i [<- Hi]].
    apply in_seq in Hi. constructor; [lia|].
    rewrite List.Forall_forall in IH. apply IH. exact Hrest.
Qed.

Lemma indices_C_valid (shape : list nat) :
  Forall (valid_index shape) (indices_C shape).
Proof.
  induction shape as [|d ds IH]; simpl.
  - repeat constructor.
  - apply List.Forall_forall. intros idx Hin.
    apply in_flat_map in Hin. destruct Hin as [i [Hi Hin]].
    apply in_map_iff in Hin. destruct Hin as [rest [<- Hrest]].
    apply in_seq in Hi. constructor; [lia|].
    rewrite List.Forall_forall in IH. apply IH. exact Hrest.
Qed.

Lemma flat_map_seq_blocks (p d : nat) :
  flat_map (fun i => seq (i * p) p) (seq 0 d) = seq 0 (d * p).
Proof.
  induction d as [|d IH].
  - reflexivity.
  - rewrite seq_S, flat_map_app, IH. simpl. rewrite app_nil_r.
    replace (p + d * p)%nat with (d * p + p)%nat by lia.
    rewrite seq_app. reflexivity.
Qed.

(** The C enumeration lists the indices by increasing row-major offset. *)
Lemma map_add_seq (b s p : nat) :
  map (fun k => (b + k)%nat) (seq s p) = seq (b + s) p.
Proof.
  revert s. induction p as [|p IH]; intros s; simpl; [reflexivity|].
  f_equal. rewrite IH. f_equal. lia.
Qed.

(** The C enumeration lists the indices by increasing row-major offset. *)
Lemma map_offset_C (shape : list nat) :
  map (offset_C shape) (indices_C shape) = seq 0 (prod shape).
Proof.
  induction shape as [|d ds IH]; simpl; [reflexivity|].
  rewrite <- flat_map_seq_blocks.
  rewrite flat_map_concat_map, concat_map, map_map, <- flat_map_concat_map.
  apply flat_map_ext. intros i.
  rewrite map_map. simpl.
  rewrite <- (map_map (offset_C ds) (fun k => (i * prod ds + k)%nat)), IH.
  rewrite map_add_seq. f_equal. lia.
Qed.

Lemma map_nth_seq {A} (l : list A) (d : A) :
  map (fun k => nth k l d) (seq 0 (length l)) = l.
Proof.
  induction l as [|x l IH]; simpl; [reflexivity|].
  f_equal. rewrite <- seq_shift, map_map. exact IH.
Qed.

(** ** Chunking a serialized buffer *)

Lemma chunks_concat (sz : nat) (l : list (list byte)) (rest : list byte) :
  Forall (fun it => length it = sz) l ->
  chunks sz (length l) (concat l ++ rest) = l.
Proof.
  induction 1 as [|it l Hit _ IH]; simpl; [reflexivity|].
  rewrite <- app_assoc.
  rewrite take_app_length' by (symmetry; exact Hit).
  rewrite drop_app_length' by (symmetry; exact Hit).
  rewrite IH. reflexivity.
Qed.

Lemma length_concat_uniform (sz : nat) (l : list (list byte)) :
  Forall (fun it => length it = sz) l ->
  length (concat l) = (length l * sz)%nat.
Proof.
  induction 1 as [|it l Hit _ IH]; simpl; [reflexivity|].
  rewrite length_app, IH, Hit. lia.
Qed.

Lemma slice_concat_uniform (sz : nat) (l : list (list byte)) (k : nat) :
  Forall (fun it => length it = sz) l ->
  (k < length l)%nat ->
  take sz (drop (k * sz) (concat l)) = nth k l [].
Proof.
  intros H. revert k. induction H as [|it l Hit _ IH]; intros k Hk; simpl in *.
  - lia.
  - destruct k as [|k]; simpl.
    + rewrite drop_0, take_app_length' by (symmetry; exact Hit).
      reflexivity.
    + replace (sz + k * sz)%nat with (length it + k * sz)%nat by lia.
      rewrite drop_app_add.
      apply IH. lia.
Qed.

(** ** Serialization of an array *)

Lemma item_at_length (a : ndarray) (idx : list nat) :
  wf_ndarray a -> valid_index (nd_shape a) idx ->
  length (item_at a idx) = itemsize (nd_dtype a).
Proof.
  intros [Hlen Hit] Hv. unfold item_at.
  rewrite List.Forall_forall in Hit. apply Hit. apply nth_In.
  rewrite Hlen. apply offset_C_lt. exact Hv.
Qed.

Lemma items_F_uniform (a : ndarray) :
  wf_ndarray a ->
  Forall (fun it => length it = itemsize (nd_dtype a)) (items_F a).
Proof.
  intros Hwf. unfold items_F. apply List.Forall_forall. intros it Hin.
  apply in_map_iff in Hin. destruct Hin as [idx [<- Hidx]].
  apply item_at_length; [exact Hwf|].
  pose proof (indices_F_valid (nd_shape a)) as Hv.
  rewrite List.Forall_forall in Hv. apply Hv. exact Hidx.
Qed.

Lemma length_items_F (a : ndarray) :
  length (items_F a) = prod (nd_shape a).
Proof. unfold items_F. rewrite length_map. apply length_indices_F. Qed.

Lemma length_tostring_F (a : ndarray) :
  wf_ndarray a ->
  length (tostring_F a) = (prod (nd_shape a) * itemsize (nd_dtype a))%nat.
Proof.
  intros Hwf. unfold tostring_F.
  rewrite (length_concat_uniform (itemsize (nd_dtype a)))
    by (apply items_F_uniform; exact Hwf).
  rewrite length_items_F. reflexivity.
Qed.

(** The item of index [idx] lies at the column-major position of [idx]
    in the serialized bytes. *)
Lemma tostring_F_column_major (a : ndarray) (idx : list nat) :
  wf_ndarray a -> valid_index (nd_shape a) idx ->
  take (itemsize (nd_dtype a))
       (drop (offset_F (nd_shape a) idx * itemsize (nd_dtype a))
             (tostring_F a))
  = item_at a idx.
Proof.
  intros Hwf Hv. unfold tostring_F.
  rewrite slice_concat_uniform.
  - unfold items_F.
    rewrite (nth_indep _ [] (item_at a []))
      by (rewrite length_map, length_indices_F; apply offset_F_lt; exact Hv).
    rewrite map_nth, nth_indices_F by exact Hv. reflexivity.
  - apply items_F_uniform. exact Hwf.
  - rewrite length_items_F. apply offset_F_lt. exact Hv.
Qed.

(** Reading the serialized bytes back as a Fortran-ordered array of the
    same shape gives the items in their original positions. *)
Lemma ndarray_F_tostring_F (a : ndarray) (d : dtype) (pad : list byte) :
  wf_ndarray a ->
  itemsize d = itemsize (nd_dtype a) ->
  ndarray_F (tostring_F a ++ pad) (nd_shape a) d
  = inr {| nd_dtype := d; nd_shape := nd_shape a; nd_items := nd_items a |}.
Proof.
  intros Hwf Hsz. unfold ndarray_F.
  rewrite length_app, length_tostring_F, Hsz by exact Hwf.
  destruct (Nat.ltb_spec
              (prod (nd_shape a) * itemsize (nd_dtype a) + length pad)
              (prod (nd_shape a) * itemsize (nd_dtype a))) as [Hlt|_];
    [lia|].
  f_equal. f_equal.
  unfold tostring_F.
  assert (Hch : chunks (itemsize (nd_dtype a)) (prod (nd_shape a))
                        (concat (items_F a) ++ pad) = items_F a).
  { rewrite <- (length_items_F a). apply chunks_concat.
    apply items_F_uniform. exact Hwf. }
  rewrite Hch.
  transitivity (map (item_at a) (indices_C (nd_shape a))).
  - apply map_ext_in. intros idx Hin.
    pose proof (indices_C_valid (nd_shape a)) as Hv.
    rewrite List.Forall_forall in Hv. specialize (Hv idx Hin).
    unfold items_F.
    rewrite (nth_indep _ [] (item_at a []))
      by (rewrite length_map, length_indices_F; apply offset_F_lt; exact Hv).
    rewrite map_nth, nth_indices_F by exact Hv. reflexivity.
  - unfold item_at.
    rewrite <- (map_map (offset_C (nd_shape a))
                        (fun k => nth k (nd_items a) [])).
    rewrite map_offset_C.
    destruct Hwf as [Hlen _]. rewrite <- Hlen. apply map_nth_seq.
Qed.

(** ** Template instantiation *)

Lemma wrap_script_split :
  wrap_script = wrap_prefix +:+ "{0}" +:+ wrap_suffix.
Proof. vm_compute. reflexivity. Qed.

(** Only the template is parsed: whatever the expression holds, it lands
    between the two halves of the template. *)
Lemma format_wrap_script (expression : string) :
  Format.format wrap_script [expression] = inr (wrapped expression).
Proof. vm_compute. reflexivity. Qed.

Lemma string_app_nil_r (s : string) : s +:+ EmptyString = s.
Proof.
  induction s as [|c s IH]; [reflexivity|].
  change (String c (s +:+ EmptyString) = String c s). f_equal. exact IH.
Qed.

Lemma format_error_message (text : string) :
  Format.format ("Error from MATLAB" +:+ nl +:+ "{0}") [text]
  = inr ("Error from MATLAB" +:+ nl +:+ text).
Proof. rewrite <- (string_app_nil_r text) at 2. vm_compute. reflexivity. Qed.

Lemma format_type_not_supported (name : string) :
  Format.format "Type {} not supported." [name]
  = inr ("Type " +:+ name +:+ " not supported.").
Proof. vm_compute. reflexivity. Qed.

Lemma format_not_implemented (name : string) :
  Format.format "{}-arrays are not implemented" [name]
  = inr (name +:+ "-arrays are not implemented").
Proof. vm_compute. reflexivity. Qed.

Lemma format_command (executable options : string) :
  Format.format "{} {}" [executable; options]
  = inr (executable +:+ " " +:+ options).
Proof. rewrite <- (string_app_nil_r options) at 2. vm_compute. reflexivity. Qed.

(** ** Running computations *)

Lemma bind_Ret {A B} (m : M A) (k : A -> M B) (w w' : world) (a : A) :
  m w = (Ret a, w') -> bind m k w = k a w'.
Proof. unfold bind. intros ->. reflexivity. Qed.

Lemma bind_Raise {A B} (m : M A) (k : A -> M B) (w w' : world) (e : exn) :
  m w = (Raise e, w') -> bind m k w = (Raise e, w').
Proof. unfold bind. intros ->. reflexivity. Qed.

Lemma bind_Crash {A B} (m : M A) (k : A -> M B) (w w' : world) (f : fault) :
  m w = (Crash f, w') -> bind m k w = (Crash f, w').
Proof. unfold bind. intros ->. reflexivity. Qed.

Lemma with_array_Ret {A} (pm : Z) (f : mxArray -> A) (w : world) (a : mxArray) :
  pm <> 0 -> heap w !! pm = Some a -> with_array pm f w = (Ret (f a), w).
Proof.
  intros Hpm Hlk. unfold with_array.
  destruct (Z.eqb_spec pm 0) as [|_]; [contradiction|].
  rewrite Hlk. reflexivity.
Qed.

Lemma with_array_NULL {A} (f : mxArray -> A) (w : world) :
  with_array 0 f w = (Crash BadPointer, w).
Proof. reflexivity. Qed.

Lemma engine_write_output (out : list byte) (w : world) :
  engine (write_output out w) = engine w.
Proof. unfold write_output. destruct (output_target w) as [[? ?]|]; reflexivity. Qed.

Lemma workspace_write_output (out : list byte) (w : world) :
  workspace (write_output out w) = workspace w.
Proof. unfold write_output. destruct (output_target w) as [[? ?]|]; reflexivity. Qed.

Lemma heap_write_output (out : list byte) (w : world) :
  heap (write_output out w) = heap w.
Proof. unfold write_output. destruct (output_target w) as [[? ?]|]; reflexivity. Qed.

Lemma next_addr_write_output (out : list byte) (w : world) :
  next_addr (write_output out w) = next_addr w.
Proof. unfold write_output. destruct (output_target w) as [[? ?]|]; reflexivity. Qed.

Lemma destroyed_write_output (out : list byte) (w : world) :
  destroyed (write_output out w) = destroyed w.
Proof. unfold write_output. destruct (output_target w) as [[? ?]|]; reflexivity. Qed.

Lemma evaluated_write_output (out : list byte) (w : world) :
  evaluated (write_output out w) = evaluated w.
Proof. unfold write_output. destruct (output_target w) as [[? ?]|]; reflexivity. Qed.

Lemma engEvalString_connected run (ep : Z) (script : string) (w : world) :
  engine w = Some ep ->
  engEvalString run ep script w
  = (Ret 0,
     write_output (run script (workspace w)).2
       (set_evaluated (script :: evaluated w)
          (set_workspace (run script (workspace w)).1 w))).
Proof.
  intros He. unfold engEvalString.
  rewrite bool_decide_eq_true_2 by exact He.
  destruct (run script (workspace w)) as [ws out]. reflexivity.
Qed.

Lemma engGetVariable_found (ep : Z) (name : string) (w : world) (a : mxArray) :
  engine w = Some ep -> workspace w !! name = Some a ->
  engGetVariable ep name w
  = (Ret (next_addr w),
     set_next_addr (next_addr w + 1)
       (set_heap (<[next_addr w := a]> (heap w)) w)).
Proof.
  intros He Hlk. unfold engGetVariable.
  rewrite bool_decide_eq_true_2 by exact He.
  rewrite Hlk. reflexivity.
Qed.

Lemma engGetVariable_missing (ep : Z) (name : string) (w : world) :
  workspace w !! name = None ->
  engGetVariable ep name w = (Ret 0, w).
Proof.
  intros Hlk. unfold engGetVariable.
  destruct (bool_decide (engine w = Some ep)); [rewrite Hlk|]; reflexivity.
Qed.

(** ** [put] refuses what it cannot encode *)

Lemma unsupported_kind (d : dtype) :
  kind d ∉ ["i"; "u"; "f"; "c"; "b"] -> numeric_kind d = false.
Proof.
  intros H. destruct d; try reflexivity; exfalso; apply H;
    apply list_elem_of_In; simpl; auto 10.
Qed.

(** C5: for every dict value, and for every array whose element kind is
    none of signed int, unsigned int, float, complex and bool, [put]
    raises [NotImplementedError] and the whole process state, the engine
    workspace included, is as it was before the call. *)
Theorem put_rejects_unsupported
        (np_to_mat : dtype -> exn + Z) (self : MatlabSession)
        (name : string) (value : pyvalue) (w : world) :
  unsupported value ->
  exists msg,
    put np_to_mat self name value w = (Raise (NotImplementedError msg), w).
Proof.
  destruct value as [s|keys|a]; simpl; intros H.
  - contradiction.
  - eexists. reflexivity.
  - exists ("Type " +:+ dtype_str (nd_dtype a) +:+ " not supported.").
    unfold put, bind, ret. simpl.
    rewrite (unsupported_kind _ H). reflexivity.
Qed.

Lemma put_rejects_unsupported_witness :
  (exists msg,
     put np_to_mat_typemap (session_at 1000) "d" (Dict ["a"; "b"])
         (world_with_engine 1000)
     = (Raise (NotImplementedError msg), world_with_engine 1000))
  /\ (exists msg,
        put np_to_mat_typemap (session_at 1000) "o"
            (ArrayLike (mk_ndarray object_ [2%nat] [[x01]; [x02]]))
            (world_with_engine 1000)
        = (Raise (NotImplementedError msg), world_with_engine 1000)).
Proof.
  split.
  - apply (put_rejects_unsupported np_to_mat_typemap (session_at 1000) "d"
             (Dict ["a"; "b"]) (world_with_engine 1000)).
    exact I.
  - apply (put_rejects_unsupported np_to_mat_typemap (session_at 1000) "o"
             (ArrayLike (mk_ndarray object_ [2%nat] [[x01]; [x02]]))
             (world_with_engine 1000)).
    simpl. intros H. apply list_elem_of_In in H. simpl in H.
    repeat (destruct H as [H|H]; [discriminate H|]). exact H.
Defined.

(** ** [eval] *)

Lemma bind_ret_l {A B} (a : A) (k : A -> M B) (w : world) :
  bind (ret a) k w = k a w.
Proof. reflexivity. Qed.

(** The state [engEvalString] leaves behind. *)
Lemma eval_connected run (self : MatlabSession) (expression : string)
      (w : world) (a : mxArray) :
  connected self w ->
  0 < next_addr w ->
  (run (c_str (wrapped expression)) (workspace w)).1 !! "ERRORSTR" = Some a ->
  let script := c_str (wrapped expression) in
  let w1 := write_output (run script (workspace w)).2
              (set_evaluated (script :: evaluated w)
                 (set_workspace (run script (workspace w)).1 w)) in
  let w2 := set_next_addr (next_addr w + 1)
              (set_heap (<[next_addr w := a]> (heap w)) w1) in
  eval run self expression w
  = (if py_ne (array_text a) (PyStr EmptyString)
     then Raise (RuntimeError
                   ("Error from MATLAB" +:+ nl +:+ py_str (array_text a)))
     else Ret tt,
     w2).
Proof.
  intros Hc Hn Hlk script w1 w2. unfold eval.
  rewrite format_wrap_script. simpl lift. rewrite bind_ret_l.
  rewrite (bind_Ret _ _ _ _ _ (engEvalString_connected run _ _ w Hc)).
  fold script. fold w1.
  assert (Hget : engGetVariable (c_arg (_ep self)) (c_str "ERRORSTR") w1
                 = (Ret (next_addr w), w2)).
  { rewrite (engGetVariable_found _ _ w1 a).
    - unfold w2, w1.
      rewrite next_addr_write_output, heap_write_output. reflexivity.
    - unfold w1. rewrite engine_write_output. exact Hc.
    - unfold w1. rewrite workspace_write_output. exact Hlk. }
  rewrite (bind_Ret _ _ _ _ _ Hget).
  assert (Htxt : mxArrayToString (next_addr w) w2 = (Ret (array_text a), w2)).
  { apply with_array_Ret; [lia|].
    unfold w2. simpl. apply lookup_insert_eq. }
  rewrite (bind_Ret _ _ _ _ _ Htxt).
  destruct (py_ne (array_text a) (PyStr EmptyString)).
  - rewrite bind_ret_l, string_app_nil_r. reflexivity.
  - reflexivity.
Qed.

(** C3: when the error-text variable is read back after execution (the
    session is connected and the script left a variable [ERRORSTR]),
    [eval] raises if and only if the text read back differs from the
    empty string; the failure is a [RuntimeError] whose message ends with
    that text verbatim; with an empty text [eval] returns [None]. *)
Theorem eval_raises_iff_error_text run (self : MatlabSession)
        (expression : string) (w : world) (a : mxArray) :
  connected self w ->
  0 < next_addr w ->
  (run (c_str (wrapped expression)) (workspace w)).1 !! "ERRORSTR" = Some a ->
  let error_string := array_text a in
  let result := (eval run self expression w).1 in
  ((exists e, result = Raise e) <-> error_string <> PyStr EmptyString)
  /\ (error_string <> PyStr EmptyString ->
      result = Raise (RuntimeError
                        ("Error from MATLAB" +:+ nl +:+ py_str error_string)))
  /\ (error_string = PyStr EmptyString -> result = Ret tt).
Proof.
  intros Hc Hn Hlk error_string result.
  pose proof (eval_connected run self expression w a Hc Hn Hlk) as Hrun.
  simpl in Hrun. unfold result. rewrite Hrun. simpl. fold error_string.
  unfold py_ne. destruct (decide (error_string = PyStr EmptyString)) as [Heq|Hne].
  - rewrite bool_decide_eq_true_2 by exact Heq. simpl.
    split; [|split].
    + split; [intros [e He]; discriminate He | intros Hne; contradiction].
    + intros Hne. contradiction.
    + reflexivity.
  - rewrite bool_decide_eq_false_2 by exact Hne. simpl.
    split; [|split].
    + split; [intros _; exact Hne | intros _; eexists; reflexivity].
    + reflexivity.
    + intros Heq. contradiction.
Qed.

Lemma eval_raises_iff_error_text_witness :
  (eval (run_leaving "MATLAB:UndefinedFunction: Undefined function 'foo'." [])
        (session_at 1000) "foo(1)" (world_with_engine 1000)).1
  = Raise (RuntimeError
             ("Error from MATLAB" +:+ nl
              +:+ "MATLAB:UndefinedFunction: Undefined function 'foo'."))
  /\ (eval (run_leaving EmptyString []) (session_at 1000) "x = 1;"
           (world_with_engine 1000)).1
     = Ret tt.
Proof.
  split.
  - apply (eval_raises_iff_error_text
             (run_leaving "MATLAB:UndefinedFunction: Undefined function 'foo'." [])
             (session_at 1000) "foo(1)" (world_with_engine 1000)
             (char_array "MATLAB:UndefinedFunction: Undefined function 'foo'.")).
    + reflexivity.
    + reflexivity.
    + reflexivity.
    + vm_compute. discriminate.
  - apply (eval_raises_iff_error_text (run_leaving EmptyString [])
             (session_at 1000) "x = 1;" (world_with_engine 1000)
             (char_array EmptyString)).
    + reflexivity.
    + reflexivity.
    + reflexivity.
    + reflexivity.
Defined.

(** After [engEvalString], nothing in [eval] sends text to the engine. *)
Lemma eval_tail_evaluated (ep : Z) (k : pyobj -> M unit) (w : world) :
  (forall x w0, evaluated (k x w0).2 = evaluated w0) ->
  evaluated
    ((mxresult <- engGetVariable ep (c_str "ERRORSTR") ;;
      error_string <- mxArrayToString mxresult ;;
      k error_string) w).2
  = evaluated w.
Proof.
  intros Hk.
  unfold bind, engGetVariable, alloc, mxArrayToString, with_array.
  repeat case_match; simplify_eq; simpl; try reflexivity;
    rewrite Hk; reflexivity.
Qed.

(** C8, the claim as stated fails: an expression with braces passes
    template instantiation, is sent to the engine, and [eval] returns. *)
Lemma eval_braces_counterexample :
  has_brace "x = {1, 2};" = true
  /\ Format.format wrap_script ["x = {1, 2};"] = inr (wrapped "x = {1, 2};")
  /\ (eval (run_leaving EmptyString []) (session_at 1000) "x = {1, 2};"
           (world_with_engine 1000)).1 = Ret tt
  /\ evaluated (eval (run_leaving EmptyString []) (session_at 1000) "x = {1, 2};"
                     (world_with_engine 1000)).2
     = [wrapped "x = {1, 2};"]
  /\ ~ (exists e,
          eval (run_leaving EmptyString []) (session_at 1000) "x = {1, 2};"
               (world_with_engine 1000)
          = (Raise e, world_with_engine 1000)).
Proof.
  repeat split; try (vm_compute; reflexivity).
  intros [e He]. vm_compute in He. discriminate He.
Qed.

(** ** [get] *)

(** C4, the code at a missing variable: [engGetVariable] returns NULL
    and [get] hands it to [mxGetNumberOfDimensions] unchecked; no Python
    exception is raised, the native library reads through NULL. *)
Theorem get_missing_variable np_add_mul_1j (self : MatlabSession)
        (name : string) (w : world) :
  workspace w !! c_str name = None ->
  get np_add_mul_1j self name w = (Crash BadPointer, w).
Proof.
  intros Hlk. unfold get.
  rewrite (bind_Ret _ _ _ _ _ (engGetVariable_missing _ _ w Hlk)).
  apply bind_Crash. reflexivity.
Qed.

Lemma get_missing_variable_witness :
  get pair_components (session_at 1000) "never_assigned"
      (world_with_engine 1000)
  = (Crash BadPointer, world_with_engine 1000).
Proof.
  apply (get_missing_variable pair_components (session_at 1000)
           "never_assigned" (world_with_engine 1000)).
  reflexivity.
Defined.

(** No step of [eval] destroys a handle. *)
Lemma eval_never_destroys run (self : MatlabSession) (expression : string)
      (w : world) :
  destroyed (eval run self expression w).2 = destroyed w.
Proof.
  unfold eval. rewrite format_wrap_script. simpl lift. rewrite bind_ret_l.
  unfold bind, engEvalString, engGetVariable, alloc, mxArrayToString,
    with_array.
  repeat case_match; simplify_eq; simpl;
    rewrite ?destroyed_write_output; try reflexivity;
    repeat match goal with
           | H : (if ?b then _ else _) _ = _ |- _ => destruct b
           | H : bind _ _ _ = _ |- _ => unfold bind, ret, raise in H; simpl in H
           | H : ret _ _ = _ |- _ => unfold ret in H
           | H : (_, _) = (_, _) |- _ => inversion H; subst; clear H
           end;
    simpl; rewrite ?destroyed_write_output; try reflexivity.
Qed.

(** C2, the code at two exit paths: [get] on a cell array raises before
    it reaches [mxDestroyArray], and [eval] never destroys the handle it
    reads [ERRORSTR] through; in both final states the handle obtained
    (address 4096) is still allocated and the log of destroyed handles is
    empty. *)
Theorem handles_left_alive :
  (let r := get pair_components (session_at 1000) "c"
                (with_variable "c" cell_1x1 (world_with_engine 1000)) in
   r.1 = Raise (NotImplementedError "cell-arrays are not implemented")
   /\ heap r.2 !! 4096 = Some cell_1x1
   /\ destroyed r.2 = [])
  /\ (let r := eval (run_leaving EmptyString []) (session_at 1000) "x = 1;"
                    (world_with_engine 1000) in
      r.1 = Ret tt
      /\ heap r.2 !! 4096 = Some (char_array EmptyString)
      /\ destroyed r.2 = []).
Proof. vm_compute. repeat split; reflexivity. Qed.

(** ** Construction *)

Lemma is_None_PyInt (z : Z) : is_None (PyInt z) = false.
Proof. reflexivity. Qed.

Lemma c_int_idem (z : Z) : c_int (c_int z) = c_int z.
Proof.
  unfold c_int.
  replace ((z + 2 ^ 31) mod 2 ^ 32 - 2 ^ 31 + 2 ^ 31)
    with ((z + 2 ^ 31) mod 2 ^ 32) by lia.
  rewrite Z.mod_mod by lia. reflexivity.
Qed.

Lemma c_int_small (z : Z) : - 2 ^ 31 <= z < 2 ^ 31 -> c_int z = z.
Proof. intros H. unfold c_int. rewrite Z.mod_small by lia. lia. Qed.

(** What [__init__] does once the root is known and the platform is
    supported: the value of [engOpen] is kept as a Python int and the
    test [self._ep is None] never holds. *)
Lemma init_run launch (system : string) (discovered_root : option string)
      (options root : string) (buffer_size : Z) (w : world) :
  system = "Linux" \/ system = "Darwin" ->
  let command := join root ["bin"; "matlab"] +:+ " " +:+ options in
  __init__ launch system discovered_root options (Some root) buffer_size w
  = (ep <- engOpen launch (c_str command) ;;
     if negb (buffer_size =? 0) then
       buf <- new_string_buffer buffer_size ;;
       engOutputBuffer (c_arg (PyInt (c_int ep))) buf
                       (c_int (buffer_size - 1)) ;;;
       ret {| _ep := PyInt (c_int ep); _output_buffer := Some buf |}
     else
       ret {| _ep := PyInt (c_int ep); _output_buffer := None |}) w.
Proof.
  intros Hsys command. unfold __init__.
  assert (Hs : String.eqb system "Linux" || String.eqb system "Darwin" = true)
    by (destruct Hsys as [-> | ->]; reflexivity).
  rewrite Hs, format_command. subst command.
  unfold bind, ret, engOpen, lift. simpl.
  destruct (launch _ =? 0); reflexivity.
Qed.

(** C7, the code when the engine cannot be started: [engOpen] returns
    NULL, ctypes hands it over as the int 0, the test [self._ep is None]
    is false, and construction completes with a null connection handle
    instead of raising. *)
Theorem init_accepts_null_engine launch (system : string)
        (discovered_root : option string) (options root : string)
        (w : world) :
  system = "Linux" \/ system = "Darwin" ->
  launch (c_str (join root ["bin"; "matlab"] +:+ " " +:+ options)) = 0 ->
  __init__ launch system discovered_root options (Some root) 0 w
  = (Ret {| _ep := PyInt 0; _output_buffer := None |}, w).
Proof.
  intros Hsys Hnull. rewrite init_run by exact Hsys.
  unfold bind, engOpen. rewrite Hnull. reflexivity.
Qed.

Lemma init_accepts_null_engine_witness :
  __init__ (fun _ => 0) "Linux" None "-nosplash" (Some "/opt/matlab") 0
           fresh_world
  = (Ret {| _ep := PyInt 0; _output_buffer := None |}, fresh_world).
Proof.
  apply (init_accepts_null_engine (fun _ => 0) "Linux" None "-nosplash"
           "/opt/matlab" fresh_world).
  - left. reflexivity.
  - reflexivity.
Defined.

(** How a successful construction came about. *)
Lemma init_success launch (system : string) (discovered_root : option string)
      (options : string) (matlab_root : option string) (buffer_size : Z)
      (w w' : world) (self : MatlabSession) :
  __init__ launch system discovered_root options matlab_root buffer_size w
  = (Ret self, w') ->
  exists (ep : Z) (w1 : world),
    _ep self = PyInt (c_int ep)
    /\ output_target w1 = output_target w
    /\ buffers w1 = buffers w
    /\ engine w' = engine w1
    /\ (if buffer_size =? 0
        then _output_buffer self = None /\ w' = w1
        else exists buf,
               _output_buffer self = Some buf
               /\ (engine w1 = Some (c_int (c_int ep)) ->
                   output_target w' = Some (buf, c_int (buffer_size - 1)))).
Proof.
  intros Hinit.
  assert (Hroot : exists root,
             __init__ launch system discovered_root options (Some root)
                      buffer_size w = (Ret self, w')).
  { destruct matlab_root as [r|]; [exists r; exact Hinit|].
    destruct discovered_root as [r|]; [exists r; exact Hinit|].
    discriminate Hinit. }
  clear Hinit. destruct Hroot as [root Hinit].
  destruct (String.eqb system "Linux" || String.eqb system "Darwin") eqn:Hs.
  - assert (Hsys : system = "Linux" \/ system = "Darwin").
    { apply orb_true_iff in Hs. destruct Hs as [Hs|Hs];
        apply String.eqb_eq in Hs; auto. }
    rewrite init_run in Hinit by exact Hsys.
    unfold bind, engOpen in Hinit.
    set (e := launch _) in Hinit.
    exists (if e =? 0 then 0 else e), (if e =? 0 then w else set_engine (Some e) w).
    destruct (e =? 0); destruct (buffer_size =? 0); simpl in Hinit |- *.
    all: unfold ret, new_string_buffer, engOutputBuffer in Hinit.
    all: try (destruct (buffer_size <? 0); [discriminate Hinit|]).
    all: simpl in Hinit.
    all: try match type of Hinit with
             | context [bool_decide ?P] =>
                 destruct (bool_decide P) eqn:Hd
             end.
    all: inversion Hinit; subst; simpl.
    all: repeat split; try reflexivity.
    all: eexists; split; [reflexivity|].
    all: intros He; try reflexivity.
    all: apply bool_decide_eq_false_1 in Hd; contradiction.
  - unfold __init__ in Hinit. rewrite Hs in Hinit.
    unfold bind in Hinit.
    destruct (Format.format "System {} not supported" [system]);
      discriminate Hinit.
Qed.

(** C10: a session constructed with buffer capacity 0 has no output
    buffer, the construction registers none with the engine, and every
    read of [output_buffer] raises [AttributeError]; a read of
    [output_buffer] returns text only if a non-zero capacity was
    requested, and then the buffer is registered with the engine, when it
    is connected, for [capacity - 1] bytes. *)
Theorem output_buffer_needs_capacity launch (system : string)
        (discovered_root : option string) (options : string)
        (matlab_root : option string) (buffer_size : Z) (w w' : world)
        (self : MatlabSession) :
  __init__ launch system discovered_root options matlab_root buffer_size w
  = (Ret self, w') ->
  (buffer_size = 0 ->
   _output_buffer self = None
   /\ output_target w' = output_target w
   /\ buffers w' = buffers w
   /\ forall w'',
        output_buffer self w''
        = (Raise (AttributeError "'NoneType' object has no attribute 'value'"),
           w''))
  /\ (forall w'' text, (output_buffer self w'').1 = Ret text ->
                       buffer_size <> 0)
  /\ (buffer_size <> 0 -> connected self w' ->
      exists buf,
        _output_buffer self = Some buf
        /\ output_target w' = Some (buf, c_int (buffer_size - 1))
        /\ (0 < buffer_size <= 2 ^ 31 ->
            c_int (buffer_size - 1) = buffer_size - 1)).
Proof.
  intros Hinit.
  destruct (init_success _ _ _ _ _ _ _ _ _ Hinit)
    as (ep & w1 & Hep & Ht & Hb & He & Hcase).
  split; [|split].
  - intros ->. simpl in Hcase. destruct Hcase as [Hnone ->].
    repeat split; try assumption.
    intros w''. unfold output_buffer. rewrite Hnone. reflexivity.
  - intros w'' text Hread Hz. subst buffer_size. simpl in Hcase.
    destruct Hcase as [Hnone _].
    unfold output_buffer in Hread. rewrite Hnone in Hread.
    discriminate Hread.
  - intros Hnz Hconn.
    destruct (Z.eqb_spec buffer_size 0) as [|_]; [contradiction|].
    destruct Hcase as (buf & Hbuf & Htarget).
    exists buf. repeat split; try assumption.
    + apply Htarget. rewrite <- He.
      unfold connected in Hconn. rewrite Hep in Hconn. exact Hconn.
    + intros Hrange. apply c_int_small. lia.
Qed.

Lemma output_buffer_needs_capacity_witness :
  (forall w'',
     output_buffer {| _ep := PyInt 1000; _output_buffer := None |} w''
     = (Raise (AttributeError "'NoneType' object has no attribute 'value'"),
        w''))
  /\ (exists buf,
        _output_buffer {| _ep := PyInt 1000; _output_buffer := Some 4096 |}
        = Some buf
        /\ output_target
             (__init__ (fun _ => 1000) "Linux" None "-nosplash"
                       (Some "/opt/matlab") 16 fresh_world).2
           = Some (buf, c_int (16 - 1))
        /\ (0 < 16 <= 2 ^ 31 -> c_int (16 - 1) = 16 - 1)).
Proof.
  split.
  - apply (output_buffer_needs_capacity (fun _ => 1000) "Linux" None
             "-nosplash" (Some "/opt/matlab") 0 fresh_world
             (__init__ (fun _ => 1000) "Linux" None "-nosplash"
                       (Some "/opt/matlab") 0 fresh_world).2
             {| _ep := PyInt 1000; _output_buffer := None |}).
    + reflexivity.
    + reflexivity.
  - apply (output_buffer_needs_capacity (fun _ => 1000) "Linux" None
             "-nosplash" (Some "/opt/matlab") 16 fresh_world
             (__init__ (fun _ => 1000) "Linux" None "-nosplash"
                       (Some "/opt/matlab") 16 fresh_world).2
             {| _ep := PyInt 1000; _output_buffer := Some 4096 |}).
    + reflexivity.
    + lia.
    + reflexivity.
Defined.

(** ** Steps of [put] and [get] *)

Lemma class_of_code_code (c : mxClassID) : class_of_code (class_code c) = Some c.
Proof. destruct c; reflexivity. Qed.

Lemma overwrite_all (buf bytes : list byte) :
  length buf = length bytes -> overwrite buf bytes = bytes.
Proof.
  intros H. unfold overwrite. rewrite drop_ge by lia. apply app_nil_r.
Qed.

Lemma mxCreateNumericArray_alloc (shape : list nat) (c : mxClassID)
      (flag : bool) (w : world) :
  class_has_data c = true ->
  mxCreateNumericArray (length shape) shape (class_code c)
                       (if flag then 1 else 0) w
  = (Ret (next_addr w),
     set_next_addr (next_addr w + 1)
       (set_heap
          (<[next_addr w :=
               {| mx_class := c;
                  mx_dims := shape;
                  mx_complex := flag;
                  mx_pr := repeat x00 (prod shape * class_elem_size c);
                  mx_pi := if flag
                           then repeat x00 (prod shape * class_elem_size c)
                           else [] |}]> (heap w)) w)).
Proof.
  intros Hc. unfold mxCreateNumericArray.
  rewrite class_of_code_code, Hc, firstn_all.
  destruct flag; reflexivity.
Qed.

Lemma memmove_to_real (pm : Z) (src : list byte) (w : world) (m : mxArray) :
  heap w !! pm = Some m ->
  length (mx_pr m) = length src ->
  memmove_to (RealData pm) src (length src) w
  = (Ret tt,
     set_heap (<[pm := mk_mxArray (mx_class m) (mx_dims m) (mx_complex m)
                                  src (mx_pi m)]> (heap w)) w).
Proof.
  intros Hlk Hlen. unfold memmove_to. simpl. rewrite Hlk. simpl.
  rewrite Hlen, Nat.leb_refl. simpl.
  rewrite firstn_all, (overwrite_all _ _ Hlen).
  f_equal. f_equal.
  apply map_eq. intros i. destruct (decide (i = pm)) as [->|Hne].
  - rewrite lookup_alter_eq, Hlk, lookup_insert_eq. reflexivity.
  - rewrite lookup_alter_ne, lookup_insert_ne by congruence. reflexivity.
Qed.

Lemma memmove_to_imag (pm : Z) (src : list byte) (w : world) (m : mxArray) :
  heap w !! pm = Some m ->
  length (mx_pi m) = length src ->
  memmove_to (ImagData pm) src (length src) w
  = (Ret tt,
     set_heap (<[pm := mk_mxArray (mx_class m) (mx_dims m) (mx_complex m)
                                  (mx_pr m) src]> (heap w)) w).
Proof.
  intros Hlk Hlen. unfold memmove_to. simpl. rewrite Hlk. simpl.
  rewrite Hlen, Nat.leb_refl. simpl.
  rewrite firstn_all, (overwrite_all _ _ Hlen).
  f_equal. f_equal.
  apply map_eq. intros i. destruct (decide (i = pm)) as [->|Hne].
  - rewrite lookup_alter_eq, Hlk, lookup_insert_eq. reflexivity.
  - rewrite lookup_alter_ne, lookup_insert_ne by congruence. reflexivity.
Qed.

Lemma memmove_from_all (src : dataptr) (bytes : list byte) (w : world) :
  deref src w = Some bytes ->
  memmove_from (create_string_buffer (length bytes)) src (length bytes) w
  = (Ret bytes, w).
Proof.
  intros Hd. unfold memmove_from, create_string_buffer. rewrite Hd.
  rewrite repeat_length, Nat.leb_refl. simpl.
  rewrite firstn_all, overwrite_all by apply repeat_length. reflexivity.
Qed.

Lemma engPutVariable_connected (ep : Z) (name : string) (pm : Z) (w : world)
      (m : mxArray) :
  engine w = Some ep -> heap w !! pm = Some m ->
  engPutVariable ep name pm w
  = (Ret 0, set_workspace (<[name := m]> (workspace w)) w).
Proof.
  intros He Hlk. unfold engPutVariable.
  rewrite bool_decide_eq_true_2 by exact He. rewrite Hlk. reflexivity.
Qed.

Lemma mxDestroyArray_live (pm : Z) (w : world) (m : mxArray) :
  pm <> 0 -> heap w !! pm = Some m ->
  mxDestroyArray pm w
  = (Ret tt,
     set_destroyed (pm :: destroyed w) (set_heap (delete pm (heap w)) w)).
Proof.
  intros Hpm Hlk. unfold mxDestroyArray.
  destruct (Z.eqb_spec pm 0) as [|_]; [contradiction|].
  rewrite Hlk. reflexivity.
Qed.

(** ** Real and imaginary parts *)

Lemma kind_complex (d : dtype) :
  String.eqb (kind d) "c" = true -> d = complex64 \/ d = complex128.
Proof. destruct d; simpl; intros H; try discriminate H; auto. Qed.

Lemma wf_real (a : ndarray) : wf_ndarray a -> wf_ndarray (real a).
Proof.
  intros [Hlen Hit]. unfold real.
  destruct (String.eqb (kind (nd_dtype a)) "c") eqn:Hk; [|split; assumption].
  split; simpl.
  - rewrite length_map. exact Hlen.
  - apply Forall_map. eapply Forall_impl; [exact Hit|].
    intros it Hl. simpl. rewrite length_take, Hl.
    destruct (kind_complex _ Hk) as [-> | ->]; reflexivity.
Qed.

Lemma wf_imag (a : ndarray) : wf_ndarray a -> wf_ndarray (imag a).
Proof.
  intros [Hlen Hit]. unfold imag.
  destruct (String.eqb (kind (nd_dtype a)) "c") eqn:Hk; split; simpl.
  - rewrite length_map. exact Hlen.
  - apply Forall_map. eapply Forall_impl; [exact Hit|].
    intros it Hl. simpl. rewrite length_drop, Hl.
    destruct (kind_complex _ Hk) as [-> | ->]; reflexivity.
  - rewrite length_map. exact Hlen.
  - apply Forall_map. eapply Forall_impl; [exact Hit|].
    intros it Hl. simpl. rewrite repeat_length. exact Hl.
Qed.

Lemma dtype_real (a : ndarray) : nd_dtype (real a) = component (nd_dtype a).
Proof.
  unfold real. destruct (String.eqb (kind (nd_dtype a)) "c") eqn:Hk.
  - reflexivity.
  - simpl. destruct (nd_dtype a); try reflexivity; discriminate Hk.
Qed.

Lemma dtype_imag_complex (a : ndarray) :
  String.eqb (kind (nd_dtype a)) "c" = true ->
  nd_dtype (imag a) = component (nd_dtype a).
Proof. intros Hk. unfold imag. rewrite Hk. reflexivity. Qed.

Lemma shape_real (a : ndarray) : nd_shape (real a) = nd_shape a.
Proof. unfold real. destruct (String.eqb _ _); reflexivity. Qed.

Lemma shape_imag (a : ndarray) : nd_shape (imag a) = nd_shape a.
Proof. unfold imag. destruct (String.eqb _ _); reflexivity. Qed.

Lemma wf_ndmin2 (a : ndarray) : wf_ndarray a -> wf_ndarray (ndmin2 a).
Proof.
  intros [Hlen Hit]. split; simpl; [|exact Hit].
  rewrite Hlen. unfold prod. rewrite fold_right_app.
  generalize (fold_right Nat.mul 1%nat (nd_shape a)) as p.
  generalize (2 - length (nd_shape a))%nat as k.
  induction k as [|k IH]; intros p; simpl; [reflexivity|].
  rewrite <- IH. lia.
Qed.

(** ** [put] on a numeric array *)

(** The state after a successful [put]: the workspace holds the encoded
    array, and the local handle was allocated and destroyed. *)
Lemma put_numeric np_to_mat (self : MatlabSession) (name : string)
      (a : ndarray) (c : mxClassID) (w : world) :
  connected self w ->
  0 < next_addr w ->
  wf_ndarray a ->
  numeric_kind (nd_dtype a) = true ->
  typemap_selects np_to_mat (nd_dtype a) c ->
  put np_to_mat self name (ArrayLike a) w
  = (Ret tt,
     mk_world (engine w)
              (<[c_str name := encoded c (ndmin2 a)]> (workspace w))
              (delete (next_addr w)
                 (<[next_addr w := encoded c (ndmin2 a)]> (heap w)))
              (next_addr w + 1)
              (next_addr w :: destroyed w)
              (buffers w) (output_target w) (evaluated w)).
Proof.
  intros Hc Hn Hwf Hk (Hmap & Hdata & Hsz).
  pose proof (wf_ndmin2 a Hwf) as Hwfv.
  set (v := ndmin2 a) in *.
  assert (Hdv : nd_dtype v = nd_dtype a) by reflexivity.
  unfold put. rewrite bind_ret_l. cbv beta iota. fold v.
  rewrite Hdv, Hk, Hmap. simpl lift.
  set (flag := String.eqb (kind (nd_dtype a)) "c").
  set (n := (prod (nd_shape v) * class_elem_size c)%nat).
  assert (Hlr : length (tostring_F (real v)) = n).
  { unfold n. rewrite length_tostring_F by (apply wf_real; exact Hwfv).
    rewrite shape_real, dtype_real, Hdv, Hsz. reflexivity. }
  set (p := next_addr w) in *.
  set (m0 := {| mx_class := c; mx_dims := nd_shape v; mx_complex := flag;
                mx_pr := repeat x00 n;
                mx_pi := if flag then repeat x00 n else [] |}).
  set (w1 := set_next_addr (p + 1) (set_heap (<[p := m0]> (heap w)) w)).
  assert (H1 : mxCreateNumericArray (nd_ndim v) (nd_shape v) (class_code c)
                 (if flag then 1 else 0) w = (Ret p, w1)).
  { unfold nd_ndim. rewrite mxCreateNumericArray_alloc by exact Hdata.
    reflexivity. }
  set (m1 := mk_mxArray c (nd_shape v) flag (tostring_F (real v))
                        (if flag then repeat x00 n else [])).
  set (w2 := set_heap (<[p := m1]> (heap w)) w1).
  assert (H2 : mxGetData p w1 = (Ret (RealData p), w1)).
  { unfold mxGetData.
    apply (with_array_Ret p (fun _ => RealData p) w1 m0); [lia|].
    apply lookup_insert_eq. }
  assert (H3 : memmove_to (RealData p) (tostring_F (real v))
                 (length (tostring_F (real v))) w1 = (Ret tt, w2)).
  { rewrite (memmove_to_real p _ w1 m0).
    - unfold w2, w1. simpl. rewrite insert_insert_eq. reflexivity.
    - apply lookup_insert_eq.
    - simpl. rewrite repeat_length. symmetry. exact Hlr. }
  set (m2 := encoded c v).
  set (w3 := set_heap (<[p := m2]> (heap w)) w1).
  assert (H4 : (if flag
                then mat_data <- mxGetImagData p ;;
                     memmove_to mat_data (tostring_F (imag v))
                                (length (tostring_F (imag v)))
                else ret tt) w2 = (Ret tt, w3)).
  { unfold w3, m2, encoded. rewrite Hdv. fold flag.
    destruct flag eqn:Hflag.
    - assert (Hli : length (tostring_F (imag v)) = n).
      { unfold n. rewrite length_tostring_F by (apply wf_imag; exact Hwfv).
        rewrite shape_imag, dtype_imag_complex
          by (rewrite Hdv; exact Hflag).
        rewrite Hdv, Hsz. reflexivity. }
      assert (Hg : mxGetImagData p w2 = (Ret (ImagData p), w2)).
      { unfold mxGetImagData.
        rewrite (with_array_Ret p _ w2 m1); [reflexivity|lia|].
        apply lookup_insert_eq. }
      rewrite (bind_Ret _ _ _ _ _ Hg).
      rewrite (memmove_to_imag p _ w2 m1).
      + unfold w2. simpl. rewrite insert_insert_eq. reflexivity.
      + apply lookup_insert_eq.
      + simpl. rewrite repeat_length. symmetry. exact Hli.
    - reflexivity. }
  rewrite (bind_Ret _ _ w w3 (Some p)).
  - rewrite (bind_Ret _ _ _ _ _
               (engPutVariable_connected _ (c_str name) p w3 m2 Hc
                  (lookup_insert_eq _ _ _))).
    rewrite (mxDestroyArray_live p _ m2).
    + reflexivity.
    + lia.
    + apply lookup_insert_eq.
  - rewrite bind_ret_l.
    rewrite (bind_Ret _ _ _ _ _ H1).
    rewrite (bind_Ret _ _ _ _ _ H2).
    rewrite (bind_Ret _ _ _ _ _ H3).
    rewrite (bind_Ret _ _ _ _ _ H4).
    reflexivity.
Qed.

Lemma numeric_kind_elem (d : dtype) :
  kind d ∈ ["i"; "u"; "f"; "c"; "b"] -> numeric_kind d = true.
Proof.
  intros H. apply list_elem_of_In in H. simpl in H.
  destruct d; try reflexivity;
    repeat (destruct H as [H|H]; [discriminate H|]); contradiction.
Qed.

Lemma length_ndmin2_shape (a : ndarray) :
  (2 <= length (nd_shape (ndmin2 a)))%nat.
Proof. simpl. rewrite length_app, repeat_length. lia. Qed.


(** ** [get] on a numeric array *)

Lemma numeric_class_dtype (c : mxClassID) :
  class_is_numeric c = true ->
  exists d, np_dtype (name_of_class c) = Some d
            /\ itemsize d = class_elem_size c
            /\ String.eqb (kind d) "c" = false.
Proof.
  destruct c; intros H; try discriminate H; eexists;
    (split; [reflexivity|split; reflexivity]).
Qed.

(** Both decode paths of a numeric array, and the state they leave: the
    handle obtained from the engine is destroyed. *)
Lemma get_numeric np_add_mul_1j (self : MatlabSession) (name : string)
      (w : world) (m : mxArray) (d : dtype) (re : ndarray) :
  connected self w ->
  0 < next_addr w ->
  workspace w !! c_str name = Some m ->
  class_is_numeric (mx_class m) = true ->
  wf_mxArray m ->
  np_dtype (name_of_class (mx_class m)) = Some d ->
  ndarray_F (mx_pr m) (mx_dims m) d = inr re ->
  let w' := mk_world (engine w) (workspace w)
                     (delete (next_addr w) (<[next_addr w := m]> (heap w)))
                     (next_addr w + 1) (next_addr w :: destroyed w)
                     (buffers w) (output_target w) (evaluated w) in
  (mx_complex m = false ->
   get np_add_mul_1j self name w = (Ret (ArrayLike (squeeze re)), w'))
  /\ (forall im,
        mx_complex m = true ->
        ndarray_F (mx_pi m) (mx_dims m) d = inr im ->
        get np_add_mul_1j self name w
        = (Ret (ArrayLike (squeeze (add_mul_1j np_add_mul_1j re im))), w')).
Proof.
  intros Hc Hn Hlk Hnum [Hpr Hpi] Hd Hre w'.
  set (p := next_addr w) in *.
  set (w1 := set_next_addr (p + 1) (set_heap (<[p := m]> (heap w)) w)).
  assert (Hget : engGetVariable (c_arg (_ep self)) (c_str name) w
                 = (Ret p, w1))
    by (apply engGetVariable_found; assumption).
  assert (Hp : p <> 0) by lia.
  assert (Hh : heap w1 !! p = Some m) by apply lookup_insert_eq.
  assert (Hreal : memmove_from
                    (create_string_buffer
                       (prod (mx_dims m) * class_elem_size (mx_class m)))
                    (RealData p)
                    (prod (mx_dims m) * class_elem_size (mx_class m)) w1
                  = (Ret (mx_pr m), w1)).
  { rewrite <- Hpr. apply memmove_from_all. unfold deref. rewrite Hh.
    reflexivity. }
  assert (Harr : np_ndarray (mx_pr m) (take (length (mx_dims m)) (mx_dims m))
                            (name_of_class (mx_class m)) w1
                 = (Ret re, w1)).
  { unfold np_ndarray. rewrite Hd, firstn_all, Hre. reflexivity. }
  assert (Hdestroy : mxDestroyArray p w1 = (Ret tt, w')).
  { rewrite (mxDestroyArray_live p w1 m Hp Hh). reflexivity. }
  assert (Hrun :
            get np_add_mul_1j self name w
            = ((out <- (real_buffer <- memmove_from
                          (create_string_buffer
                             (prod (mx_dims m)
                              * class_elem_size (mx_class m)))
                          (RealData p)
                          (prod (mx_dims m) * class_elem_size (mx_class m)) ;;
                        pyarray <- np_ndarray real_buffer
                                     (take (length (mx_dims m)) (mx_dims m))
                                     (name_of_class (mx_class m)) ;;
                        pyarray <- (if mx_complex m then
                                      imag_buffer <- memmove_from
                                        (create_string_buffer
                                           (prod (mx_dims m)
                                            * class_elem_size (mx_class m)))
                                        (if mx_complex m then ImagData p
                                         else NullData)
                                        (prod (mx_dims m)
                                         * class_elem_size (mx_class m)) ;;
                                      pyarray_imag <- np_ndarray imag_buffer
                                        (take (length (mx_dims m)) (mx_dims m))
                                        (name_of_class (mx_class m)) ;;
                                      ret (add_mul_1j np_add_mul_1j pyarray
                                                      pyarray_imag)
                                    else ret pyarray) ;;
                        ret (ArrayLike (squeeze pyarray))) ;;
                mxDestroyArray p ;;; ret out) w1)).
  { unfold get. rewrite (bind_Ret _ _ _ _ _ Hget).
    unfold mxGetNumberOfDimensions, mxGetDimensions, mxGetNumberOfElements,
      mxGetElementSize, mxGetClassName, mxIsNumeric, mxIsComplex, mxGetData,
      mxGetImagData.
    repeat rewrite (bind_Ret _ _ _ _ _ (with_array_Ret p _ w1 m Hp Hh)).
    rewrite Hnum. reflexivity. }
  split.
  - intros Hcx. rewrite Hrun, Hcx.
    unfold bind at 1. unfold bind at 1.
    rewrite Hreal. unfold bind at 1. rewrite Harr.
    unfold bind at 1. unfold ret at 1. unfold ret at 1.
    unfold bind. rewrite Hdestroy. reflexivity.
  - intros im Hcx Him. rewrite Hrun, Hcx.
    assert (Himag : memmove_from
                      (create_string_buffer
                         (prod (mx_dims m) * class_elem_size (mx_class m)))
                      (ImagData p)
                      (prod (mx_dims m) * class_elem_size (mx_class m)) w1
                    = (Ret (mx_pi m), w1)).
    { rewrite <- (Hpi Hcx). apply memmove_from_all. unfold deref.
      rewrite Hh. reflexivity. }
    assert (Harri : np_ndarray (mx_pi m)
                      (take (length (mx_dims m)) (mx_dims m))
                      (name_of_class (mx_class m)) w1
                    = (Ret im, w1)).
    { unfold np_ndarray. rewrite Hd, firstn_all, Him. reflexivity. }
    unfold bind. rewrite Hreal, Harr, Himag, Harri. unfold ret.
    rewrite Hdestroy. reflexivity.
Qed.

(** ** Squeezing *)

Lemma prod_squeeze_shape (shape : list nat) :
  prod (squeeze_shape shape) = prod shape.
Proof.
  induction shape as [|d ds IH]; [reflexivity|].
  change (squeeze_shape (d :: ds))
    with (if negb (d =? 1)%nat then d :: squeeze_shape ds
          else squeeze_shape ds).
  destruct (Nat.eqb_spec d 1) as [->|Hd]; simpl.
  - rewrite IH. lia.
  - rewrite IH. reflexivity.
Qed.

Lemma squeeze_shape_ones (k : nat) (shape : list nat) :
  squeeze_shape (repeat 1%nat k ++ shape) = squeeze_shape shape.
Proof. induction k as [|k IH]; [reflexivity|exact IH]. Qed.

(** Squeezing moves no item: the row-major offset of an index is the
    offset of the squeezed index in the squeezed shape. *)
Lemma offset_C_squeeze (shape idx : list nat) :
  valid_index shape idx ->
  offset_C (squeeze_shape shape) (squeeze_index shape idx)
  = offset_C shape idx.
Proof.
  unfold valid_index. intros H.
  induction H as [|i d rest ds Hi _ IH]; [reflexivity|].
  change (squeeze_shape (d :: ds))
    with (if negb (d =? 1)%nat then d :: squeeze_shape ds
          else squeeze_shape ds).
  simpl squeeze_index.
  destruct (Nat.eqb_spec d 1) as [->|Hd]; simpl.
  - rewrite IH. replace i with 0%nat by lia. reflexivity.
  - rewrite IH. f_equal. f_equal. apply prod_squeeze_shape.
Qed.

(** ** Round trip *)

Lemma class_of_dtype_name (c : mxClassID) (d : dtype) :
  np_dtype (name_of_class c) = Some d ->
  class_is_numeric c = true
  /\ class_has_data c = true
  /\ class_elem_size c = itemsize d
  /\ component d = d
  /\ String.eqb (kind d) "c" = false
  /\ numeric_kind d = true.
Proof.
  destruct c; intros H; try discriminate H;
    injection H as <-; repeat split; reflexivity.
Qed.

Lemma real_of_real (a : ndarray) :
  String.eqb (kind (nd_dtype a)) "c" = false -> real a = a.
Proof. intros H. unfold real. rewrite H. reflexivity. Qed.

(** C1: for every array [x] of a dtype of the type map and of any shape
    (so also 1-D, 2-D and 3-D, with or without unit dimensions), [put]
    followed by [get] on a connected session returns an array of the same
    dtype whose shape is the shape of [x] without its unit dimensions and
    whose items are those of [x], item by item: the item at an index of
    [x] is the item at the squeezed index of the result. *)
Theorem put_get_round_trip np_to_mat np_add_mul_1j (self : MatlabSession)
        (name : string) (x : ndarray) (c : mxClassID) (w : world) :
  connected self w ->
  0 < next_addr w ->
  wf_ndarray x ->
  supported_dtype (nd_dtype x) ->
  np_to_mat (nd_dtype x) = inr (class_code c) ->
  np_dtype (name_of_class c) = Some (nd_dtype x) ->
  exists (w1 w2 : world) (y : ndarray),
    put np_to_mat self name (ArrayLike x) w = (Ret tt, w1)
    /\ get np_add_mul_1j self name w1 = (Ret (ArrayLike y), w2)
    /\ nd_dtype y = nd_dtype x
    /\ nd_shape y = squeeze_shape (nd_shape x)
    /\ nd_items y = nd_items x
    /\ forall idx, valid_index (nd_shape x) idx ->
         item_at y (squeeze_index (nd_shape x) idx) = item_at x idx.
Proof.
  intros Hc Hn Hwf _ Hmap Hname.
  destruct (class_of_dtype_name c _ Hname)
    as (Hnum & Hdata & Hsz & Hcomp & Hreal & Hkind).
  assert (Hsel : typemap_selects np_to_mat (nd_dtype x) c).
  { repeat split; [exact Hmap|exact Hdata|]. rewrite Hcomp. exact Hsz. }
  pose proof (put_numeric np_to_mat self name x c w Hc Hn Hwf Hkind Hsel)
    as Hput.
  pose proof (wf_ndmin2 x Hwf) as Hwfv.
  set (v := ndmin2 x) in *.
  assert (Hdv : nd_dtype v = nd_dtype x) by reflexivity.
  assert (Hsv : squeeze_shape (nd_shape v) = squeeze_shape (nd_shape x))
    by apply squeeze_shape_ones.
  assert (Hiv : nd_items v = nd_items x) by reflexivity.
  clearbody v.
  assert (Hrv : real v = v) by (apply real_of_real; rewrite Hdv; exact Hreal).
  set (m := encoded c v) in *.
  set (w1 := mk_world _ _ _ _ _ _ _ _) in Hput.
  assert (Hm : mx_complex m = false)
    by (unfold m; simpl; rewrite Hdv; exact Hreal).
  assert (Hwfm : wf_mxArray m).
  { split; [|rewrite Hm; discriminate].
    unfold m. simpl. rewrite Hrv, length_tostring_F by exact Hwfv.
    rewrite Hdv, Hsz. reflexivity. }
  assert (Hre : ndarray_F (mx_pr m) (mx_dims m) (nd_dtype x)
                = inr {| nd_dtype := nd_dtype x;
                         nd_shape := nd_shape v;
                         nd_items := nd_items v |}).
  { unfold m. simpl. rewrite Hrv.
    rewrite <- (app_nil_r (tostring_F v)).
    apply ndarray_F_tostring_F; [exact Hwfv|rewrite Hdv; reflexivity]. }
  assert (Hc1 : connected self w1) by exact Hc.
  assert (Hn1 : 0 < next_addr w1) by (simpl; lia).
  assert (Hlk1 : workspace w1 !! c_str name = Some m)
    by (simpl; apply lookup_insert_eq).
  destruct (get_numeric np_add_mul_1j self name w1 m (nd_dtype x) _
              Hc1 Hn1 Hlk1 Hnum Hwfm Hname Hre) as [Hget _].
  specialize (Hget Hm).
  eexists w1, _, _. split; [exact Hput|]. split; [exact Hget|].
  split; [reflexivity|].
  split; [exact Hsv|].
  split; [exact Hiv|].
  intros idx Hv. unfold item_at. simpl.
  rewrite Hsv, Hiv, offset_C_squeeze by exact Hv.
  reflexivity.
Qed.

Lemma put_get_round_trip_witness :
  exists (w1 w2 : world) (y : ndarray),
    put np_to_mat_typemap (session_at 1000) "a" (ArrayLike sample_1x5)
        (world_with_engine 1000) = (Ret tt, w1)
    /\ get pair_components (session_at 1000) "a" w1 = (Ret (ArrayLike y), w2)
    /\ nd_shape y = [5%nat]
    /\ nd_items y = nd_items sample_1x5.
Proof.
  destruct (put_get_round_trip np_to_mat_typemap pair_components
              (session_at 1000) "a" sample_1x5 mxINT8_CLASS
              (world_with_engine 1000))
    as (w1 & w2 & y & Hput & Hget & _ & Hshape & Hitems & _).
  - reflexivity.
  - reflexivity.
  - split; [reflexivity|]. repeat constructor.
  - apply list_elem_of_In. simpl. auto.
  - reflexivity.
  - reflexivity.
  - exists w1, w2, y. repeat split; assumption.
Defined.

(** ** Complex arrays *)

Lemma ndarray_F_enough (buf : list byte) (shape : list nat) (d : dtype) :
  length buf = (prod shape * itemsize d)%nat ->
  exists a, ndarray_F buf shape d = inr a
            /\ nd_dtype a = d /\ nd_shape a = shape.
Proof.
  intros Hlen. unfold ndarray_F. rewrite Hlen, Nat.ltb_irrefl.
  eexists. repeat split.
Qed.

(** The complex branch of [put] fills both buffers, and [get] gives the
    items back when numpy's [x + y * 1j] pairs the components. *)
Example put_get_complex :
  let w1 := (put np_to_mat_wide (session_at 1000) "z" (ArrayLike sample_z)
                 (world_with_engine 1000)).2 in
  workspace w1 !! "z"
  = Some {| mx_class := mxDOUBLE_CLASS;
            mx_dims := [1; 2]%nat;
            mx_complex := true;
            mx_pr := repeat x01 8 ++ repeat x03 8;
            mx_pi := repeat x02 8 ++ repeat x04 8 |}
  /\ (get pair_components (session_at 1000) "z" w1).1
     = Ret (ArrayLike sample_z).
Proof. vm_compute. split; reflexivity. Qed.

(** A boolean array comes back through the logical path with dtype
    [bool], and a text value comes back as the same text. *)
Example put_get_logical_and_text :
  (get pair_components (session_at 1000) "b"
       (put np_to_mat_wide (session_at 1000) "b"
            (ArrayLike (mk_ndarray bool_ [3%nat] [[x01]; [x00]; [x01]]))
            (world_with_engine 1000)).2).1
  = Ret (ArrayLike (mk_ndarray bool_ [3%nat] [[x01]; [x00]; [x01]]))
  /\ (get pair_components (session_at 1000) "s"
          (put np_to_mat_wide (session_at 1000) "s" (Str "hello")
               (world_with_engine 1000)).2).1
     = Ret (Str "hello").
Proof. vm_compute. split; reflexivity. Qed.

(** ** What [get] leaves alone *)

Lemma preserves_ret {A B} (obs : world -> B) (a : A) : preserves obs (ret a).
Proof. intros w. reflexivity. Qed.

Lemma preserves_raise {A B} (obs : world -> B) (e : exn) :
  preserves obs (raise e : M A).
Proof. intros w. reflexivity. Qed.

Lemma preserves_lift {A B} (obs : world -> B) (r : exn + A) :
  preserves obs (lift r).
Proof. intros w. destruct r; reflexivity. Qed.

Lemma preserves_bind {A B C} (obs : world -> C) (m : M A) (k : A -> M B) :
  preserves obs m -> (forall a, preserves obs (k a)) ->
  preserves obs (bind m k).
Proof.
  intros Hm Hk w. unfold bind. specialize (Hm w).
  destruct (m w) as [[a|e|f] w1]; simpl in *.
  - rewrite Hk. exact Hm.
  - exact Hm.
  - exact Hm.
Qed.

Lemma preserves_with_array {A B} (obs : world -> B) (pm : Z)
      (f : mxArray -> A) :
  preserves obs (with_array pm f).
Proof.
  intros w. unfold with_array.
  destruct (pm =? 0); [reflexivity|].
  destruct (heap w !! pm); reflexivity.
Qed.

Lemma preserves_memmove_from {B} (obs : world -> B) (buf : list byte)
      (src : dataptr) (n : nat) :
  preserves obs (memmove_from buf src n).
Proof.
  intros w. unfold memmove_from.
  destruct (deref src w); [|destruct (n =? 0)%nat; reflexivity].
  destruct (_ && _); reflexivity.
Qed.

Lemma preserves_mxGetString {B} (obs : world -> B) (pm : Z)
      (buf : list byte) (n : nat) :
  preserves obs (mxGetString pm buf n).
Proof.
  intros w. unfold mxGetString.
  destruct (pm =? 0); [reflexivity|].
  destruct (heap w !! pm); [|reflexivity].
  destruct (bool_decide _); [|reflexivity].
  destruct (_ <=? _)%nat; reflexivity.
Qed.

Lemma engine_side_engGetVariable (ep : Z) (name : string) :
  preserves engine_side (engGetVariable ep name).
Proof.
  intros w. unfold engGetVariable.
  destruct (bool_decide _); [|reflexivity].
  destruct (workspace w !! name); reflexivity.
Qed.

Lemma engine_side_mxDestroyArray (pm : Z) :
  preserves engine_side (mxDestroyArray pm).
Proof.
  intros w. unfold mxDestroyArray.
  destruct (pm =? 0); [reflexivity|].
  destruct (heap w !! pm); reflexivity.
Qed.

Lemma preserves_np_ndarray {B} (obs : world -> B) (buf : list byte)
      (shape : list nat) (name : string) :
  preserves obs (np_ndarray buf shape name).
Proof.
  unfold np_ndarray. destruct (np_dtype name);
    [apply preserves_lift|apply preserves_raise].
Qed.

Ltac preserves_step :=
  first
    [ apply preserves_ret
    | apply preserves_raise
    | apply preserves_lift
    | apply preserves_with_array
    | apply preserves_memmove_from
    | apply preserves_mxGetString
    | apply preserves_np_ndarray
    | apply engine_side_engGetVariable
    | apply engine_side_mxDestroyArray
    | apply preserves_bind; [|intros ?]
    | match goal with
      | |- preserves _ (if ?b then _ else _) => destruct b
      end ].

(** X1: [get] only reads: whatever the name and however the call ends
    (value, exception or fault), the engine, its workspace, the output
    buffers and the scripts sent are as before the call. *)
Theorem get_is_read_only np_add_mul_1j (self : MatlabSession)
        (name : string) (w : world) :
  let w' := (get np_add_mul_1j self name w).2 in
  engine w' = engine w
  /\ workspace w' = workspace w
  /\ buffers w' = buffers w
  /\ output_target w' = output_target w
  /\ evaluated w' = evaluated w.
Proof.
  assert (H : preserves engine_side (get np_add_mul_1j self name)).
  { unfold get, mxGetNumberOfDimensions, mxGetDimensions,
      mxGetNumberOfElements, mxGetElementSize, mxGetClassName, mxIsNumeric,
      mxIsComplex, mxGetData, mxGetImagData.
    repeat preserves_step. }
  specialize (H w). unfold engine_side in H.
  injection H as H1 H2 H3 H4 H5. repeat split; assumption.
Qed.

(** ** Text values *)

Lemma buffer_value_cut (l rest : list byte) :
  buffer_value (l ++ x00 :: rest) = buffer_value (l ++ [x00]).
Proof.
  induction l as [|b l IH]; simpl; [reflexivity|].
  destruct (Byte.eqb b x00); [reflexivity|]. rewrite IH. reflexivity.
Qed.

Lemma c_str_no_nul (s : string) :
  Forall (fun c => c <> zero) (list_ascii_of_string (c_str s)).
Proof.
  induction s as [|c s IH]; simpl; [constructor|].
  destruct (Ascii.eqb_spec c zero) as [|Hne]; simpl; [constructor|].
  constructor; assumption.
Qed.

Lemma c_str_id (s : string) :
  Forall (fun c => c <> zero) (list_ascii_of_string s) -> c_str s = s.
Proof.
  induction s as [|c s IH]; simpl; intros H; [reflexivity|].
  inversion H as [|? ? Hc Hs]; subst.
  destruct (Ascii.eqb_spec c zero) as [|_]; [contradiction|].
  rewrite IH by exact Hs. reflexivity.
Qed.

Lemma buffer_value_text (l : list ascii) :
  Forall (fun c => c <> zero) l ->
  buffer_value (map byte_of_ascii l ++ [x00]) = string_of_list_ascii l.
Proof.
  induction 1 as [|c l Hc _ IH]; simpl; [reflexivity|].
  destruct (Byte.eqb (byte_of_ascii c) x00) eqn:Hb.
  - apply Byte.byte_dec_bl in Hb. exfalso. apply Hc.
    rewrite <- (ascii_of_byte_of_ascii c), Hb. reflexivity.
  - rewrite ascii_of_byte_of_ascii, IH. reflexivity.
Qed.

Lemma chunks_char_units (l : list ascii) (rest : list byte) :
  chunks 2 (length l)
         (flat_map (fun c => [byte_of_ascii c; x00]) l ++ rest)
  = map (fun c => [byte_of_ascii c; x00]) l.
Proof.
  induction l as [|c l IH]; [reflexivity|].
  cbn [length flat_map map app chunks firstn skipn]. f_equal. exact IH.
Qed.

Lemma length_list_ascii (s : string) :
  length (list_ascii_of_string s) = String.length s.
Proof. induction s as [|c s IH]; simpl; [reflexivity|]. rewrite IH. reflexivity. Qed.

(** The characters of the array [mxCreateString] builds are the bytes of
    the string. *)
Lemma mx_chars_char_array (s : string) :
  mx_chars (char_array s) = map byte_of_ascii (list_ascii_of_string s).
Proof.
  unfold mx_chars, char_array, char_units. simpl mx_pr. simpl mx_dims.
  assert (Hn : prod (if (String.length s =? 0)%nat then [0; 0]%nat
                     else [1%nat; String.length s])
               = length (list_ascii_of_string s)).
  { rewrite length_list_ascii.
    destruct (Nat.eqb_spec (String.length s) 0) as [->|_]; simpl; lia. }
  rewrite Hn.
  rewrite <- (app_nil_r (flat_map _ _)), chunks_char_units, map_map.
  reflexivity.
Qed.

Lemma length_chunks (sz n : nat) (buf : list byte) :
  length (chunks sz n buf) = n.
Proof.
  revert buf. induction n as [|n IH]; intros buf; simpl; [reflexivity|].
  rewrite IH. reflexivity.
Qed.

(** The [char] path of [get]: the text of the array, as [eval] reads it
    through [mxArrayToString], and the handle is destroyed. *)
Lemma get_char np_add_mul_1j (self : MatlabSession) (name : string)
      (w : world) (m : mxArray) :
  connected self w ->
  0 < next_addr w ->
  workspace w !! c_str name = Some m ->
  mx_class m = mxCHAR_CLASS ->
  get np_add_mul_1j self name w
  = (Ret (Str (buffer_value (mx_chars m ++ [x00]))),
     mk_world (engine w) (workspace w)
              (delete (next_addr w) (<[next_addr w := m]> (heap w)))
              (next_addr w + 1) (next_addr w :: destroyed w)
              (buffers w) (output_target w) (evaluated w)).
Proof.
  intros Hc Hn Hlk Hcls.
  set (p := next_addr w) in *.
  set (w1 := set_next_addr (p + 1) (set_heap (<[p := m]> (heap w)) w)).
  assert (Hget : engGetVariable (c_arg (_ep self)) (c_str name) w
                 = (Ret p, w1))
    by (apply engGetVariable_found; assumption).
  assert (Hp : p <> 0) by lia.
  assert (Hh : heap w1 !! p = Some m) by apply lookup_insert_eq.
  unfold get. rewrite (bind_Ret _ _ _ _ _ Hget).
  unfold mxGetNumberOfDimensions, mxGetDimensions, mxGetNumberOfElements,
    mxGetElementSize, mxGetClassName, mxIsNumeric, mxIsComplex, mxGetData,
    mxGetImagData.
  repeat rewrite (bind_Ret _ _ _ _ _ (with_array_Ret p _ w1 m Hp Hh)).
  rewrite Hcls. simpl class_is_numeric. simpl name_of_class. cbv iota.
  simpl String.eqb. cbv iota.
  set (n := prod (mx_dims m)).
  assert (Hstr : mxGetString p (create_string_buffer (n + 1 + 1)) (n + 1) w1
                 = (Ret (mx_chars m ++ x00 :: [x00]), w1)).
  { unfold mxGetString.
    destruct (Z.eqb_spec p 0) as [|_]; [contradiction|].
    rewrite Hh, Hcls. simpl bool_decide. cbv iota.
    assert (Hlen : length (mx_chars m) = n)
      by (unfold mx_chars; rewrite length_map; apply length_chunks).
    replace (n + 1 - 1)%nat with n by lia.
    rewrite (take_ge (mx_chars m) n) by lia.
    unfold create_string_buffer, overwrite.
    rewrite length_app, repeat_length, Hlen. simpl length.
    destruct (Nat.leb_spec (n + 1) (n + 1 + 1)) as [_|Hbad]; [|lia].
    rewrite repeat_app, drop_app_length' by (rewrite repeat_length; lia).
    rewrite <- app_assoc. reflexivity. }
  unfold bind at 1. unfold bind at 1. rewrite Hstr.
  unfold ret at 1. rewrite buffer_value_cut.
  unfold bind.
  rewrite (mxDestroyArray_live p w1 m Hp Hh). reflexivity.
Qed.

(** X2: a text value put into the workspace comes back from [get] as the
    same text, up to its first NUL (the C string [mxCreateString]
    receives); without a NUL it is the identical text. *)
Theorem put_get_text_round_trip np_to_mat np_add_mul_1j
        (self : MatlabSession) (name : string) (s : string) (w : world) :
  connected self w ->
  0 < next_addr w ->
  exists w1 w2 : world,
    put np_to_mat self name (Str s) w = (Ret tt, w1)
    /\ workspace w1 !! c_str name = Some (char_array (c_str s))
    /\ get np_add_mul_1j self name w1 = (Ret (Str (c_str s)), w2)
    /\ (Forall (fun c => c <> zero) (list_ascii_of_string s) ->
        get np_add_mul_1j self name w1 = (Ret (Str s), w2)).
Proof.
  intros Hc Hn.
  set (m := char_array (c_str s)).
  set (p := next_addr w).
  set (w0 := set_next_addr (p + 1) (set_heap (<[p := m]> (heap w)) w)).
  set (w1 := mk_world (engine w) (<[c_str name := m]> (workspace w))
                      (delete p (<[p := m]> (heap w)))
                      (p + 1) (p :: destroyed w)
                      (buffers w) (output_target w) (evaluated w)).
  assert (Hput : put np_to_mat self name (Str s) w = (Ret tt, w1)).
  { unfold put.
    assert (Hcreate : mxCreateString (c_str s) w = (Ret p, w0))
      by reflexivity.
    rewrite (bind_Ret _ _ w w0 (Str s, Some p))
      by (rewrite (bind_Ret _ _ _ _ _ Hcreate); reflexivity).
    cbv beta iota. rewrite bind_ret_l.
    rewrite (bind_Ret _ _ _ _ _
               (engPutVariable_connected _ (c_str name) p w0 m Hc
                  (lookup_insert_eq _ _ _))).
    rewrite (mxDestroyArray_live p _ m).
    - reflexivity.
    - unfold p. lia.
    - apply lookup_insert_eq. }
  assert (Hlk : workspace w1 !! c_str name = Some m)
    by apply lookup_insert_eq.
  assert (Hget := get_char np_add_mul_1j self name w1 m Hc
                    ltac:(simpl; unfold p; lia) Hlk eq_refl).
  assert (Htext : buffer_value (mx_chars m ++ [x00]) = c_str s).
  { unfold m. rewrite mx_chars_char_array, buffer_value_text
      by apply c_str_no_nul.
    apply string_of_list_ascii_of_string. }
  rewrite Htext in Hget.
  exists w1. eexists. split; [exact Hput|]. split; [exact Hlk|].
  split; [exact Hget|].
  intros Hs. rewrite Hget, (c_str_id s Hs). reflexivity.
Qed.

Lemma put_get_text_round_trip_witness :
  exists w1 w2 : world,
    put np_to_mat_typemap (session_at 1000) "s" (Str "hello world")
        (world_with_engine 1000) = (Ret tt, w1)
    /\ get pair_components (session_at 1000) "s" w1
       = (Ret (Str "hello world"), w2).
Proof.
  destruct (put_get_text_round_trip np_to_mat_typemap pair_components
              (session_at 1000) "s" "hello world" (world_with_engine 1000))
    as (w1 & w2 & Hput & _ & Hget & _).
  - reflexivity.
  - reflexivity.
  - exists w1, w2. split; assumption.
Defined.

(** X3: after [eval], failed or not, [get('ERRORSTR')] returns the very text
    [eval] tested: the message of a raised [RuntimeError] is
    ['Error from MATLAB\n'] followed by it. *)
Theorem eval_then_get_error_text run np_add_mul_1j (self : MatlabSession)
        (expression : string) (w : world) (a : mxArray) :
  connected self w ->
  0 < next_addr w ->
  (run (c_str (wrapped expression)) (workspace w)).1 !! "ERRORSTR" = Some a ->
  mx_class a = mxCHAR_CLASS ->
  exists text : string,
    array_text a = PyStr text
    /\ (get np_add_mul_1j self "ERRORSTR"
            (eval run self expression w).2).1 = Ret (Str text)
    /\ (text <> EmptyString ->
        (eval run self expression w).1
        = Raise (RuntimeError ("Error from MATLAB" +:+ nl +:+ text))).
Proof.
  intros Hc Hn Hlk Hcls.
  pose proof (eval_connected run self expression w a Hc Hn Hlk) as Hrun.
  simpl in Hrun.
  exists (buffer_value (mx_chars a ++ [x00])).
  assert (Htext : array_text a = PyStr (buffer_value (mx_chars a ++ [x00]))).
  { unfold array_text. rewrite Hcls. reflexivity. }
  split; [exact Htext|]. rewrite Hrun. split.
  - simpl snd.
    rewrite (get_char np_add_mul_1j self "ERRORSTR" _ a).
    + reflexivity.
    + unfold connected. simpl. rewrite engine_write_output. exact Hc.
    + simpl. lia.
    + simpl. rewrite workspace_write_output. exact Hlk.
    + exact Hcls.
  - intros Hne. simpl fst. rewrite Htext. simpl py_str.
    unfold py_ne. rewrite bool_decide_eq_false_2; [reflexivity|].
    intros Heq. injection Heq as Heq. contradiction.
Qed.

Lemma eval_then_get_error_text_witness :
  (get pair_components (session_at 1000) "ERRORSTR"
       (eval (run_leaving "MATLAB:m: bad" []) (session_at 1000) "f(1)"
             (world_with_engine 1000)).2).1
  = Ret (Str "MATLAB:m: bad").
Proof.
  destruct (eval_then_get_error_text (run_leaving "MATLAB:m: bad" [])
              pair_components (session_at 1000) "f(1)"
              (world_with_engine 1000) (char_array "MATLAB:m: bad"))
    as (text & Htext & Hget & _).
  - reflexivity.
  - reflexivity.
  - reflexivity.
  - reflexivity.
  - rewrite Hget. vm_compute in Htext. injection Htext as <-. reflexivity.
Defined.

(** ** Logical arrays *)

(** The [logical] path of [get]. *)
Lemma get_logical np_add_mul_1j (self : MatlabSession) (name : string)
      (w : world) (m : mxArray) (a : ndarray) :
  connected self w ->
  0 < next_addr w ->
  workspace w !! c_str name = Some m ->
  mx_class m = mxLOGICAL_CLASS ->
  length (mx_pr m) = prod (mx_dims m) ->
  ndarray_F (mx_pr m) (mx_dims m) bool_ = inr a ->
  get np_add_mul_1j self name w
  = (Ret (ArrayLike (squeeze a)),
     mk_world (engine w) (workspace w)
              (delete (next_addr w) (<[next_addr w := m]> (heap w)))
              (next_addr w + 1) (next_addr w :: destroyed w)
              (buffers w) (output_target w) (evaluated w)).
Proof.
  intros Hc Hn Hlk Hcls Hlen Harr.
  set (p := next_addr w) in *.
  set (w1 := set_next_addr (p + 1) (set_heap (<[p := m]> (heap w)) w)).
  assert (Hget : engGetVariable (c_arg (_ep self)) (c_str name) w
                 = (Ret p, w1))
    by (apply engGetVariable_found; assumption).
  assert (Hp : p <> 0) by lia.
  assert (Hh : heap w1 !! p = Some m) by apply lookup_insert_eq.
  unfold get. rewrite (bind_Ret _ _ _ _ _ Hget).
  unfold mxGetNumberOfDimensions, mxGetDimensions, mxGetNumberOfElements,
    mxGetElementSize, mxGetClassName, mxIsNumeric, mxIsComplex, mxGetData,
    mxGetImagData.
  repeat rewrite (bind_Ret _ _ _ _ _ (with_array_Ret p _ w1 m Hp Hh)).
  rewrite Hcls. simpl class_is_numeric. simpl name_of_class.
  simpl class_elem_size. cbv iota. simpl String.eqb. cbv iota.
  rewrite Nat.mul_1_r, <- Hlen.
  assert (Hmove : memmove_from (create_string_buffer (length (mx_pr m)))
                    (RealData p) (length (mx_pr m)) w1
                  = (Ret (mx_pr m), w1)).
  { apply memmove_from_all. unfold deref. rewrite Hh. reflexivity. }
  assert (Hnd : np_ndarray (mx_pr m) (take (length (mx_dims m)) (mx_dims m))
                           "bool" w1 = (Ret a, w1)).
  { unfold np_ndarray. rewrite firstn_all.
    change (np_dtype "bool") with (Some bool_). cbv iota.
    rewrite Harr. reflexivity. }
  unfold bind. rewrite Hmove, Hnd. unfold ret.
  rewrite (mxDestroyArray_live p w1 m Hp Hh). reflexivity.
Qed.

(** X4: a boolean array put into the workspace, with a type map that sends
    [bool] to the logical class, comes back from [get] with dtype [bool]
    (not an integer dtype), squeezed shape and the same items. *)
Theorem put_get_logical_round_trip np_to_mat np_add_mul_1j
        (self : MatlabSession) (name : string) (x : ndarray) (w : world) :
  connected self w ->
  0 < next_addr w ->
  wf_ndarray x ->
  nd_dtype x = bool_ ->
  np_to_mat bool_ = inr (class_code mxLOGICAL_CLASS) ->
  exists (w1 w2 : world) (y : ndarray),
    put np_to_mat self name (ArrayLike x) w = (Ret tt, w1)
    /\ get np_add_mul_1j self name w1 = (Ret (ArrayLike y), w2)
    /\ nd_dtype y = bool_
    /\ nd_shape y = squeeze_shape (nd_shape x)
    /\ nd_items y = nd_items x.
Proof.
  intros Hc Hn Hwf Hd Hmap.
  assert (Hsel : typemap_selects np_to_mat (nd_dtype x) mxLOGICAL_CLASS)
    by (rewrite Hd; repeat split; exact Hmap).
  assert (Hkind : numeric_kind (nd_dtype x) = true)
    by (rewrite Hd; reflexivity).
  pose proof (put_numeric np_to_mat self name x _ w Hc Hn Hwf Hkind Hsel)
    as Hput.
  pose proof (wf_ndmin2 x Hwf) as Hwfv.
  set (v := ndmin2 x) in *.
  assert (Hdv : nd_dtype v = bool_) by exact Hd.
  assert (Hsv : squeeze_shape (nd_shape v) = squeeze_shape (nd_shape x))
    by apply squeeze_shape_ones.
  assert (Hiv : nd_items v = nd_items x) by reflexivity.
  clearbody v.
  assert (Hrv : real v = v) by (apply real_of_real; rewrite Hdv; reflexivity).
  set (m := encoded mxLOGICAL_CLASS v) in *.
  set (w1 := mk_world _ _ _ _ _ _ _ _) in Hput.
  assert (Hlen : length (mx_pr m) = prod (mx_dims m)).
  { unfold m. simpl. rewrite Hrv, length_tostring_F by exact Hwfv.
    rewrite Hdv. simpl. lia. }
  assert (Hre : ndarray_F (mx_pr m) (mx_dims m) bool_
                = inr {| nd_dtype := bool_;
                         nd_shape := nd_shape v;
                         nd_items := nd_items v |}).
  { unfold m. simpl. rewrite Hrv.
    rewrite <- (app_nil_r (tostring_F v)).
    apply ndarray_F_tostring_F; [exact Hwfv|rewrite Hdv; reflexivity]. }
  assert (Hc1 : connected self w1) by exact Hc.
  assert (Hn1 : 0 < next_addr w1) by (simpl; lia).
  assert (Hlk1 : workspace w1 !! c_str name = Some m)
    by (simpl; apply lookup_insert_eq).
  pose proof (get_logical np_add_mul_1j self name w1 m _
                Hc1 Hn1 Hlk1 eq_refl Hlen Hre) as Hget.
  eexists w1, _, _. split; [exact Hput|]. split; [exact Hget|].
  split; [reflexivity|]. split; [exact Hsv|exact Hiv].
Qed.

Lemma put_get_logical_round_trip_witness :
  exists (w1 w2 : world) (y : ndarray),
    get pair_components (session_at 1000) "b"
        (put np_to_mat_wide (session_at 1000) "b"
             (ArrayLike (mk_ndarray bool_ [1; 3]%nat [[x01]; [x00]; [x01]]))
             (world_with_engine 1000)).2
    = (Ret (ArrayLike y), w2)
    /\ w1 = (put np_to_mat_wide (session_at 1000) "b"
                 (ArrayLike (mk_ndarray bool_ [1; 3]%nat
                                        [[x01]; [x00]; [x01]]))
                 (world_with_engine 1000)).2
    /\ nd_dtype y = bool_
    /\ nd_shape y = [3%nat].
Proof.
  destruct (put_get_logical_round_trip np_to_mat_wide pair_components
              (session_at 1000) "b"
              (mk_ndarray bool_ [1; 3]%nat [[x01]; [x00]; [x01]])
              (world_with_engine 1000))
    as (w1 & w2 & y & Hput & Hget & Hdt & Hshape & _).
  - reflexivity.
  - reflexivity.
  - split; [reflexivity|]. repeat constructor.
  - reflexivity.
  - reflexivity.
  - exists w1, w2, y. rewrite Hput. simpl snd.
    repeat split; assumption.
Defined.

(** ** Decoding order *)

Lemma nth_indices_C (shape idx : list nat) :
  valid_index shape idx ->
  nth (offset_C shape idx) (indices_C shape) [] = idx.
Proof.
  unfold valid_index. intros H. induction H as [|i d rest ds Hi Hv IH]; simpl.
  - reflexivity.
  - replace (i * prod ds + offset_C ds rest)%nat
      with (offset_C ds rest + prod ds * i)%nat by lia.
    rewrite (nth_flat_map_uniform _ (prod ds) 0%nat).
    + rewrite seq_nth by exact Hi. simpl.
      rewrite (nth_indep _ [] (i :: []))
        by (rewrite length_map, length_indices_C; apply offset_C_lt; exact Hv).
      rewrite (map_nth (cons i) (indices_C ds) [] (offset_C ds rest)).
      rewrite IH. reflexivity.
    + intros j. rewrite length_map. apply length_indices_C.
    + apply offset_C_lt. exact Hv.
    + rewrite length_seq. exact Hi.
Qed.

Lemma nth_chunks (sz n k : nat) (buf : list byte) :
  (k < n)%nat ->
  nth k (chunks sz n buf) [] = take sz (drop (k * sz) buf).
Proof.
  revert k buf. induction n as [|n IH]; intros k buf Hk; [lia|].
  destruct k as [|k]; simpl.
  - rewrite drop_0. reflexivity.
  - rewrite IH by lia. rewrite drop_drop. reflexivity.
Qed.

(** An array read from a buffer in Fortran order has, at each index, the
    bytes stored at the column-major position of that index. *)
Lemma item_at_ndarray_F (buf : list byte) (shape : list nat) (d : dtype)
      (a : ndarray) (idx : list nat) :
  ndarray_F buf shape d = inr a ->
  valid_index shape idx ->
  item_at a idx
  = take (itemsize d) (drop (offset_F shape idx * itemsize d) buf).
Proof.
  unfold ndarray_F. destruct (_ <? _)%nat; [discriminate|].
  intros Ha Hv. injection Ha as <-. unfold item_at. simpl.
  set (g := fun idx0 : list nat =>
              nth (offset_F shape idx0)
                  (chunks (itemsize d) (prod shape) buf) []).
  rewrite (nth_indep _ [] (g []))
    by (rewrite length_map, length_indices_C; apply offset_C_lt; exact Hv).
  rewrite (map_nth g), nth_indices_C by exact Hv.
  unfold g. apply nth_chunks. apply offset_F_lt. exact Hv.
Qed.

(** X5: for every real numeric engine array, [get] returns an array of the
    dtype named by the class, with the unit dimensions squeezed out, in
    which the item of each index is the element stored at the
    column-major position of that index in the engine's buffer. *)
Theorem get_decodes_column_major np_add_mul_1j (self : MatlabSession)
        (name : string) (w : world) (m : mxArray) :
  connected self w ->
  0 < next_addr w ->
  workspace w !! c_str name = Some m ->
  class_is_numeric (mx_class m) = true ->
  mx_complex m = false ->
  wf_mxArray m ->
  exists (d : dtype) (y : ndarray) (w' : world),
    np_dtype (name_of_class (mx_class m)) = Some d
    /\ get np_add_mul_1j self name w = (Ret (ArrayLike y), w')
    /\ nd_dtype y = d
    /\ nd_shape y = squeeze_shape (mx_dims m)
    /\ forall idx, valid_index (mx_dims m) idx ->
         item_at y (squeeze_index (mx_dims m) idx)
         = take (class_elem_size (mx_class m))
                (drop (offset_F (mx_dims m) idx
                       * class_elem_size (mx_class m))
                      (mx_pr m)).
Proof.
  intros Hc Hn Hlk Hnum Hcx Hwf.
  destruct (numeric_class_dtype _ Hnum) as (d & Hd & Hsz & _).
  pose proof Hwf as [Hpr _]. rewrite <- Hsz in Hpr.
  destruct (ndarray_F_enough _ _ _ Hpr) as (re & Hre & Hdre & Hsre).
  destruct (get_numeric np_add_mul_1j self name w m d re
              Hc Hn Hlk Hnum Hwf Hd Hre) as [Hget _].
  specialize (Hget Hcx).
  exists d, (squeeze re). eexists.
  split; [exact Hd|]. split; [exact Hget|].
  split; [exact Hdre|]. split; [simpl; rewrite Hsre; reflexivity|].
  intros idx Hv. rewrite <- Hsz.
  rewrite <- (item_at_ndarray_F _ _ _ re idx Hre Hv).
  unfold item_at. simpl. rewrite Hsre, offset_C_squeeze by exact Hv.
  reflexivity.
Qed.

Lemma get_decodes_column_major_witness :
  exists (y : ndarray) (w' : world),
    get pair_components (session_at 1000) "a"
        (with_variable "a"
           (mk_mxArray mxINT8_CLASS [2; 3]%nat false
                       [x01; x04; x02; x05; x03; x06] [])
           (world_with_engine 1000))
    = (Ret (ArrayLike y), w')
    /\ nd_shape y = [2; 3]%nat
    /\ item_at y [1; 2]%nat = [x06]
    /\ item_at y [0; 1]%nat = [x02].
Proof.
  destruct (get_decodes_column_major pair_components (session_at 1000) "a"
              (with_variable "a"
                 (mk_mxArray mxINT8_CLASS [2; 3]%nat false
                             [x01; x04; x02; x05; x03; x06] [])
                 (world_with_engine 1000))
              (mk_mxArray mxINT8_CLASS [2; 3]%nat false
                          [x01; x04; x02; x05; x03; x06] []))
    as (d & y & w' & _ & Hget & _ & Hshape & Hitem).
  - reflexivity.
  - reflexivity.
  - reflexivity.
  - reflexivity.
  - reflexivity.
  - split; [reflexivity|]. discriminate.
  - exists y, w'. split; [exact Hget|]. split; [exact Hshape|].
    split.
    + apply (Hitem [1; 2]%nat). repeat constructor.
    + apply (Hitem [0; 1]%nat). repeat constructor.
Defined.

(** ** Handle discipline *)

Lemma preserves_state {A} (m : M A) (w : world) (o : outcome A) (w' : world) :
  preserves (fun w0 => w0) m -> m w = (o, w') -> w' = w.
Proof. intros Hm Hrun. specialize (Hm w). rewrite Hrun in Hm. exact Hm. Qed.

Lemma delete_fresh_handle (w : world) (m : mxArray) :
  fresh w ->
  delete (next_addr w) (<[next_addr w := m]> (heap w)) = heap w.
Proof. intros Hf. apply delete_insert_id. apply Hf. lia. Qed.

(** How a call of [get] on an existing variable ends: decoding works on
    local copies only, so a value is returned after the handle was
    destroyed, while an exception or a fault leaves the handle
    allocated. *)
Lemma get_outcome np_add_mul_1j (self : MatlabSession) (name : string)
      (w : world) (m : mxArray) :
  connected self w ->
  0 < next_addr w ->
  workspace w !! c_str name = Some m ->
  let w1 := set_next_addr (next_addr w + 1)
              (set_heap (<[next_addr w := m]> (heap w)) w) in
  let w2 := set_destroyed (next_addr w :: destroyed w)
              (set_heap (delete (next_addr w) (heap w1)) w1) in
  exists o : outcome pyvalue,
    get np_add_mul_1j self name w
    = match o with
      | Ret v => (Ret v, w2)
      | Raise e => (Raise e, w1)
      | Crash f => (Crash f, w1)
      end.
Proof.
  intros Hc Hn Hlk w1 w2.
  set (p := next_addr w) in *.
  assert (Hget : engGetVariable (c_arg (_ep self)) (c_str name) w
                 = (Ret p, w1))
    by (apply engGetVariable_found; assumption).
  assert (Hp : p <> 0) by lia.
  assert (Hh : heap w1 !! p = Some m) by apply lookup_insert_eq.
  unfold get. rewrite (bind_Ret _ _ _ _ _ Hget).
  unfold mxGetNumberOfDimensions, mxGetDimensions, mxGetNumberOfElements,
    mxGetElementSize, mxGetClassName, mxIsNumeric, mxIsComplex, mxGetData,
    mxGetImagData.
  repeat rewrite (bind_Ret _ _ _ _ _ (with_array_Ret p _ w1 m Hp Hh)).
  match goal with
  | |- exists o, bind ?br ?k w1 = _ =>
      assert (Hbr : preserves (fun w0 : world => w0) br)
        by (repeat preserves_step);
      destruct (br w1) as [o w1'] eqn:Hrun;
      pose proof (preserves_state br w1 o w1' Hbr Hrun) as ->;
      exists o; unfold bind at 1; rewrite Hrun
  end.
  destruct o as [v|e|f]; try reflexivity.
  unfold bind. rewrite (mxDestroyArray_live p w1 m Hp Hh). reflexivity.
Qed.

(** X6: every call of [get] that returns a value has destroyed the handle it
    obtained, once: the set of live handles is as before the call and the
    handle is the one new entry of the destroy log.  A call that raises
    has not: the handle stays allocated. *)
Theorem get_destroys_handle_iff_returns np_add_mul_1j
        (self : MatlabSession) (name : string) (w : world) (m : mxArray) :
  connected self w ->
  0 < next_addr w ->
  fresh w ->
  workspace w !! c_str name = Some m ->
  (forall v w',
     get np_add_mul_1j self name w = (Ret v, w') ->
     heap w' = heap w /\ destroyed w' = next_addr w :: destroyed w)
  /\ (forall e w',
        get np_add_mul_1j self name w = (Raise e, w') ->
        heap w' !! next_addr w = Some m /\ destroyed w' = destroyed w).
Proof.
  intros Hc Hn Hf Hlk.
  destruct (get_outcome np_add_mul_1j self name w m Hc Hn Hlk) as [o Ho].
  split.
  - intros v w' Hrun. rewrite Hrun in Ho.
    destruct o; inversion Ho; subst. simpl.
    split; [apply delete_fresh_handle; exact Hf|reflexivity].
  - intros e w' Hrun. rewrite Hrun in Ho.
    destruct o; inversion Ho; subst. simpl.
    split; [apply lookup_insert_eq|reflexivity].
Qed.

Lemma get_destroys_handle_iff_returns_witness :
  heap (get pair_components (session_at 1000) "s"
            (with_variable "s" (char_array "abc") (world_with_engine 1000))).2
  = heap (with_variable "s" (char_array "abc") (world_with_engine 1000))
  /\ heap (get pair_components (session_at 1000) "c"
               (with_variable "c" cell_1x1 (world_with_engine 1000))).2
     !! 4096 = Some cell_1x1.
Proof.
  split.
  - eapply (proj1 (get_destroys_handle_iff_returns pair_components
                     (session_at 1000) "s"
                     (with_variable "s" (char_array "abc")
                                    (world_with_engine 1000))
                     (char_array "abc") eq_refl eq_refl
                     (fun p _ => eq_refl) eq_refl)).
    reflexivity.
  - eapply (proj2 (get_destroys_handle_iff_returns pair_components
                     (session_at 1000) "c"
                     (with_variable "c" cell_1x1 (world_with_engine 1000))
                     cell_1x1 eq_refl eq_refl
                     (fun p _ => eq_refl) eq_refl)).
    reflexivity.
Defined.

(** The encoding steps of [put], whether or not the engine is reached:
    what remains is the transfer and the release of the handle. *)
Lemma put_numeric_encoded np_to_mat (self : MatlabSession) (name : string)
      (a : ndarray) (c : mxClassID) (w : world) :
  0 < next_addr w ->
  wf_ndarray a ->
  numeric_kind (nd_dtype a) = true ->
  typemap_selects np_to_mat (nd_dtype a) c ->
  put np_to_mat self name (ArrayLike a) w
  = (engPutVariable (c_arg (_ep self)) (c_str name) (next_addr w) ;;;
     mxDestroyArray (next_addr w))
      (mk_world (engine w) (workspace w)
                (<[next_addr w := encoded c (ndmin2 a)]> (heap w))
                (next_addr w + 1) (destroyed w)
                (buffers w) (output_target w) (evaluated w)).
Proof.
  intros Hn Hwf Hk (Hmap & Hdata & Hsz).
  pose proof (wf_ndmin2 a Hwf) as Hwfv.
  set (v := ndmin2 a) in *.
  assert (Hdv : nd_dtype v = nd_dtype a) by reflexivity.
  unfold put. rewrite bind_ret_l. cbv beta iota. fold v.
  rewrite Hdv, Hk, Hmap. simpl lift.
  set (flag := String.eqb (kind (nd_dtype a)) "c").
  set (n := (prod (nd_shape v) * class_elem_size c)%nat).
  assert (Hlr : length (tostring_F (real v)) = n).
  { unfold n. rewrite length_tostring_F by (apply wf_real; exact Hwfv).
    rewrite shape_real, dtype_real, Hdv, Hsz. reflexivity. }
  set (p := next_addr w) in *.
  set (m0 := {| mx_class := c; mx_dims := nd_shape v; mx_complex := flag;
                mx_pr := repeat x00 n;
                mx_pi := if flag then repeat x00 n else [] |}).
  set (w1 := set_next_addr (p + 1) (set_heap (<[p := m0]> (heap w)) w)).
  assert (H1 : mxCreateNumericArray (nd_ndim v) (nd_shape v) (class_code c)
                 (if flag then 1 else 0) w = (Ret p, w1)).
  { unfold nd_ndim. rewrite mxCreateNumericArray_alloc by exact Hdata.
    reflexivity. }
  set (m1 := mk_mxArray c (nd_shape v) flag (tostring_F (real v))
                        (if flag then repeat x00 n else [])).
  set (w2 := set_heap (<[p := m1]> (heap w)) w1).
  assert (H2 : mxGetData p w1 = (Ret (RealData p), w1)).
  { unfold mxGetData.
    apply (with_array_Ret p (fun _ => RealData p) w1 m0); [lia|].
    apply lookup_insert_eq. }
  assert (H3 : memmove_to (RealData p) (tostring_F (real v))
                 (length (tostring_F (real v))) w1 = (Ret tt, w2)).
  { rewrite (memmove_to_real p _ w1 m0).
    - unfold w2, w1. simpl. rewrite insert_insert_eq. reflexivity.
    - apply lookup_insert_eq.
    - simpl. rewrite repeat_length. symmetry. exact Hlr. }
  set (m2 := encoded c v).
  set (w3 := set_heap (<[p := m2]> (heap w)) w1).
  assert (H4 : (if flag
                then mat_data <- mxGetImagData p ;;
                     memmove_to mat_data (tostring_F (imag v))
                                (length (tostring_F (imag v)))
                else ret tt) w2 = (Ret tt, w3)).
  { unfold w3, m2, encoded. rewrite Hdv. fold flag.
    destruct flag eqn:Hflag.
    - assert (Hli : length (tostring_F (imag v)) = n).
      { unfold n. rewrite length_tostring_F by (apply wf_imag; exact Hwfv).
        rewrite shape_imag, dtype_imag_complex
          by (rewrite Hdv; exact Hflag).
        rewrite Hdv, Hsz. reflexivity. }
      assert (Hg : mxGetImagData p w2 = (Ret (ImagData p), w2)).
      { unfold mxGetImagData.
        rewrite (with_array_Ret p _ w2 m1); [reflexivity|lia|].
        apply lookup_insert_eq. }
      rewrite (bind_Ret _ _ _ _ _ Hg).
      rewrite (memmove_to_imag p _ w2 m1).
      + unfold w2. simpl. rewrite insert_insert_eq. reflexivity.
      + apply lookup_insert_eq.
      + simpl. rewrite repeat_length. symmetry. exact Hli.
    - reflexivity. }
  rewrite (bind_Ret _ _ w w3 (Some p)).
  - reflexivity.
  - rewrite bind_ret_l.
    rewrite (bind_Ret _ _ _ _ _ H1).
    rewrite (bind_Ret _ _ _ _ _ H2).
    rewrite (bind_Ret _ _ _ _ _ H3).
    rewrite (bind_Ret _ _ _ _ _ H4).
    reflexivity.
Qed.

(** X7: [put] of an encodable array always returns normally and releases the
    handle it built, whether or not the transfer worked: the status of
    [engPutVariable] is discarded.  The set of live handles is as before,
    the handle is the one new entry of the destroy log, and the workspace
    holds the array under the name exactly when the session's engine
    handle is the running engine; otherwise it is unchanged. *)
Theorem put_returns_and_frees np_to_mat (self : MatlabSession)
        (name : string) (a : ndarray) (c : mxClassID) (w : world) :
  0 < next_addr w ->
  fresh w ->
  wf_ndarray a ->
  numeric_kind (nd_dtype a) = true ->
  typemap_selects np_to_mat (nd_dtype a) c ->
  exists w' : world,
    put np_to_mat self name (ArrayLike a) w = (Ret tt, w')
    /\ heap w' = heap w
    /\ destroyed w' = next_addr w :: destroyed w
    /\ engine w' = engine w
    /\ (connected self w ->
        workspace w' = <[c_str name := encoded c (ndmin2 a)]> (workspace w))
    /\ (~ connected self w -> workspace w' = workspace w).
Proof.
  intros Hn Hf Hwf Hk Hsel.
  rewrite (put_numeric_encoded np_to_mat self name a c w Hn Hwf Hk Hsel).
  set (p := next_addr w) in *. set (m := encoded c (ndmin2 a)).
  set (w3 := mk_world _ _ _ _ _ _ _ _).
  assert (Hh : heap w3 !! p = Some m) by apply lookup_insert_eq.
  assert (Hp : p <> 0) by lia.
  unfold connected.
  destruct (decide (engine w = Some (c_arg (_ep self)))) as [Hc|Hnc].
  - rewrite (bind_Ret _ _ _ _ _
               (engPutVariable_connected _ (c_str name) p w3 m Hc Hh)).
    rewrite (mxDestroyArray_live p _ m Hp) by exact Hh.
    eexists. split; [reflexivity|]. simpl.
    repeat split; try reflexivity.
    + apply delete_fresh_handle. exact Hf.
    + intros Hnc. contradiction.
  - assert (Hput : engPutVariable (c_arg (_ep self)) (c_str name) p w3
                   = (Ret 1, w3)).
    { unfold engPutVariable.
      rewrite bool_decide_eq_false_2 by exact Hnc. reflexivity. }
    rewrite (bind_Ret _ _ _ _ _ Hput).
    rewrite (mxDestroyArray_live p _ m Hp Hh).
    eexists. split; [reflexivity|]. simpl.
    repeat split; try reflexivity.
    + apply delete_fresh_handle. exact Hf.
    + intros Hc. contradiction.
Qed.

Lemma put_returns_and_frees_witness :
  exists w' : world,
    put np_to_mat_typemap {| _ep := PyInt 0; _output_buffer := None |} "a"
        (ArrayLike sample_2x3) fresh_world = (Ret tt, w')
    /\ heap w' = heap fresh_world
    /\ workspace w' = workspace fresh_world.
Proof.
  destruct (put_returns_and_frees np_to_mat_typemap
              {| _ep := PyInt 0; _output_buffer := None |} "a"
              sample_2x3 mxINT8_CLASS fresh_world)
    as (w' & Hput & Hheap & _ & _ & _ & Hws).
  - reflexivity.
  - intros p _. reflexivity.
  - split; [reflexivity|]. repeat constructor.
  - reflexivity.
  - repeat split; reflexivity.
  - exists w'. split; [exact Hput|]. split; [exact Hheap|].
    apply Hws. discriminate.
Defined.

(** ** Construction: failures and connection *)

Lemma format_system_not_supported (system : string) :
  Format.format "System {} not supported" [system]
  = inr ("System " +:+ system +:+ " not supported").
Proof. vm_compute. reflexivity. Qed.

(** X8: construction fails before anything is launched when the root is
    neither given nor found ([RuntimeError]) and, with a root, when the
    platform is neither Linux nor Darwin ([NotImplementedError] naming
    the platform); the process state is untouched in both cases. *)
Theorem init_fails_before_launch launch (system : string)
        (discovered_root : option string) (options : string)
        (matlab_root : option string) (buffer_size : Z) (w : world) :
  (matlab_root = None -> discovered_root = None ->
   __init__ launch system discovered_root options matlab_root buffer_size w
   = (Raise (RuntimeError "MATLAB location is unknown (set matlab_root)"), w))
  /\ (forall root,
        matlab_root = Some root
        \/ (matlab_root = None /\ discovered_root = Some root) ->
        system <> "Linux" -> system <> "Darwin" ->
        __init__ launch system discovered_root options matlab_root
                 buffer_size w
        = (Raise (NotImplementedError
                    ("System " +:+ system +:+ " not supported")), w)).
Proof.
  split.
  - intros -> ->. reflexivity.
  - intros root Hroot HL HD.
    assert (Hs : String.eqb system "Linux" || String.eqb system "Darwin"
                 = false).
    { apply orb_false_iff. split; apply String.eqb_neq; assumption. }
    unfold __init__.
    destruct Hroot as [-> | [-> ->]];
      rewrite Hs, format_system_not_supported; reflexivity.
Qed.

Lemma init_fails_before_launch_witness :
  __init__ (fun _ => 1000) "Linux" None "-nosplash" None 0 fresh_world
  = (Raise (RuntimeError "MATLAB location is unknown (set matlab_root)"),
     fresh_world)
  /\ __init__ (fun _ => 1000) "Windows" None "-nosplash" (Some "/opt/matlab")
              0 fresh_world
     = (Raise (NotImplementedError "System Windows not supported"),
        fresh_world).
Proof.
  split.
  - apply (proj1 (init_fails_before_launch (fun _ => 1000) "Linux" None
                    "-nosplash" None 0 fresh_world)); reflexivity.
  - apply (proj2 (init_fails_before_launch (fun _ => 1000) "Windows" None
                    "-nosplash" (Some "/opt/matlab") 0 fresh_world)
                 "/opt/matlab").
    + left. reflexivity.
    + discriminate.
    + discriminate.
Defined.

(** X9: with a root and a supported platform the engine is started with the
    command [<root>/bin/matlab <options>], whatever [PATH] would have
    given.  The handle is kept as the C int [engOpen] returned, so the
    session reaches the engine afterwards exactly when the engine's
    address survives the conversion to a C int. *)
Theorem init_connects_iff_address_fits launch (system : string)
        (discovered_root : option string) (options root : string)
        (w : world) :
  system = "Linux" \/ system = "Darwin" ->
  let e := launch (c_str (join root ["bin"; "matlab"] +:+ " " +:+ options)) in
  e <> 0 ->
  __init__ launch system discovered_root options (Some root) 0 w
  = (Ret {| _ep := PyInt (c_int e); _output_buffer := None |},
     set_engine (Some e) w)
  /\ (connected {| _ep := PyInt (c_int e); _output_buffer := None |}
                (set_engine (Some e) w)
      <-> c_int e = e).
Proof.
  intros Hsys e He. split.
  - rewrite init_run by exact Hsys. unfold bind, engOpen. fold e.
    destruct (Z.eqb_spec e 0) as [|_]; [contradiction|]. reflexivity.
  - unfold connected. simpl. rewrite c_int_idem. split.
    + intros H. injection H as H. symmetry. exact H.
    + intros H. rewrite H. reflexivity.
Qed.

Lemma init_connects_iff_address_fits_witness :
  __init__ (fun _ => 1000) "Darwin" None "-nosplash" (Some "/opt/matlab") 0
           fresh_world
  = (Ret (session_at 1000), set_engine (Some 1000) fresh_world)
  /\ connected (session_at 1000) (set_engine (Some 1000) fresh_world).
Proof.
  destruct (init_connects_iff_address_fits (fun _ => 1000) "Darwin" None
              "-nosplash" "/opt/matlab" fresh_world)
    as [Hinit Hconn].
  - right. reflexivity.
  - discriminate.
  - split; [exact Hinit|]. apply Hconn. reflexivity.
Defined.

(** ** The output buffer *)








(** ** More of [put] and [get] *)

(** X11: a dtype the type map rejects makes [put] fail with the type map's
    exception before anything is allocated or transferred. *)
Theorem put_typemap_rejection np_to_mat (self : MatlabSession)
        (name : string) (a : ndarray) (e : exn) (w : world) :
  numeric_kind (nd_dtype a) = true ->
  np_to_mat (nd_dtype a) = inl e ->
  put np_to_mat self name (ArrayLike a) w = (Raise e, w).
Proof.
  intros Hk Hmap. unfold put. rewrite bind_ret_l. cbv beta iota.
  change (nd_dtype (ndmin2 a)) with (nd_dtype a).
  rewrite Hk, Hmap. reflexivity.
Qed.

Lemma put_typemap_rejection_witness :
  exists e,
    put np_to_mat_typemap (session_at 1000) "h"
        (ArrayLike (mk_ndarray float16 [1%nat] [[x00; x3c]]))
        (world_with_engine 1000)
    = (Raise e, world_with_engine 1000).
Proof.
  eexists.
  apply (put_typemap_rejection np_to_mat_typemap (session_at 1000) "h"
           (mk_ndarray float16 [1%nat] [[x00; x3c]])).
  - reflexivity.
  - reflexivity.
Defined.

(** X12: for a variable of any class that is neither numeric nor [char] nor
    [logical] (cell, struct, function handle, ...), [get] raises
    [NotImplementedError] with a message that names the class. *)
Theorem get_rejects_other_classes np_add_mul_1j (self : MatlabSession)
        (name : string) (w : world) (m : mxArray) :
  connected self w ->
  0 < next_addr w ->
  workspace w !! c_str name = Some m ->
  class_is_numeric (mx_class m) = false ->
  mx_class m <> mxCHAR_CLASS ->
  mx_class m <> mxLOGICAL_CLASS ->
  (get np_add_mul_1j self name w).1
  = Raise (NotImplementedError
             (name_of_class (mx_class m) +:+ "-arrays are not implemented")).
Proof.
  intros Hc Hn Hlk Hnum Hchar Hlog.
  set (p := next_addr w) in *.
  set (w1 := set_next_addr (p + 1) (set_heap (<[p := m]> (heap w)) w)).
  assert (Hget : engGetVariable (c_arg (_ep self)) (c_str name) w
                 = (Ret p, w1))
    by (apply engGetVariable_found; assumption).
  assert (Hp : p <> 0) by lia.
  assert (Hh : heap w1 !! p = Some m) by apply lookup_insert_eq.
  unfold get. rewrite (bind_Ret _ _ _ _ _ Hget).
  unfold mxGetNumberOfDimensions, mxGetDimensions, mxGetNumberOfElements,
    mxGetElementSize, mxGetClassName, mxIsNumeric, mxIsComplex, mxGetData,
    mxGetImagData.
  repeat rewrite (bind_Ret _ _ _ _ _ (with_array_Ret p _ w1 m Hp Hh)).
  rewrite Hnum.
  assert (Hc' : String.eqb (name_of_class (mx_class m)) "char" = false)
    by (destruct (mx_class m); try reflexivity; contradiction).
  assert (Hl' : String.eqb (name_of_class (mx_class m)) "logical" = false)
    by (destruct (mx_class m); try reflexivity; contradiction).
  rewrite Hc', Hl', format_not_implemented. reflexivity.
Qed.

Lemma get_rejects_other_classes_witness :
  (get pair_components (session_at 1000) "c"
       (with_variable "c" cell_1x1 (world_with_engine 1000))).1
  = Raise (NotImplementedError "cell-arrays are not implemented").
Proof.
  apply (get_rejects_other_classes pair_components (session_at 1000) "c"
           (with_variable "c" cell_1x1 (world_with_engine 1000)) cell_1x1).
  - reflexivity.
  - reflexivity.
  - reflexivity.
  - reflexivity.
  - discriminate.
  - discriminate.
Defined.

(** X13: every [eval] that reads [ERRORSTR] back keeps the handle it read
    through: after the call, returned or raised, that handle is one more
    live handle and nothing was destroyed. *)
Theorem eval_keeps_error_handle run (self : MatlabSession)
        (expression : string) (w : world) (a : mxArray) :
  connected self w ->
  0 < next_addr w ->
  (run (c_str (wrapped expression)) (workspace w)).1 !! "ERRORSTR" = Some a ->
  let w' := (eval run self expression w).2 in
  heap w' = <[next_addr w := a]> (heap w)
  /\ next_addr w' = next_addr w + 1
  /\ destroyed w' = destroyed w.
Proof.
  intros Hc Hn Hlk.
  pose proof (eval_connected run self expression w a Hc Hn Hlk) as Hrun.
  simpl in Hrun. rewrite Hrun. simpl.
  rewrite destroyed_write_output. repeat split; reflexivity.
Qed.

Lemma eval_keeps_error_handle_witness :
  heap (eval (run_leaving EmptyString []) (session_at 1000) "x = 1;"
             (world_with_engine 1000)).2
  = <[4096 := char_array EmptyString]> ∅.
Proof.
  apply (eval_keeps_error_handle (run_leaving EmptyString [])
           (session_at 1000) "x = 1;" (world_with_engine 1000)
           (char_array EmptyString)).
  - reflexivity.
  - reflexivity.
  - reflexivity.
Defined.

(** ** Complex round trip *)

Lemma zip_with_halves (f : list byte -> list byte -> list byte) (h : nat)
      (l : list (list byte)) :
  Forall (fun it => f (take h it) (drop h it) = it) l ->
  zip_with f (map (take h) l) (map (drop h) l) = l.
Proof.
  induction 1 as [|it l Hit _ IH]; simpl; [reflexivity|].
  rewrite Hit, IH. reflexivity.
Qed.

(** X14: a complex array put into the workspace, with a type map that sends
    its dtype to the class of its components, comes back from [get] with
    the same dtype, squeezed shape and the same items, real and imaginary
    parts alike, whenever numpy's [x + y * 1j] on the components of each
    item is that item (the arithmetic is exact on them). *)
Theorem put_get_complex_round_trip np_to_mat np_add_mul_1j
        (self : MatlabSession) (name : string) (x : ndarray) (c : mxClassID)
        (w : world) :
  connected self w ->
  0 < next_addr w ->
  wf_ndarray x ->
  kind (nd_dtype x) = "c" ->
  np_to_mat (nd_dtype x) = inr (class_code c) ->
  np_dtype (name_of_class c) = Some (component (nd_dtype x)) ->
  Forall (fun it =>
            np_add_mul_1j (component (nd_dtype x))
                          (take (itemsize (nd_dtype x) / 2) it)
                          (drop (itemsize (nd_dtype x) / 2) it) = it)
         (nd_items x) ->
  exists (w1 w2 : world) (y : ndarray),
    put np_to_mat self name (ArrayLike x) w = (Ret tt, w1)
    /\ get np_add_mul_1j self name w1 = (Ret (ArrayLike y), w2)
    /\ nd_dtype y = nd_dtype x
    /\ nd_shape y = squeeze_shape (nd_shape x)
    /\ nd_items y = nd_items x.
Proof.
  intros Hc Hn Hwf Hkc Hmap Hname Hexact.
  assert (Hk : String.eqb (kind (nd_dtype x)) "c" = true)
    by (rewrite Hkc; reflexivity).
  destruct (class_of_dtype_name c _ Hname)
    as (Hnum & Hdata & Hsz & _ & _ & _).
  assert (Hsel : typemap_selects np_to_mat (nd_dtype x) c)
    by (repeat split; assumption).
  assert (Hkind : numeric_kind (nd_dtype x) = true)
    by (destruct (kind_complex _ Hk) as [-> | ->]; reflexivity).
  pose proof (put_numeric np_to_mat self name x c w Hc Hn Hwf Hkind Hsel)
    as Hput.
  pose proof (wf_ndmin2 x Hwf) as Hwfv.
  set (v := ndmin2 x) in *.
  assert (Hdv : nd_dtype v = nd_dtype x) by reflexivity.
  assert (Hsv : squeeze_shape (nd_shape v) = squeeze_shape (nd_shape x))
    by apply squeeze_shape_ones.
  assert (Hiv : nd_items v = nd_items x) by reflexivity.
  clearbody v.
  assert (Hkv : String.eqb (kind (nd_dtype v)) "c" = true)
    by (rewrite Hdv; exact Hk).
  set (m := encoded c v) in *.
  set (w1 := mk_world _ _ _ _ _ _ _ _) in Hput.
  assert (Hm : mx_complex m = true) by exact Hkv.
  assert (Hpr : mx_pr m = tostring_F (real v)) by reflexivity.
  assert (Hpi : mx_pi m = tostring_F (imag v))
    by (unfold m, encoded; simpl; rewrite Hkv; reflexivity).
  assert (Hwfm : wf_mxArray m).
  { unfold wf_mxArray.
    change (mx_class m) with c. change (mx_dims m) with (nd_shape v).
    split; [|intros _]; [rewrite Hpr|rewrite Hpi];
      rewrite length_tostring_F by (apply wf_real || apply wf_imag; exact Hwfv).
    - rewrite shape_real, dtype_real, Hdv, Hsz. reflexivity.
    - rewrite shape_imag, (dtype_imag_complex v Hkv), Hdv, Hsz. reflexivity. }
  assert (Hre : ndarray_F (mx_pr m) (mx_dims m) (component (nd_dtype x))
                = inr {| nd_dtype := component (nd_dtype x);
                         nd_shape := nd_shape v;
                         nd_items := nd_items (real v) |}).
  { rewrite Hpr, <- (app_nil_r (tostring_F (real v))).
    change (mx_dims m) with (nd_shape v).
    rewrite <- (shape_real v).
    apply ndarray_F_tostring_F; [apply wf_real; exact Hwfv|].
    rewrite dtype_real, Hdv. reflexivity. }
  assert (Him : ndarray_F (mx_pi m) (mx_dims m) (component (nd_dtype x))
                = inr {| nd_dtype := component (nd_dtype x);
                         nd_shape := nd_shape v;
                         nd_items := nd_items (imag v) |}).
  { rewrite Hpi, <- (app_nil_r (tostring_F (imag v))).
    change (mx_dims m) with (nd_shape v).
    rewrite <- (shape_imag v).
    apply ndarray_F_tostring_F; [apply wf_imag; exact Hwfv|].
    rewrite (dtype_imag_complex v Hkv), Hdv. reflexivity. }
  assert (Hc1 : connected self w1) by exact Hc.
  assert (Hn1 : 0 < next_addr w1) by (simpl; lia).
  assert (Hlk1 : workspace w1 !! c_str name = Some m)
    by (simpl; apply lookup_insert_eq).
  destruct (get_numeric np_add_mul_1j self name w1 m _ _
              Hc1 Hn1 Hlk1 Hnum Hwfm Hname Hre) as [_ Hget].
  specialize (Hget _ Hm Him).
  eexists w1, _, _. split; [exact Hput|]. split; [exact Hget|].
  split; [|split].
  - simpl. destruct (kind_complex _ Hk) as [-> | ->]; reflexivity.
  - exact Hsv.
  - simpl. unfold real, imag. rewrite Hkv. simpl.
    rewrite Hdv, Hiv. apply zip_with_halves. exact Hexact.
Qed.

Lemma put_get_complex_round_trip_witness :
  exists (w1 w2 : world),
    put np_to_mat_wide (session_at 1000) "z" (ArrayLike sample_z)
        (world_with_engine 1000) = (Ret tt, w1)
    /\ get pair_components (session_at 1000) "z" w1
       = (Ret (ArrayLike sample_z), w2).
Proof.
  destruct (put_get_complex_round_trip np_to_mat_wide pair_components
              (session_at 1000) "z" sample_z mxDOUBLE_CLASS
              (world_with_engine 1000))
    as (w1 & w2 & y & Hput & Hget & Hdt & Hshape & Hitems).
  - reflexivity.
  - reflexivity.
  - split; [reflexivity|]. repeat constructor.
  - reflexivity.
  - reflexivity.
  - reflexivity.
  - repeat constructor.
  - exists w1, w2. split; [exact Hput|]. rewrite Hget.
    destruct y as [yd ys yi]. simpl in Hdt, Hshape, Hitems. subst.
    reflexivity.
Defined.

(** ** Discovery of the root *)

Lemma find_root_None (realpath : string -> string)
      (isfile : string -> bool) (path_dirs : list string) :
  find_root realpath isfile path_dirs = None
  <-> Forall (fun d => isfile (candidate_in realpath d) = false) path_dirs.
Proof.
  induction path_dirs as [|d ds IH]; simpl.
  - split; [constructor|reflexivity].
  - destruct (isfile (candidate_in realpath d)) eqn:Hd.
    + split; [discriminate|].
      intros H. inversion H as [|? ? Hd' _]; subst. congruence.
    + rewrite IH. split.
      * intros H. constructor; assumption.
      * intros H. inversion H; assumption.
Qed.

(** X15: the root found on [PATH] comes from the first directory whose
    [matlab] file exists, whatever the later directories hold; there is
    none exactly when no directory has such a file. *)
Theorem find_root_first_match (realpath : string -> string)
        (isfile : string -> bool) (path_dirs : list string) :
  (find_root realpath isfile path_dirs = None
   <-> Forall (fun d => isfile (candidate_in realpath d) = false) path_dirs)
  /\ (forall before d after,
        path_dirs = before ++ d :: after ->
        Forall (fun d' => isfile (candidate_in realpath d') = false) before ->
        isfile (candidate_in realpath d) = true ->
        find_root realpath isfile path_dirs
        = Some (dirname (dirname (candidate_in realpath d)))).
Proof.
  split; [apply find_root_None|].
  intros before d after -> Hbefore Hd.
  induction Hbefore as [|d' before Hd' _ IH]; simpl.
  - rewrite Hd. reflexivity.
  - rewrite Hd'. exact IH.
Qed.

Lemma find_root_first_match_witness :
  find_root (fun p => p) (String.eqb "/opt/matlab/bin/matlab")
            ["/usr/bin"; "/opt/matlab/bin"; "/other"]
  = Some (dirname (dirname "/opt/matlab/bin/matlab")).
Proof.
  apply (proj2 (find_root_first_match (fun p => p)
                  (String.eqb "/opt/matlab/bin/matlab")
                  ["/usr/bin"; "/opt/matlab/bin"; "/other"])
               ["/usr/bin"] "/opt/matlab/bin" ["/other"]).
  - reflexivity.
  - repeat constructor.
  - reflexivity.
Defined.

Lemma list_ascii_app (s t : string) :
  list_ascii_of_string (s +:+ t)
  = list_ascii_of_string s ++ list_ascii_of_string t.
Proof.
  induction s as [|c s IH]; [reflexivity|].
  change (c :: list_ascii_of_string (s +:+ t)
          = c :: (list_ascii_of_string s ++ list_ascii_of_string t)).
  rewrite IH. reflexivity.
Qed.

Lemma drop_while_prefix (f : ascii -> bool) (l rest : list ascii) :
  forallb f l = true -> drop_while f (l ++ rest) = drop_while f rest.
Proof.
  induction l as [|c l IH]; simpl; [reflexivity|].
  destruct (f c); simpl; [exact IH|discriminate].
Qed.

Lemma forallb_rev (f : ascii -> bool) (l : list ascii) :
  forallb f (rev l) = forallb f l.
Proof.
  induction l as [|c l IH]; simpl; [reflexivity|].
  rewrite forallb_app, IH. simpl. rewrite andb_true_r. apply andb_comm.
Qed.

(** [dirname] of [x/name] is [x], for a name without slash and an [x]
    that does not end with a slash and is not empty. *)
Lemma dirname_chars_child (x name : list ascii) (c : ascii) (x' : list ascii) :
  forallb (fun a => negb (is_slash a)) name = true ->
  rev x = c :: x' -> is_slash c = false ->
  dirname_chars (x ++ "/"%char :: name) = x.
Proof.
  intros Hname Hrev Hc. unfold dirname_chars.
  rewrite rev_app_distr. simpl rev. rewrite <- app_assoc. simpl app.
  rewrite drop_while_prefix by (rewrite forallb_rev; exact Hname).
  simpl drop_while. rewrite Hrev. simpl. rewrite Hc. simpl.
  change (rev x' ++ [c]) with (rev (c :: x')).
  rewrite <- Hrev. apply rev_involutive.
Qed.

Lemma dirname_chars_no_slash (name : list ascii) :
  forallb (fun a => negb (is_slash a)) name = true ->
  dirname_chars name = [].
Proof.
  intros Hname. unfold dirname_chars.
  rewrite <- (app_nil_r (rev name)).
  rewrite drop_while_prefix by (rewrite forallb_rev; exact Hname).
  reflexivity.
Qed.

(** X16: discovery inverts the assembly of the command: for a root that does
    not end with a slash, the root recovered from the file
    [<root>/bin/matlab] is that root, so the executable then launched is
    the file that was found. *)
Theorem dirname_of_executable (root : string) :
  ends_with_slash root = false ->
  dirname (dirname (join root ["bin"; "matlab"])) = root
  /\ join (dirname (dirname (join root ["bin"; "matlab"]))) ["bin"; "matlab"]
     = join root ["bin"; "matlab"].
Proof.
  intros Hend.
  assert (H : dirname (dirname (join root ["bin"; "matlab"])) = root).
  { unfold join. simpl fold_left.
    destruct root as [|c0 root0] eqn:Hr.
    - reflexivity.
    - rewrite <- Hr in *.
      assert (Hj1 : join2 root "bin" = root +:+ "/bin").
      { unfold join2. simpl starts_with_slash. cbv iota.
        rewrite Hend, Hr. reflexivity. }
      assert (Hj2 : join2 (root +:+ "/bin") "matlab"
                    = (root +:+ "/bin") +:+ "/matlab").
      { unfold join2. simpl starts_with_slash. cbv iota.
        assert (He : ends_with_slash (root +:+ "/bin") = false).
        { unfold ends_with_slash. rewrite list_ascii_app, rev_app_distr.
          reflexivity. }
        rewrite He. rewrite Hr. reflexivity. }
      rewrite Hj1, Hj2.
      unfold ends_with_slash in Hend.
      destruct (rev (list_ascii_of_string root)) as [|c x'] eqn:Hrev.
      { rewrite Hr in Hrev. simpl in Hrev.
        destruct (rev (list_ascii_of_string root0)); discriminate Hrev. }
      unfold dirname at 2.
      rewrite list_ascii_app.
      change (list_ascii_of_string "/matlab")
        with ("/"%char :: list_ascii_of_string "matlab").
      rewrite (dirname_chars_child _ _ "n"%char
                 ("i"%char :: "b"%char :: "/"%char
                  :: rev (list_ascii_of_string root)));
        [|reflexivity
         |rewrite list_ascii_app, rev_app_distr; reflexivity
         |reflexivity].
      unfold dirname. rewrite list_ascii_of_string_of_list_ascii.
      rewrite list_ascii_app.
      change (list_ascii_of_string "/bin")
        with ("/"%char :: list_ascii_of_string "bin").
      rewrite (dirname_chars_child (list_ascii_of_string root)
                 (list_ascii_of_string "bin") c x' eq_refl Hrev Hend).
      apply string_of_list_ascii_of_string. }
  split; [exact H|]. rewrite H. reflexivity.
Qed.

Lemma dirname_of_executable_witness :
  dirname (dirname (join "/opt/matlab" ["bin"; "matlab"])) = "/opt/matlab".
Proof.
  apply (proj1 (dirname_of_executable "/opt/matlab" eq_refl)).
Defined.

(** X17: without a given root, construction raises the unknown-location
    [RuntimeError] exactly when no directory of [PATH] holds a [matlab]
    file; no other path of the constructor raises that error. *)
Theorem init_unknown_location_iff launch (realpath : string -> string)
        (isfile : string -> bool) (path_dirs : list string)
        (system options : string) (buffer_size : Z) (w : world) :
  (__init__ launch system (find_root realpath isfile path_dirs) options None
            buffer_size w).1
  = Raise (RuntimeError "MATLAB location is unknown (set matlab_root)")
  <-> Forall (fun d => isfile (candidate_in realpath d) = false) path_dirs.
Proof.
  rewrite <- find_root_None.
  destruct (find_root realpath isfile path_dirs) as [root|].
  - split; [|discriminate]. intros H. exfalso. revert H.
    change (__init__ launch system (Some root) options None buffer_size w)
      with (__init__ launch system (Some root) options (Some root)
                     buffer_size w).
    destruct (String.eqb system "Linux" || String.eqb system "Darwin") eqn:Hs.
    + assert (Hsys : system = "Linux" \/ system = "Darwin").
      { apply orb_true_iff in Hs. destruct Hs as [Hs|Hs];
          apply String.eqb_eq in Hs; auto. }
      rewrite init_run by exact Hsys.
      unfold bind, engOpen, new_string_buffer, engOutputBuffer, ret.
      repeat case_match; simplify_eq; simpl; discriminate.
    + unfold __init__. rewrite Hs, format_system_not_supported.
      discriminate.
  - split; reflexivity.
Qed.

(** ** Composition *)

(** X18: two [put]s under the same name leave the workspace as the second
    alone would: the last value wins, and every variable under another
    name is as before. *)
Theorem put_overwrites np_to_mat (self : MatlabSession) (name : string)
        (x1 x2 : ndarray) (c1 c2 : mxClassID) (w : world) :
  connected self w ->
  0 < next_addr w ->
  wf_ndarray x1 -> wf_ndarray x2 ->
  numeric_kind (nd_dtype x1) = true -> numeric_kind (nd_dtype x2) = true ->
  typemap_selects np_to_mat (nd_dtype x1) c1 ->
  typemap_selects np_to_mat (nd_dtype x2) c2 ->
  exists w1 w2 : world,
    put np_to_mat self name (ArrayLike x1) w = (Ret tt, w1)
    /\ put np_to_mat self name (ArrayLike x2) w1 = (Ret tt, w2)
    /\ workspace w2
       = <[c_str name := encoded c2 (ndmin2 x2)]> (workspace w)
    /\ forall other, other <> c_str name ->
         workspace w2 !! other = workspace w !! other.
Proof.
  intros Hc Hn Hwf1 Hwf2 Hk1 Hk2 Hsel1 Hsel2.
  pose proof (put_numeric np_to_mat self name x1 c1 w Hc Hn Hwf1 Hk1 Hsel1)
    as Hput1.
  set (w1 := mk_world _ _ _ _ _ _ _ _) in Hput1.
  assert (Hc1 : connected self w1) by exact Hc.
  assert (Hn1 : 0 < next_addr w1) by (simpl; lia).
  pose proof (put_numeric np_to_mat self name x2 c2 w1 Hc1 Hn1 Hwf2 Hk2 Hsel2)
    as Hput2.
  set (w2 := mk_world _ _ _ _ _ _ _ _) in Hput2.
  exists w1, w2. split; [exact Hput1|]. split; [exact Hput2|].
  assert (Hws : workspace w2
                = <[c_str name := encoded c2 (ndmin2 x2)]> (workspace w))
    by (simpl; apply insert_insert_eq).
  split; [exact Hws|].
  intros other Hne. rewrite Hws. apply lookup_insert_ne. congruence.
Qed.

Lemma put_overwrites_witness :
  exists w1 w2 : world,
    put np_to_mat_typemap (session_at 1000) "a" (ArrayLike sample_2x3)
        (world_with_engine 1000) = (Ret tt, w1)
    /\ put np_to_mat_typemap (session_at 1000) "a" (ArrayLike sample_1x5) w1
       = (Ret tt, w2)
    /\ workspace w2 !! "a" = Some (encoded mxINT8_CLASS sample_1x5).
Proof.
  destruct (put_overwrites np_to_mat_typemap (session_at 1000) "a"
              sample_2x3 sample_1x5 mxINT8_CLASS mxINT8_CLASS
              (world_with_engine 1000))
    as (w1 & w2 & Hput1 & Hput2 & Hws & _).
  - reflexivity.
  - reflexivity.
  - split; [reflexivity|]. repeat constructor.
  - split; [reflexivity|]. repeat constructor.
  - reflexivity.
  - reflexivity.
  - repeat split; reflexivity.
  - repeat split; reflexivity.
  - exists w1, w2. split; [exact Hput1|]. split; [exact Hput2|].
    rewrite Hws. apply lookup_insert_eq.
Defined.

(** X19: when the script leaves an [ERRORSTR] that is not a char array,
    [mxArrayToString] gives NULL, which is read as [None]: [eval] raises
    a [RuntimeError] whose message ends with the text [None]. *)
Theorem eval_non_text_error_variable run (self : MatlabSession)
        (expression : string) (w : world) (a : mxArray) :
  connected self w ->
  0 < next_addr w ->
  (run (c_str (wrapped expression)) (workspace w)).1 !! "ERRORSTR" = Some a ->
  mx_class a <> mxCHAR_CLASS ->
  (eval run self expression w).1
  = Raise (RuntimeError ("Error from MATLAB" +:+ nl +:+ "None")).
Proof.
  intros Hc Hn Hlk Hcls.
  pose proof (eval_connected run self expression w a Hc Hn Hlk) as Hrun.
  simpl in Hrun. rewrite Hrun. simpl fst.
  unfold array_text. rewrite bool_decide_eq_false_2 by exact Hcls.
  reflexivity.
Qed.

Lemma eval_non_text_error_variable_witness :
  (eval (fun _ ws => (<["ERRORSTR" := cell_1x1]> ws, []))
        (session_at 1000) "ERRORSTR = {1};" (world_with_engine 1000)).1
  = Raise (RuntimeError ("Error from MATLAB" +:+ nl +:+ "None")).
Proof.
  apply (eval_non_text_error_variable
           (fun _ ws => (<["ERRORSTR" := cell_1x1]> ws, []))
           (session_at 1000) "ERRORSTR = {1};" (world_with_engine 1000)
           cell_1x1).
  - reflexivity.
  - reflexivity.
  - reflexivity.
  - discriminate.
Defined.

(** ** The script sent by [eval] *)

Lemma no_nul_forallb (l : list ascii) :
  forallb (fun c => negb (Ascii.eqb c zero)) l = true ->
  Forall (fun c => c <> zero) l.
Proof.
  induction l as [|c l IH]; simpl; intros H; [constructor|].
  apply andb_true_iff in H. destruct H as [Hc Hl].
  constructor; [|apply IH; exact Hl].
  intros ->. discriminate Hc.
Qed.

(** The template holds no NUL byte: a script is cut short only by a NUL
    of the expression. *)
Lemma wrapped_no_nul (expression : string) :
  Forall (fun c => c <> zero) (list_ascii_of_string expression) ->
  c_str (wrapped expression) = wrapped expression.
Proof.
  intros He. apply c_str_id. unfold wrapped.
  rewrite !list_ascii_app. apply Forall_app. split; [|apply Forall_app; split].
  - apply no_nul_forallb. vm_compute. reflexivity.
  - exact He.
  - apply no_nul_forallb. vm_compute. reflexivity.
Qed.

(** C8 (as amended): whatever the expression holds, braces included, the
    template is instantiated without error and the expression stands
    unmodified between the two halves of the template; on a connected
    session the engine is sent that script as a C string, that is, up to
    its first NUL byte, which is the whole script when the expression
    holds no NUL byte. *)
Theorem eval_embeds_expression (expression : string) :
  Format.format wrap_script [expression]
  = inr (wrap_prefix +:+ expression +:+ wrap_suffix)
  /\ (forall run (self : MatlabSession) (w : world),
        connected self w ->
        evaluated (eval run self expression w).2
        = c_str (wrap_prefix +:+ expression +:+ wrap_suffix) :: evaluated w)
  /\ (Forall (fun c => c <> zero) (list_ascii_of_string expression) ->
      c_str (wrap_prefix +:+ expression +:+ wrap_suffix)
      = wrap_prefix +:+ expression +:+ wrap_suffix).
Proof.
  split; [apply format_wrap_script|]. split.
  - intros run self w Hc. unfold eval.
    rewrite format_wrap_script. simpl lift. rewrite bind_ret_l.
    rewrite (bind_Ret _ _ _ _ _ (engEvalString_connected run _ _ w Hc)).
    rewrite eval_tail_evaluated.
    + rewrite evaluated_write_output. reflexivity.
    + intros x w0. destruct (py_ne x (PyStr EmptyString)); reflexivity.
  - apply wrapped_no_nul.
Qed.

Lemma eval_embeds_expression_witness :
  evaluated (eval (run_leaving EmptyString []) (session_at 1000) "x = {1, 2};"
                  (world_with_engine 1000)).2
  = [c_str (wrap_prefix +:+ "x = {1, 2};" +:+ wrap_suffix)]
  /\ c_str (wrap_prefix +:+ "x = {1, 2};" +:+ wrap_suffix)
     = wrap_prefix +:+ "x = {1, 2};" +:+ wrap_suffix.
Proof.
  split.
  - apply (proj1 (proj2 (eval_embeds_expression "x = {1, 2};"))
                 (run_leaving EmptyString []) (session_at 1000)
                 (world_with_engine 1000)).
    reflexivity.
  - apply (proj2 (proj2 (eval_embeds_expression "x = {1, 2};"))).
    apply no_nul_forallb. vm_compute. reflexivity.
Defined.

(** ** The array built by [put] *)

Lemma nth_map_in_range {A B} (f : A -> B) (l : list A) (k : nat)
      (da : A) (db : B) :
  (k < length l)%nat -> nth k (map f l) db = f (nth k l da).
Proof.
  intros Hk. rewrite (nth_indep _ db (f da)) by (rewrite length_map; exact Hk).
  apply map_nth.
Qed.

(** The items of the real and of the imaginary part of a complex array
    are the two halves of its items. *)
Lemma item_at_real_complex (a : ndarray) (idx : list nat) :
  wf_ndarray a -> valid_index (nd_shape a) idx ->
  String.eqb (kind (nd_dtype a)) "c" = true ->
  item_at (real a) idx = take (itemsize (nd_dtype a) / 2) (item_at a idx).
Proof.
  intros [Hlen _] Hv Hk. unfold item_at, real. rewrite Hk. simpl.
  apply nth_map_in_range. rewrite Hlen. apply offset_C_lt. exact Hv.
Qed.

Lemma item_at_imag_complex (a : ndarray) (idx : list nat) :
  wf_ndarray a -> valid_index (nd_shape a) idx ->
  String.eqb (kind (nd_dtype a)) "c" = true ->
  item_at (imag a) idx = drop (itemsize (nd_dtype a) / 2) (item_at a idx).
Proof.
  intros [Hlen _] Hv Hk. unfold item_at, imag. rewrite Hk. simpl.
  apply nth_map_in_range. rewrite Hlen. apply offset_C_lt. exact Hv.
Qed.

(** C6 (as amended): every non-text, non-mapping value is coerced to an
    array of at least two dimensions with the same dtype and items (a
    scalar becomes 1-by-1); when the element kind is one of i, u, f, c, b
    and the type map has a class for the dtype, the array allocated and
    handed to the engine has the class of the type map, the dimensions of
    the coerced array and the complex flag exactly when the kind is
    complex; its real buffer holds, at the column-major position of each
    index, the item of that index (its real half when complex), and,
    exactly when complex, its imaginary buffer holds the imaginary half
    of the item likewise; otherwise there is no imaginary buffer. *)
Theorem put_encodes_column_major np_to_mat (self : MatlabSession)
        (name : string) (a : ndarray) (w : world) :
  let v := ndmin2 a in
  (2 <= length (nd_shape v))%nat
  /\ (nd_shape a = [] -> nd_shape v = [1; 1]%nat)
  /\ nd_items v = nd_items a
  /\ nd_dtype v = nd_dtype a
  /\ forall c : mxClassID,
       connected self w ->
       0 < next_addr w ->
       wf_ndarray a ->
       kind (nd_dtype a) ∈ ["i"; "u"; "f"; "c"; "b"] ->
       typemap_selects np_to_mat (nd_dtype a) c ->
       exists (w' : world) (m : mxArray),
         put np_to_mat self name (ArrayLike a) w = (Ret tt, w')
         /\ workspace w' !! c_str name = Some m
         /\ destroyed w' = next_addr w :: destroyed w
         /\ mx_class m = c
         /\ mx_dims m = nd_shape v
         /\ (mx_complex m = true <-> kind (nd_dtype a) = "c")
         /\ mx_pr m = tostring_F (real v)
         /\ length (mx_pr m)
            = (prod (nd_shape v) * class_elem_size c)%nat
         /\ (forall idx, valid_index (nd_shape v) idx ->
               take (class_elem_size c)
                    (drop (offset_F (nd_shape v) idx * class_elem_size c)
                          (mx_pr m))
               = if String.eqb (kind (nd_dtype a)) "c"
                 then take (itemsize (nd_dtype a) / 2) (item_at v idx)
                 else item_at v idx)
         /\ (kind (nd_dtype a) = "c" ->
             mx_pi m = tostring_F (imag v)
             /\ length (mx_pi m)
                = (prod (nd_shape v) * class_elem_size c)%nat
             /\ forall idx, valid_index (nd_shape v) idx ->
                  take (class_elem_size c)
                       (drop (offset_F (nd_shape v) idx * class_elem_size c)
                             (mx_pi m))
                  = drop (itemsize (nd_dtype a) / 2) (item_at v idx))
         /\ (kind (nd_dtype a) <> "c" -> mx_pi m = []).
Proof.
  intros v. split; [apply length_ndmin2_shape|].
  split; [intros Hs; unfold v, ndmin2; simpl; rewrite Hs; reflexivity|].
  split; [reflexivity|]. split; [reflexivity|].
  intros c Hc Hn Hwf Hk Hsel.
  pose proof (put_numeric np_to_mat self name a c w Hc Hn Hwf
                (numeric_kind_elem _ Hk) Hsel) as Hput.
  destruct Hsel as (_ & _ & Hsz).
  pose proof (wf_ndmin2 a Hwf) as Hwfv. fold v in Hwfv, Hput.
  assert (Hdv : nd_dtype v = nd_dtype a) by reflexivity.
  clearbody v.
  assert (Hreal : forall idx, valid_index (nd_shape v) idx ->
            take (class_elem_size c)
                 (drop (offset_F (nd_shape v) idx * class_elem_size c)
                       (tostring_F (real v)))
            = item_at (real v) idx).
  { intros idx Hv. rewrite Hsz, <- Hdv, <- dtype_real.
    rewrite <- (shape_real v) in Hv |- *.
    apply tostring_F_column_major; [apply wf_real; exact Hwfv|exact Hv]. }
  eexists. exists (encoded c v). split; [exact Hput|].
  split; [simpl; apply lookup_insert_eq|].
  split; [reflexivity|].
  split; [reflexivity|].
  split; [reflexivity|].
  split.
  { simpl. rewrite Hdv. split; intros H; apply String.eqb_eq; exact H. }
  split; [reflexivity|].
  split.
  { simpl. rewrite length_tostring_F by (apply wf_real; exact Hwfv).
    rewrite shape_real, dtype_real, Hdv, Hsz. reflexivity. }
  split.
  { intros idx Hv. simpl mx_pr. rewrite (Hreal idx Hv).
    destruct (String.eqb (kind (nd_dtype a)) "c") eqn:Hcx.
    - rewrite <- Hdv in Hcx |- *.
      apply item_at_real_complex; assumption.
    - rewrite real_of_real by (rewrite Hdv; exact Hcx). reflexivity. }
  split.
  - intros Hcx. apply String.eqb_eq in Hcx. rewrite <- Hdv in Hcx.
    unfold encoded. cbn [mx_pi]. rewrite Hcx.
    split; [reflexivity|]. split.
    + rewrite length_tostring_F by (apply wf_imag; exact Hwfv).
      rewrite shape_imag, (dtype_imag_complex v Hcx), Hdv, Hsz. reflexivity.
    + intros idx Hv.
      rewrite Hsz, <- Hdv.
      rewrite <- (item_at_imag_complex v idx Hwfv Hv Hcx).
      rewrite <- (dtype_imag_complex v Hcx).
      rewrite <- (shape_imag v) in Hv |- *.
      apply tostring_F_column_major; [apply wf_imag; exact Hwfv|exact Hv].
  - intros Hncx. simpl. rewrite Hdv.
    destruct (String.eqb_spec (kind (nd_dtype a)) "c") as [Heq|_];
      [contradiction|reflexivity].
Qed.

Lemma put_encodes_column_major_witness :
  exists (w' : world) (m : mxArray),
    put np_to_mat_wide (session_at 1000) "z" (ArrayLike sample_z)
        (world_with_engine 1000) = (Ret tt, w')
    /\ workspace w' !! c_str "z" = Some m
    /\ mx_dims m = [1; 2]%nat
    /\ mx_complex m = true
    /\ mx_pr m = repeat x01 8 ++ repeat x03 8
    /\ mx_pi m = repeat x02 8 ++ repeat x04 8.
Proof.
  destruct (proj2 (proj2 (proj2 (proj2
              (put_encodes_column_major np_to_mat_wide (session_at 1000)
                 "z" sample_z (world_with_engine 1000)))))
              mxDOUBLE_CLASS)
    as (w' & m & Hput & Hlk & _ & _ & Hdims & Hcx & Hpr & _ & _ & Hpi & _).
  - reflexivity.
  - reflexivity.
  - split; [reflexivity|]. repeat constructor.
  - apply list_elem_of_In. simpl. auto.
  - repeat split; reflexivity.
  - exists w', m. split; [exact Hput|]. split; [exact Hlk|].
    split; [exact Hdims|]. split; [apply Hcx; reflexivity|].
    split; [exact Hpr|]. apply (proj1 (Hpi eq_refl)).
Defined.

(** C6, the claim as stated fails: an object array is a non-text,
    non-mapping value, and [put] raises for it without allocating any
    handle or storing anything. *)
Lemma put_object_array_counterexample :
  let value := ArrayLike (mk_ndarray object_ [2%nat]
                            [repeat x01 8; repeat x02 8]) in
  let r := put np_to_mat_typemap (session_at 1000) "o" value
               (world_with_engine 1000) in
  r.1 = Raise (NotImplementedError "Type object not supported.")
  /\ heap r.2 = ∅
  /\ next_addr r.2 = next_addr (world_with_engine 1000)
  /\ destroyed r.2 = []
  /\ workspace r.2 !! "o" = None.
Proof. vm_compute. repeat split; reflexivity. Qed.

(** ** Complex arrays *)

Lemma nth_zip_with {A B C} (f : A -> B -> C) (l1 : list A) (l2 : list B)
      (k : nat) (da : A) (db : B) (dc : C) :
  (k < length l1)%nat -> (k < length l2)%nat ->
  nth k (zip_with f l1 l2) dc = f (nth k l1 da) (nth k l2 db).
Proof.
  revert l2 k. induction l1 as [|x l1 IH]; intros l2 k H1 H2; simpl in *;
    [lia|].
  destruct l2 as [|y l2]; simpl in *; [lia|].
  destruct k as [|k]; [reflexivity|]. apply IH; lia.
Qed.

Lemma length_items_ndarray_F (buf : list byte) (shape : list nat) (d : dtype)
      (a : ndarray) :
  ndarray_F buf shape d = inr a -> length (nd_items a) = prod shape.
Proof.
  unfold ndarray_F. destruct (_ <? _)%nat; [discriminate|].
  intros H. injection H as <-. simpl.
  rewrite length_map. apply length_indices_C.
Qed.

(** C9: for every complex numeric array [get] returns an array of a
    floating-point complex dtype, whatever the engine class: [complex64]
    for the single class and [complex128] for the double class and for
    every integer class (which is promoted, not preserved).  Its shape is
    the squeezed shape, and the item of each index is numpy's
    [x + y * 1j] of the element [x] stored at the column-major position
    of that index in the real buffer and the element [y] stored at the
    same position in the imaginary buffer. *)
Theorem get_complex_promotes np_add_mul_1j (self : MatlabSession)
        (name : string) (w : world) (m : mxArray) :
  connected self w ->
  0 < next_addr w ->
  workspace w !! c_str name = Some m ->
  class_is_numeric (mx_class m) = true ->
  mx_complex m = true ->
  wf_mxArray m ->
  exists (d : dtype) (y : ndarray) (w' : world),
    np_dtype (name_of_class (mx_class m)) = Some d
    /\ get np_add_mul_1j self name w = (Ret (ArrayLike y), w')
    /\ nd_dtype y = (if bool_decide (mx_class m = mxSINGLE_CLASS)
                     then complex64 else complex128)
    /\ nd_shape y = squeeze_shape (mx_dims m)
    /\ length (nd_items y) = prod (mx_dims m)
    /\ forall idx, valid_index (mx_dims m) idx ->
         item_at y (squeeze_index (mx_dims m) idx)
         = np_add_mul_1j d
             (take (class_elem_size (mx_class m))
                   (drop (offset_F (mx_dims m) idx
                          * class_elem_size (mx_class m))
                         (mx_pr m)))
             (take (class_elem_size (mx_class m))
                   (drop (offset_F (mx_dims m) idx
                          * class_elem_size (mx_class m))
                         (mx_pi m))).
Proof.
  intros Hc Hn Hlk Hnum Hcx Hwf.
  destruct (numeric_class_dtype _ Hnum) as (d & Hd & Hsz & _).
  pose proof Hwf as [Hpr Hpi]. specialize (Hpi Hcx).
  rewrite <- Hsz in Hpr, Hpi.
  destruct (ndarray_F_enough _ _ _ Hpr) as (re & Hre & Hdre & Hsre).
  destruct (ndarray_F_enough _ _ _ Hpi) as (im & Him & Hdim & Hsim).
  destruct (get_numeric np_add_mul_1j self name w m d re
              Hc Hn Hlk Hnum Hwf Hd Hre) as [_ Hget].
  specialize (Hget im Hcx Him).
  pose proof (length_items_ndarray_F _ _ _ _ Hre) as Hlre.
  pose proof (length_items_ndarray_F _ _ _ _ Him) as Hlim.
  exists d. eexists. eexists.
  split; [exact Hd|]. split; [exact Hget|].
  split; [|split; [|split]].
  - simpl. rewrite Hdre.
    destruct (mx_class m); try discriminate Hnum;
      injection Hd as <-; reflexivity.
  - simpl. rewrite Hsre. reflexivity.
  - simpl. rewrite length_zip_with, Hlre, Hlim. lia.
  - intros idx Hv. rewrite <- Hsz.
    rewrite <- (item_at_ndarray_F _ _ _ re idx Hre Hv).
    rewrite <- (item_at_ndarray_F _ _ _ im idx Him Hv).
    unfold item_at. simpl.
    rewrite Hsre, Hsim, Hdre, offset_C_squeeze by exact Hv.
    apply nth_zip_with.
    + rewrite Hlre. apply offset_C_lt. exact Hv.
    + rewrite Hlim. apply offset_C_lt. exact Hv.
Qed.

Lemma get_complex_promotes_witness :
  exists (y : ndarray) (w' : world),
    get pair_components (session_at 1000) "z"
        (with_variable "z" sample_complex (world_with_engine 1000))
    = (Ret (ArrayLike y), w')
    /\ nd_dtype y = complex128
    /\ nd_shape y = [2%nat]
    /\ item_at y [0%nat] = pair_components int16 [x01; x00] [x03; x00]
    /\ item_at y [1%nat] = pair_components int16 [x02; x00] [x04; x00].
Proof.
  destruct (get_complex_promotes pair_components (session_at 1000) "z"
              (with_variable "z" sample_complex (world_with_engine 1000))
              sample_complex)
    as (d & y & w' & Hd & Hget & Hdt & Hshape & _ & Hitem).
  - reflexivity.
  - reflexivity.
  - reflexivity.
  - reflexivity.
  - reflexivity.
  - split; [reflexivity|]. intros _. reflexivity.
  - injection Hd as <-.
    exists y, w'. split; [exact Hget|]. split; [exact Hdt|].
    split; [exact Hshape|]. split.
    + apply (Hitem [0; 0]%nat). repeat constructor.
    + apply (Hitem [0; 1]%nat). repeat constructor.
Defined.
